(** * bolt.diy: the in-memory key-value emulator and the routes that use it

    A shallow embedding of [app/lib/mocks/mockKV.ts], [app/lib/mocks/mockEnv.ts]
    and of the [action] handlers of the register and login routes, followed by
    the properties of the emulator stated in the repository's specification.
    The helpers of [app/lib/auth/auth.server.ts], the loaders of the root,
    index, register and login routes, the user store, the admin route, the
    configuration API and [app/lib/mocks/setupMockData.ts] follow, with the
    properties that their code shows.

    Conventions of the embedding.
    - A JavaScript string is a [string] holding the UTF-8 bytes of a
      well-formed text.  Concatenation, equality and [startsWith] agree with
      their JavaScript counterparts on such texts; [length] (counted in UTF-16
      code units by JavaScript) is [JS.length].
    - A JavaScript number that comes out of [JSON.parse] keeps its literal;
      of its rounding to a double the model has what truthiness asks for,
      whether the value is zero ([JS.is_zero]).
    - An object lists its properties in the order of their creation (none of
      the modelled objects has a key that is an array index, which JavaScript
      would list first).
    - An [async] method is a function of the remaining scheduling budget and
      of the process state, see [Async]. *)

From Stdlib Require Import List String Ascii NArith ZArith Bool Arith Lia Permutation.
From Stdlib.Strings Require Import Byte.
Import ListNotations.

Set Warnings "-register-all".

Open Scope string_scope.
Open Scope list_scope.

Infix "+:+" := String.append (at level 60, right associativity).

(* ================================================================== *)
(** * The host platform: strings, byte codecs, streams, Map and JSON    *)
(* ================================================================== *)

Module JS.

(** The code of a character and the character of a code below 256. *)
Definition code (c : ascii) : N := N_of_ascii c.
Definition chr (n : N) : ascii := ascii_of_N n.
Definition str1 (n : N) : string := String (chr n) EmptyString.

(** The double quote, U+0022. *)
Definition dq : string := str1 34.

(** [s.startsWith(p)]. *)
Definition startsWith (s p : string) : bool := String.prefix p s.

(** Truthiness of a string: only the empty string is falsy. *)
Definition truthy_string (s : string) : bool :=
  match s with EmptyString => false | String _ _ => true end.

(** [s.length], in UTF-16 code units: a continuation byte counts for
    nothing, the lead byte of a four-byte sequence (a surrogate pair) for two,
    every other byte for one. *)
Definition units (c : ascii) : nat :=
  let n := code c in
  if (n <? 128)%N then 1
  else if (n <? 192)%N then 0
  else if (n <? 240)%N then 1
  else 2.

Fixpoint length (s : string) : nat :=
  match s with
  | EmptyString => 0
  | String c r => units c + length r
  end.

(** ** TextEncoder and TextDecoder (UTF-8) *)

Definition Uint8Array := list byte.

(** [new TextEncoder().encode(s)]. *)
Definition TextEncoder_encode (s : string) : Uint8Array := list_byte_of_string s.

(** The replacement character U+FFFD, in UTF-8. *)
Definition replacement : Uint8Array := [xef; xbf; xbd].

(** The state of the decoder: at a sequence boundary, or inside a sequence
    with [need] continuation bytes to come, the next one within [lo..hi];
    [acc] holds the bytes of the sequence read so far. *)
Inductive decoder_state :=
| Boundary
| Inside (need : nat) (lo hi : N) (acc : Uint8Array).

Definition within (lo hi n : N) : bool := ((lo <=? n) && (n <=? hi))%N.

Definition decode_lead (b : byte) : Uint8Array * decoder_state :=
  let n := Byte.to_N b in
  if (n <=? 127)%N then ([b], Boundary)
  else if within 194 223 n then ([], Inside 1 128 191 [b])
  else if within 224 239 n then
    ([], Inside 2 (if (n =? 224)%N then 160 else 128)%N
                  (if (n =? 237)%N then 159 else 191)%N [b])
  else if within 240 244 n then
    ([], Inside 3 (if (n =? 240)%N then 144 else 128)%N
                  (if (n =? 244)%N then 143 else 191)%N [b])
  else (replacement, Boundary).

Definition decode_step (st : decoder_state) (b : byte) : Uint8Array * decoder_state :=
  match st with
  | Boundary => decode_lead b
  | Inside need lo hi acc =>
      if within lo hi (Byte.to_N b) then
        match need with
        | 0 | 1 => (acc ++ [b], Boundary)
        | S k => ([], Inside k 128 191 (acc ++ [b]))
        end
      else
        (* the truncated sequence becomes one U+FFFD and the byte is read again *)
        let '(out, st') := decode_lead b in (replacement ++ out, st')
  end.

Fixpoint decode_from (st : decoder_state) (bs : Uint8Array) : Uint8Array :=
  match bs with
  | [] => match st with Boundary => [] | Inside _ _ _ _ => replacement end
  | b :: bs' => let '(out, st') := decode_step st b in out ++ decode_from st' bs'
  end.

Definition strip_bom (bs : Uint8Array) : Uint8Array :=
  match bs with
  | xef :: xbb :: xbf :: r => r
  | _ => bs
  end.

(** [new TextDecoder().decode(bytes)]: UTF-8, not fatal, the byte order mark
    dropped. *)
Definition TextDecoder_decode (bs : Uint8Array) : string :=
  string_of_list_byte (decode_from Boundary (strip_bom bs)).

(** [dst.set(src, offset)] on typed arrays: a RangeError ([None]) when the
    source does not fit. *)
Definition Uint8Array_set (dst src : Uint8Array) (offset : nat) : option Uint8Array :=
  if (offset + List.length src <=? List.length dst)%nat
  then Some (firstn offset dst ++ src ++ skipn (offset + List.length src) dst)
  else None.

(** [new Uint8Array(n)]: [n] zero bytes. *)
Definition Uint8Array_new (n : nat) : Uint8Array := repeat x00 n.

(** ** ReadableStream *)

(** A byte stream, seen from its reader: [pull i] is the outcome of the
    [i]-th call of [reader.read()], a chunk ([done: false]) or the end of the
    stream ([None], [done: true]).  A source that never ends has no [None].
    These are the reads that are fulfilled; a stream that is locked or in
    error is [MockKV.OfBroken]. *)
Record ReadableStream := { pull : nat -> option Uint8Array }.

(** [new ReadableStream({ start(c) { c.enqueue(chunk); c.close(); } })]. *)
Definition single_chunk (chunk : Uint8Array) : ReadableStream :=
  {| pull := fun i => match i with 0 => Some chunk | S _ => None end |}.

(** ** Map<string, string> *)

(** An ES Map keeps its entries in insertion order with one entry per key. *)
Module Map.
Definition t := list (string * string).

Fixpoint get (m : t) (key : string) : option string :=
  match m with
  | [] => None
  | (k, v) :: m' => if String.eqb k key then Some v else get m' key
  end.

(** [set] overwrites in place, or appends a new entry. *)
Fixpoint set (m : t) (key value : string) : t :=
  match m with
  | [] => [(key, value)]
  | (k, v) :: m' =>
      if String.eqb k key then (k, value) :: m' else (k, v) :: set m' key value
  end.

(** [delete] leaves no entry under the key. *)
Definition delete (m : t) (key : string) : t :=
  filter (fun e => negb (String.eqb (fst e) key)) m.

Definition keys (m : t) : list string := map fst m.

(** What every Map satisfies: no key twice. *)
Definition wf (m : t) : Prop := NoDup (keys m).
End Map.


(** ** JSON *)

(** What the modelled code passes around under the type [any]: the JSON
    values, array buffers and streams ([undefined] is [None] of an option). *)
Inductive any :=
| Null
| Bool (b : bool)
| Number (literal : string)
| Str (s : string)
| Arr (items : list any)
| Obj (props : list (string * any))
| ArrayBuffer (bytes : Uint8Array)
| Stream (rs : ReadableStream).

(** Own properties of an object, in creation order; defining a property that
    exists overwrites it in place. *)
Fixpoint define (props : list (string * any)) (key : string) (v : any) :=
  match props with
  | [] => [(key, v)]
  | (k, x) :: ps => if String.eqb k key then (k, v) :: ps else (k, x) :: define ps key v
  end.

Fixpoint lookup (props : list (string * any)) (key : string) : option any :=
  match props with
  | [] => None
  | (k, x) :: ps => if String.eqb k key then Some x else lookup ps key
  end.

(** [v.key] for a key that no prototype defines: [None] is [undefined]. *)
Definition prop (v : any) (key : string) : option any :=
  match v with
  | Obj props => lookup props key
  | _ => None
  end.

(** [options?.name]: the property of an object, [undefined] otherwise. *)
Definition optional (name : string) (options : option any) : option any :=
  match options with
  | Some o => prop o name
  | None => None
  end.

(** [x === s] for a string [s]. *)
Definition equals (x : option any) (s' : string) : bool :=
  match x with
  | Some (Str s) => String.eqb s s'
  | _ => false
  end.

Definition is_digit (c : ascii) : bool := within 48 57 (code c).

(** The digits at the head of a text, and what follows them. *)
Fixpoint leading_digits (s : string) : string * string :=
  match s with
  | EmptyString => (EmptyString, EmptyString)
  | String c r =>
      if is_digit c then let '(ds, r') := leading_digits r in (String c ds, r')
      else (EmptyString, s)
  end.

(** The number that a text of digits writes, after [acc]. *)
Fixpoint decimal (acc : N) (ds : string) : N :=
  match ds with
  | EmptyString => acc
  | String c r => decimal (acc * 10 + (code c - 48))%N r
  end.

(** A number literal [-i.f e x] as [m * 10 ^ e]: [m] is written by the
    digits of [i] and [f], and [e] is [x] less the number of digits of [f].
    The sign is left out. *)
Definition magnitude (literal : string) : N * Z :=
  let unsigned :=
    match literal with
    | String c r => if (code c =? 45)%N then r else literal
    | EmptyString => literal
    end in
  let '(i, s1) := leading_digits unsigned in
  let '(f, s2) :=
    match s1 with
    | String c r => if (code c =? 46)%N then leading_digits r else (EmptyString, s1)
    | EmptyString => (EmptyString, s1)
    end in
  let x :=
    match s2 with
    | String c r =>
        if (code c =? 101)%N || (code c =? 69)%N then
          match r with
          | String c' r' =>
              if (code c' =? 45)%N then (- Z.of_N (decimal 0 (fst (leading_digits r'))))%Z
              else if (code c' =? 43)%N then Z.of_N (decimal 0 (fst (leading_digits r')))
              else Z.of_N (decimal 0 (fst (leading_digits r)))
          | EmptyString => 0%Z
          end
        else 0%Z
    | EmptyString => 0%Z
    end in
  (decimal 0 (i +:+ f), (x - Z.of_nat (String.length f))%Z).

(** The Number value of a literal is [+0] or [-0]: the literal writes zero,
    or a magnitude of at most [2 ^ -1075], half of the least positive double,
    which rounds to zero (to nearest, ties to even). *)
Definition is_zero (literal : string) : bool :=
  let '(m, e) := magnitude literal in
  (m =? 0)%N || ((e <? 0)%Z && (m * 2 ^ 1075 <=? 10 ^ Z.to_N (- e))%N).

(** Truthiness: [null], [false], [0] and the empty string are falsy. *)
Definition truthy (v : any) : bool :=
  match v with
  | Null => false
  | Bool b => b
  | Number literal => negb (is_zero literal)
  | Str s => truthy_string s
  | _ => true
  end.

Module JSON.

(** *** JSON.stringify *)

Definition hex_digit (n : N) : ascii :=
  if (n <? 10)%N then chr (48 + n) else chr (87 + n).

Definition escape_char (c : ascii) : string :=
  match code c with
  | 34%N => "\" +:+ dq
  | 92%N => "\\"
  | 8%N => "\b"
  | 9%N => "\t"
  | 10%N => "\n"
  | 12%N => "\f"
  | 13%N => "\r"
  | n =>
      if (n <? 32)%N
      then "\u00" +:+ String (hex_digit (n / 16)) (String (hex_digit (n mod 16)) EmptyString)
      else String c EmptyString
  end.

Fixpoint escape (s : string) : string :=
  match s with
  | EmptyString => EmptyString
  | String c r => escape_char c +:+ escape r
  end.

Definition quote (s : string) : string := dq +:+ escape s +:+ dq.

Fixpoint join (sep : string) (parts : list string) : string :=
  match parts with
  | [] => EmptyString
  | [p] => p
  | p :: ps => p +:+ sep +:+ join sep ps
  end.

Fixpoint stringify (v : any) : string :=
  match v with
  | Null => "null"
  | Bool true => "true"
  | Bool false => "false"
  | Number literal => literal
  | Str s => quote s
  | Arr items => "[" +:+ join "," (map stringify items) +:+ "]"
  | Obj props =>
      "{" +:+ join "," (map (fun kv => quote (fst kv) +:+ ":" +:+ stringify (snd kv)) props) +:+ "}"
  | ArrayBuffer _ => "{}"
  | Stream _ => "{}"
  end.

(** *** JSON.parse

    A recursive-descent reader of the JSON grammar (ECMA-404).  Every
    function returns what it read and the rest of the input; [None] is the
    SyntaxError that [JSON.parse] throws. *)

Definition is_ws (c : ascii) : bool :=
  match code c with
  | 32%N | 9%N | 10%N | 13%N => true
  | _ => false
  end.

Fixpoint skip_ws (s : string) : string :=
  match s with
  | EmptyString => s
  | String c r => if is_ws c then skip_ws r else s
  end.

Fixpoint strip_prefix (p s : string) : option string :=
  match p, s with
  | EmptyString, _ => Some s
  | String a p', String b s' => if Ascii.eqb a b then strip_prefix p' s' else None
  | String _ _, EmptyString => None
  end.

Definition hex_value (c : ascii) : option N :=
  let n := code c in
  if within 48 57 n then Some (n - 48)%N
  else if within 97 102 n then Some (n - 87)%N
  else if within 65 70 n then Some (n - 55)%N
  else None.

(** Four hexadecimal digits, as a UTF-16 code unit. *)
Definition read_hex4 (s : string) : option (N * string) :=
  match s with
  | String a (String b (String c (String d r))) =>
      match hex_value a, hex_value b, hex_value c, hex_value d with
      | Some x, Some y, Some z, Some w => Some (((x * 16 + y) * 16 + z) * 16 + w, r)%N
      | _, _, _, _ => None
      end
  | _ => None
  end.

(** The UTF-8 bytes of a code point (a lone surrogate keeps its generalised
    three-byte form). *)
Definition utf8 (cp : N) : string :=
  (if cp <? 128 then str1 cp
   else if cp <? 2048 then str1 (192 + cp / 64) +:+ str1 (128 + cp mod 64)
   else if cp <? 65536 then
     str1 (224 + cp / 4096) +:+ str1 (128 + (cp / 64) mod 64) +:+ str1 (128 + cp mod 64)
   else
     str1 (240 + cp / 262144) +:+ str1 (128 + (cp / 4096) mod 64)
       +:+ str1 (128 + (cp / 64) mod 64) +:+ str1 (128 + cp mod 64))%N.

(** A low surrogate escape that follows a high one: the pair is one
    code point. *)
Definition read_low_surrogate (hi : N) (s : string) : option (N * string) :=
  match s with
  | String a (String b r) =>
      if ((code a =? 92) && (code b =? 117))%N then
        match read_hex4 r with
        | Some (lo, r') =>
            if within 56320 57343 lo
            then Some (65536 + (hi - 55296) * 1024 + (lo - 56320), r')%N
            else None
        | None => None
        end
      else None
  | _ => None
  end.

(** The escape that follows a backslash. *)
Definition read_escape (s : string) : option (string * string) :=
  match s with
  | EmptyString => None
  | String c r =>
      match code c with
      | 34%N => Some (dq, r)
      | 92%N => Some (str1 92, r)
      | 47%N => Some (str1 47, r)
      | 98%N => Some (str1 8, r)
      | 102%N => Some (str1 12, r)
      | 110%N => Some (str1 10, r)
      | 114%N => Some (str1 13, r)
      | 116%N => Some (str1 9, r)
      | 117%N =>
          match read_hex4 r with
          | Some (u, r') =>
              if within 55296 56319 u then
                match read_low_surrogate u r' with
                | Some (cp, r'') => Some (utf8 cp, r'')
                | None => Some (utf8 u, r')
                end
              else Some (utf8 u, r')
          | None => None
          end
      | _ => None
      end
  end.

(** The characters of a string literal up to its closing quote. *)
Fixpoint read_chars (fuel : nat) (s : string) : option (string * string) :=
  match fuel, s with
  | 0, _ => None
  | _, EmptyString => None
  | S n, String c r =>
      if (code c =? 34)%N then Some (EmptyString, r)
      else if (code c =? 92)%N then
        match read_escape r with
        | Some (out, r') =>
            match read_chars n r' with
            | Some (t, r'') => Some (out +:+ t, r'')
            | None => None
            end
        | None => None
        end
      else if (code c <? 32)%N then None
      else
        match read_chars n r with
        | Some (t, r') => Some (String c t, r')
        | None => None
        end
  end.

Fixpoint span_digits (s : string) : string * string :=
  match s with
  | EmptyString => (EmptyString, EmptyString)
  | String c r =>
      if is_digit c then let '(ds, r') := span_digits r in (String c ds, r')
      else (EmptyString, s)
  end.

Definition read_int (s : string) : option (string * string) :=
  match s with
  | EmptyString => None
  | String c r =>
      if (code c =? 48)%N then Some ("0", r)
      else if is_digit c then Some (span_digits s)
      else None
  end.

Definition read_frac (s : string) : option (string * string) :=
  match s with
  | String c r =>
      if (code c =? 46)%N then
        match span_digits r with
        | (EmptyString, _) => None
        | (ds, r') => Some (String c ds, r')
        end
      else Some (EmptyString, s)
  | EmptyString => Some (EmptyString, s)
  end.

Definition read_sign (s : string) : string * string :=
  match s with
  | String c r => if ((code c =? 43) || (code c =? 45))%N then (String c EmptyString, r) else (EmptyString, s)
  | EmptyString => (EmptyString, s)
  end.

Definition read_exp (s : string) : option (string * string) :=
  match s with
  | String c r =>
      if ((code c =? 101) || (code c =? 69))%N then
        let '(sg, r1) := read_sign r in
        match span_digits r1 with
        | (EmptyString, _) => None
        | (ds, r2) => Some (String c (sg +:+ ds), r2)
        end
      else Some (EmptyString, s)
  | EmptyString => Some (EmptyString, s)
  end.

Definition read_number (s : string) : option (string * string) :=
  let '(minus, s0) :=
    match s with
    | String c r => if (code c =? 45)%N then ("-", r) else (EmptyString, s)
    | EmptyString => (EmptyString, s)
    end in
  match read_int s0 with
  | None => None
  | Some (i, s1) =>
      match read_frac s1 with
      | None => None
      | Some (f, s2) =>
          match read_exp s2 with
          | None => None
          | Some (e, s3) => Some (minus +:+ i +:+ f +:+ e, s3)
          end
      end
  end.

Definition read_string (s : string) : option (string * string) :=
  match s with
  | String c r => if (code c =? 34)%N then read_chars (String.length r) r else None
  | EmptyString => None
  end.

Definition literal (word : string) (v : any) (s : string) : option (any * string) :=
  match strip_prefix word s with
  | Some r => Some (v, skip_ws r)
  | None => None
  end.

(** A value with the white space around it; the elements of an array after
    its bracket; the members of an object after its brace. *)
Fixpoint read_value (fuel : nat) (s : string) : option (any * string) :=
  match fuel with
  | 0 => None
  | S n =>
      match skip_ws s with
      | EmptyString => None
      | String c r as s' =>
          match code c with
          | 123%N =>
              match skip_ws r with
              | String c' r' as r0 =>
                  if (code c' =? 125)%N then Some (Obj [], skip_ws r')
                  else
                    match read_members n r0 with
                    | Some (ms, r1) =>
                        Some (Obj (fold_left (fun o kv => define o (fst kv) (snd kv)) ms []), skip_ws r1)
                    | None => None
                    end
              | EmptyString => None
              end
          | 91%N =>
              match skip_ws r with
              | String c' r' as r0 =>
                  if (code c' =? 93)%N then Some (Arr [], skip_ws r')
                  else
                    match read_elements n r0 with
                    | Some (vs, r1) => Some (Arr vs, skip_ws r1)
                    | None => None
                    end
              | EmptyString => None
              end
          | 34%N =>
              match read_string s' with
              | Some (t, r1) => Some (Str t, skip_ws r1)
              | None => None
              end
          | 116%N => literal "true" (Bool true) s'
          | 102%N => literal "false" (Bool false) s'
          | 110%N => literal "null" Null s'
          | _ =>
              match read_number s' with
              | Some (t, r1) => Some (Number t, skip_ws r1)
              | None => None
              end
          end
      end
  end
with read_elements (fuel : nat) (s : string) : option (list any * string) :=
  match fuel with
  | 0 => None
  | S n =>
      match read_value n s with
      | Some (v, String c r) =>
          if (code c =? 44)%N then
            match read_elements n r with
            | Some (vs, r') => Some (v :: vs, r')
            | None => None
            end
          else if (code c =? 93)%N then Some ([v], r)
          else None
      | _ => None
      end
  end
with read_members (fuel : nat) (s : string) : option (list (string * any) * string) :=
  match fuel with
  | 0 => None
  | S n =>
      match read_string (skip_ws s) with
      | Some (k, r0) =>
          match skip_ws r0 with
          | String c r1 =>
              if (code c =? 58)%N then
                match read_value n r1 with
                | Some (v, String c' r2) =>
                    if (code c' =? 44)%N then
                      match read_members n r2 with
                      | Some (ms, r3) => Some ((k, v) :: ms, r3)
                      | None => None
                      end
                    else if (code c' =? 125)%N then Some ([(k, v)], r2)
                    else None
                | _ => None
                end
              else None
          | EmptyString => None
          end
      | None => None
      end
  end.

(** [JSON.parse(text)]: one value and nothing after it.  Every call of the
    reader consumes a character at least every second step, so twice the
    length of the text is fuel enough. *)
Definition parse (text : string) : option any :=
  match read_value (2 * String.length text + 2) text with
  | Some (v, EmptyString) => Some v
  | _ => None
  end.

End JSON.

End JS.

(* ================================================================== *)
(** * The process: its state and its asynchronous computations         *)
(* ================================================================== *)

Module Process.
Import JS.

(** The state of the process that the modelled code reads and writes: the
    module-level [memoryStore] and the lines written to the console. *)
Record World := { memoryStore : Map.t; console : list string }.

(** How a promise ends: fulfilled with a result, rejected with an error, or
    still pending when the budget of steps is spent. *)
Inductive outcome (A : Type) :=
| Fulfilled (a : A) (w : World)
| Rejected (e : string) (w : World)
| Pending.
Arguments Fulfilled {A} a w.
Arguments Rejected {A} e w.
Arguments Pending {A}.

Definition Async (A : Type) := nat -> World -> outcome A.

Definition ret {A} (a : A) : Async A := fun _ w => Fulfilled a w.

Definition bind {A B} (m : Async A) (k : A -> Async B) : Async B :=
  fun fuel w =>
    match m fuel w with
    | Fulfilled a w' => k a fuel w'
    | Rejected e w' => Rejected e w'
    | Pending => Pending
    end.

Definition throw {A} (e : string) : Async A := fun _ w => Rejected e w.

(** [try { m } catch (e) { handler e }]. *)
Definition try_catch {A} (m : Async A) (handler : string -> Async A) : Async A :=
  fun fuel w =>
    match m fuel w with
    | Rejected e w' => handler e fuel w'
    | r => r
    end.

Notation "x <- m ;; k" := (bind m (fun x => k))
  (at level 61, m at next level, right associativity).
Notation "m ;; k" := (bind m (fun _ => k))
  (at level 61, right associativity).

Definition memoryStore_get (key : string) : Async (option string) :=
  fun _ w => Fulfilled (Map.get (memoryStore w) key) w.

Definition memoryStore_set (key value : string) : Async unit :=
  fun _ w => Fulfilled tt {| memoryStore := Map.set (memoryStore w) key value; console := console w |}.

Definition memoryStore_delete (key : string) : Async unit :=
  fun _ w => Fulfilled tt {| memoryStore := Map.delete (memoryStore w) key; console := console w |}.

Definition memoryStore_keys : Async (list string) :=
  fun _ w => Fulfilled (Map.keys (memoryStore w)) w.

(** [console.error] and [console.warn] write one line each. *)
Definition console_error (line : string) : Async unit :=
  fun _ w => Fulfilled tt {| memoryStore := memoryStore w; console := console w ++ [line] |}.

Definition console_warn (line : string) : Async unit := console_error line.

End Process.

(* ================================================================== *)
(** * app/lib/mocks/mockKV.ts                                          *)
(* ================================================================== *)

Module MockKV.
Import JS Process.

(** [class MockKV { constructor(private readonly _id: string = 'boltKV') {} }] *)
Record t := { _id : string }.

Definition new (id : option string) : t :=
  {| _id := match id with Some s => s | None => "boltKV" end |}.

(** [try { return JSON.parse(value); } catch (e) { console.error(...); return null; }] *)
Definition parse_or_null (key value : string) : Async any :=
  match JSON.parse value with
  | Some parsed => ret parsed
  | None => console_error ("Failed to parse JSON for key " +:+ key) ;; ret Null
  end.

Definition get (this : t) (key : string) (options : option any) : Async any :=
  value <- memoryStore_get key ;;
  match value with
  | None => ret Null
  | Some value =>
      if equals (optional "type" options) "json" && truthy_string value then
        parse_or_null key value
      else if equals options "json" && truthy_string value then
        parse_or_null key value
      else if equals options "arrayBuffer" && truthy_string value then
        ret (ArrayBuffer (TextEncoder_encode value))
      else if equals options "stream" && truthy_string value then
        ret (Stream (single_chunk (TextEncoder_encode value)))
      else ret (Str value)
  end.

(** [string | ReadableStream | ArrayBuffer].  [OfStream rs] is a stream whose
    reads are all fulfilled.  [OfBroken rs reads error] is a stream that fails:
    its first [reads] reads are those of [rs] and the next one rejects with
    [error]; with no read at all it is also the stream that is locked, for
    which [getReader()] throws. *)
Inductive put_value :=
| Text (s : string)
| OfStream (rs : ReadableStream)
| OfBuffer (bytes : Uint8Array)
| OfBroken (rs : ReadableStream) (reads : nat) (error : string).

(** The loop around [reader.read()]: [next] counts the reads made. *)
Fixpoint read_until_done (fuel : nat) (reader : ReadableStream) (next : nat)
    (chunks : list Uint8Array) : option (list Uint8Array) :=
  match fuel with
  | 0 => None
  | S n =>
      match pull reader next with
      | None => Some chunks
      | Some chunk => read_until_done n reader (S next) (chunks ++ [chunk])
      end
  end.

Definition drain (reader : ReadableStream) : Async (list Uint8Array) :=
  fun fuel w =>
    match read_until_done fuel reader 0 [] with
    | Some chunks => Fulfilled chunks w
    | None => Pending
    end.

(** The same loop on a stream that fails at its read number [reads]:
    [Some None] is the rejection of that read, which no [catch] stops. *)
Fixpoint read_until_error (fuel : nat) (reader : ReadableStream) (reads next : nat)
    (chunks : list Uint8Array) : option (option (list Uint8Array)) :=
  match fuel with
  | 0 => None
  | S n =>
      if (reads <=? next)%nat then Some None
      else
        match pull reader next with
        | None => Some (Some chunks)
        | Some chunk => read_until_error n reader reads (S next) (chunks ++ [chunk])
        end
  end.

Definition drain_broken (reader : ReadableStream) (reads : nat) (error : string)
    : Async (list Uint8Array) :=
  fun fuel w =>
    match read_until_error fuel reader reads 0 [] with
    | Some (Some chunks) => Fulfilled chunks w
    | Some None => Rejected error w
    | None => Pending
    end.

(** [chunks.reduce((acc, chunk) => acc + chunk.length, 0)] *)
Definition total_length (chunks : list Uint8Array) : nat :=
  fold_left (fun acc chunk => acc + List.length chunk) chunks 0.

(** [for (const chunk of chunks) { allChunks.set(chunk, offset); offset += chunk.length; }] *)
Fixpoint copy_chunks (allChunks : Uint8Array) (offset : nat) (chunks : list Uint8Array)
    : option Uint8Array :=
  match chunks with
  | [] => Some allChunks
  | chunk :: rest =>
      match Uint8Array_set allChunks chunk offset with
      | Some allChunks' => copy_chunks allChunks' (offset + List.length chunk) rest
      | None => None
      end
  end.

(** The third parameter of the source, [_options], is never read and is left
    out. *)
Definition put (this : t) (key : string) (value : put_value) : Async unit :=
  valueToStore <-
    match value with
    | OfStream rs =>
        chunks <- drain rs ;;
        match copy_chunks (Uint8Array_new (total_length chunks)) 0 chunks with
        | Some allChunks => ret (TextDecoder_decode allChunks)
        | None => throw "RangeError"
        end
    | OfBroken rs reads error =>
        chunks <- drain_broken rs reads error ;;
        match copy_chunks (Uint8Array_new (total_length chunks)) 0 chunks with
        | Some allChunks => ret (TextDecoder_decode allChunks)
        | None => throw "RangeError"
        end
    | OfBuffer bytes => ret (TextDecoder_decode bytes)
    | Text s => ret s
    end ;;
  memoryStore_set key valueToStore.

Definition delete (this : t) (key : string) : Async unit :=
  memoryStore_delete key.

(** [{ prefix?: string, limit?: number }], the limit an integer. *)
Record list_options := { prefix : option string; limit : option Z }.

Record key_entry := { name : string }.

Record list_result := {
  keys : list key_entry;
  list_complete : bool;
  list_cacheStatus : any
}.

(** [a.slice(0, end)]: a negative [end] counts from the end of the array. *)
Definition slice0 {A} (a : list A) (end_ : Z) : list A :=
  if (end_ <? 0)%Z
  then firstn (Z.to_nat (Z.of_nat (List.length a) + end_)) a
  else firstn (Z.to_nat end_) a.

(** [o?.prefix] and [o?.limit]. *)
Definition optional_prefix (options : option list_options) : option string :=
  match options with Some o => prefix o | None => None end.

Definition optional_limit (options : option list_options) : option Z :=
  match options with Some o => limit o | None => None end.

Definition list (this : t) (options : option list_options) : Async list_result :=
  all <- memoryStore_keys ;;
  let keys :=
    map (fun name => {| name := name |})
      (filter (fun key =>
                 match optional_prefix options with
                 | Some p => if truthy_string p then startsWith key p else true
                 | None => true
                 end) all) in
  ret {| keys := slice0 keys (match optional_limit options with Some n => n | None => 1000%Z end);
         list_complete := true;
         list_cacheStatus := Null |}.

Record with_metadata := { value : any; metadata : any; cacheStatus : any }.

Definition getWithMetadata (this : t) (key : string) (options : option any) : Async with_metadata :=
  value <- get this key options ;;
  ret {| value := value; metadata := Null; cacheStatus := Null |}.

(** [const mockKV = new MockKV(); export default mockKV;] *)
Definition mockKV : t := new None.

End MockKV.

(* ================================================================== *)
(** * app/lib/mocks/mockEnv.ts                                         *)
(* ================================================================== *)

Module MockEnv.

(** [interface Env { boltKV: KVNamespace; AUTH_USERS: KVNamespace }], with
    the emulator as the implementation of a namespace. *)
Record Env := { boltKV : MockKV.t; AUTH_USERS : MockKV.t }.

Definition createMockEnv (_ : unit) : Env :=
  {| boltKV := MockKV.mockKV; AUTH_USERS := MockKV.mockKV |}.

End MockEnv.

(* ================================================================== *)
(** * app/routes/register.tsx and app/routes/login.tsx: the actions    *)
(* ================================================================== *)

Module Routes.
Import JS Process MockEnv.

(** [{ errors: { field: [message, ...] } }] *)
Definition Errors := list (string * list string).

(** What an action answers: [json({ errors }, { status })], or the redirect
    of [createUserSession] that carries the session of [userId]. *)
Inductive Response :=
| json (errors : Errors) (status : Z)
| redirect (to : string) (userId : option any).

(** [createUserSession(userId, redirectTo)] of auth.server.ts. *)
Definition createUserSession (userId : option any) (redirectTo : string) : Async Response :=
  ret (redirect redirectTo userId).

(** [flatten().fieldErrors]: the fields that have an issue, with their messages. *)
Definition fieldErrors (checked : Errors) : Errors :=
  filter (fun e => match snd e with [] => false | _ :: _ => true end) checked.

(** [formData.get('redirectTo')?.toString() || '/'] *)
Definition redirectTo_or_root (field : option string) : string :=
  match field with
  | Some s => if truthy_string s then s else "/"
  | None => "/"
  end.

(** [(env && env.boltKV) || mockKV] *)
Definition kvStore_of (env : option Env) : MockKV.t :=
  match env with
  | Some e => boltKV e
  | None => MockKV.mockKV
  end.

Section Actions.

(** Two functions of the platform and of the validation library: zod's test
    of an e-mail address and [String.prototype.toLowerCase]. *)
Variable isEmail : string -> bool.
Variable toLowerCase : string -> string.

(** [z.string().email('Invalid email address')] *)
Definition z_email (v : option string) : list string :=
  match v with
  | None => ["Required"]
  | Some s => if isEmail s then [] else ["Invalid email address"]
  end.

(** [z.string().min(n, message)] *)
Definition z_min (n : nat) (message : string) (v : option string) : list string :=
  match v with
  | None => ["Required"]
  | Some s => if (n <=? JS.length s)%nat then [] else [message]
  end.

(** [zfd.text(schema)]: an empty field counts as missing. *)
Definition zfd_text (v : option string) : option string :=
  match v with
  | Some EmptyString => None
  | _ => v
  end.

(** The fields of the registration form. *)
Record RegisterForm := {
  r_email : option string;
  r_password : option string;
  r_firstName : option string;
  r_lastName : option string;
  r_redirectTo : option string
}.

Definition RegisterSchema (email password firstName lastName : option string) : Errors :=
  fieldErrors
    [("email", z_email email);
     ("password", z_min 6 "Password must be at least 6 characters" password);
     ("firstName", z_min 1 "First name is required" firstName);
     ("lastName", z_min 1 "Last name is required" lastName)].

(** The action of the register route; [createdAt] and [updatedAt] are the
    two readings of the clock. *)
Definition register_action (formData : RegisterForm) (env : option Env)
    (createdAt updatedAt : string) : Async Response :=
  let email := option_map toLowerCase (r_email formData) in
  let password := r_password formData in
  let firstName := r_firstName formData in
  let lastName := r_lastName formData in
  let redirectTo := redirectTo_or_root (r_redirectTo formData) in
  match RegisterSchema email password firstName lastName, email, password, firstName, lastName with
  | [], Some email, Some password, Some firstName, Some lastName =>
      try_catch
        (let kvStore := kvStore_of env in
         let userKey := "user:" +:+ email in
         existingUser <- MockKV.get kvStore userKey None ;;
         if truthy existingUser then
           ret (json [("email", ["User with this email already exists"])] 400)
         else
           let userData :=
             Obj [("id", Str userKey);
                  ("email", Str email);
                  ("firstName", Str firstName);
                  ("lastName", Str lastName);
                  ("passwordHash", Str password);
                  ("createdAt", Str createdAt);
                  ("updatedAt", Str updatedAt)] in
           MockKV.put kvStore userKey (MockKV.Text (JSON.stringify userData)) ;;
           createUserSession (Some (Str userKey)) redirectTo)
        (fun error =>
           console_error ("Registration error: " +:+ error) ;;
           ret (json [("_form", ["An error occurred during registration"])] 500))
  | errors, _, _, _, _ => ret (json errors 400)
  end.

(** The fields of the login form. *)
Record LoginForm := {
  l_email : option string;
  l_password : option string;
  l_redirectTo : option string
}.

Definition LoginSchema (email password : option string) : Errors :=
  fieldErrors
    [("email", z_email (zfd_text email));
     ("password", z_min 6 "Password must be at least 6 characters" (zfd_text password))].

(** The action of the login route. *)
Definition login_action (formData : LoginForm) (env : option Env) : Async Response :=
  try_catch
    (let redirectTo := redirectTo_or_root (l_redirectTo formData) in
     match LoginSchema (l_email formData) (l_password formData),
           zfd_text (l_email formData), zfd_text (l_password formData) with
     | [], Some email, Some password =>
         let kvStore := kvStore_of env in
         match env with
         | None => console_warn "boltKV is not available in the current environment, using mockKV instead for login"
         | Some _ => ret tt
         end ;;
         let userKey := "user:" +:+ toLowerCase email in
         userData <- MockKV.get kvStore userKey (Some (Obj [("type", Str "json")])) ;;
         if negb (truthy userData) then
           ret (json [("email", ["User not found"])] 401)
         else if negb (equals (prop userData "password") password) then
           ret (json [("password", ["Invalid password"])] 401)
         else createUserSession (prop userData "id") redirectTo
     | errors, _, _ => ret (json errors 400)
     end)
    (fun error =>
       console_error ("Login error: " +:+ error) ;;
       ret (json [("_form", ["An error occurred during login"])] 500)).

End Actions.

End Routes.

(* ================================================================== *)
(** * Vocabulary of the specification                                  *)
(* ================================================================== *)

Module Spec.
Import JS Process.

(** The state in which [memoryStore] has become [m]. *)
Definition with_store (w : World) (m : Map.t) : World :=
  {| memoryStore := m; console := console w |}.

(** The state after one more line on the console. *)
Definition logged (w : World) (line : string) : World :=
  {| memoryStore := memoryStore w; console := console w ++ [line] |}.

(** The caller asks for structured decoding: ['json'] or [{ type: 'json' }]. *)
Definition json_mode (options : option any) : bool :=
  equals (optional "type" options) "json" || equals options "json".

(** The four return shapes that the specification names for a stored [text]. *)
Definition one_of_four_shapes (text : string) (r : any) : Prop :=
  r = Str text
  \/ JSON.parse text = Some r
  \/ r = ArrayBuffer (TextEncoder_encode text)
  \/ r = Stream (single_chunk (TextEncoder_encode text)).

(** A key passes the filter of [list]. *)
Definition has_prefix (p : option string) (key : string) : bool :=
  match p with
  | Some p => startsWith key p
  | None => true
  end.

(** The chunks that the first [n] reads of a stream deliver. *)
Definition first_chunks (rs : ReadableStream) (n : nat) : list Uint8Array :=
  flat_map (fun i => match pull rs i with Some c => [c] | None => [] end) (seq 0 n).

(** The stream ends at its [n]-th read and not before. *)
Definition ends_at (rs : ReadableStream) (n : nat) : Prop :=
  (forall i, i < n -> pull rs i <> None) /\ pull rs n = None.

(** The text that a put stores for a value: a text as it is, a buffer
    decoded, a stream decoded once its chunks are all read and concatenated;
    [None] while the stream has not ended within the budget, and when one of
    its reads fails. *)
Definition stored_text (fuel : nat) (value : MockKV.put_value) : option string :=
  match value with
  | MockKV.Text s => Some s
  | MockKV.OfBuffer bytes => Some (TextDecoder_decode bytes)
  | MockKV.OfStream rs =>
      match MockKV.read_until_done fuel rs 0 [] with
      | Some chunks => Some (TextDecoder_decode (List.concat chunks))
      | None => None
      end
  | MockKV.OfBroken rs reads _ =>
      match MockKV.read_until_error fuel rs reads 0 [] with
      | Some (Some chunks) => Some (TextDecoder_decode (List.concat chunks))
      | _ => None
      end
  end.

(** The error that a put is rejected with: that of the read that fails,
    when the budget reaches it before the stream ends. *)
Definition put_error (fuel : nat) (value : MockKV.put_value) : option string :=
  match value with
  | MockKV.OfBroken rs reads error =>
      match MockKV.read_until_error fuel rs reads 0 [] with
      | Some None => Some error
      | _ => None
      end
  | _ => None
  end.

(** The calls of the emulator, and a sequence of them made one after the
    other. *)
Inductive call :=
| Put (key : string) (value : MockKV.put_value)
| Delete (key : string)
| Get (key : string) (options : option any)
| List (options : option MockKV.list_options)
| GetWithMetadata (key : string) (options : option any).

Definition perform (this : MockKV.t) (c : call) : Async unit :=
  match c with
  | Put key value => MockKV.put this key value
  | Delete key => MockKV.delete this key
  | Get key options => MockKV.get this key options ;; ret tt
  | List options => MockKV.list this options ;; ret tt
  | GetWithMetadata key options => MockKV.getWithMetadata this key options ;; ret tt
  end.

Fixpoint perform_all (this : MockKV.t) (cs : Datatypes.list call) : Async unit :=
  match cs with
  | [] => ret tt
  | c :: cs' => perform this c ;; perform_all this cs'
  end.

(** The call writes the key. *)
Definition writes (key : string) (c : call) : bool :=
  match c with
  | Put k _ => String.eqb k key
  | Delete k => String.eqb k key
  | _ => false
  end.

(** The last call of a sequence that writes the key. *)
Fixpoint last_write (cs : Datatypes.list call) (key : string) : option call :=
  match cs with
  | [] => None
  | c :: cs' =>
      match last_write cs' key with
      | Some c' => Some c'
      | None => if writes key c then Some c else None
      end
  end.

(** What is readable at a key after a sequence of calls, from what was
    readable before. *)
Definition readable_after (fuel : nat) (cs : Datatypes.list call) (key : string)
    (before : option string) : option string :=
  match last_write cs key with
  | Some (Put _ value) => stored_text fuel value
  | Some _ => None
  | None => before
  end.

(** The text of one member of an object, as [JSON.stringify] writes it. *)
Definition member (kv : string * any) : string :=
  JSON.quote (fst kv) +:+ ":" +:+ JSON.stringify (snd kv).

(** The properties of an object whose values are all strings. *)
Definition text_props (fields : Datatypes.list (string * string)) : Datatypes.list (string * any) :=
  map (fun kv => (fst kv, Str (snd kv))) fields.

(** The record that the register action stores. *)
Definition user_record (userKey email firstName lastName password createdAt updatedAt : string) : any :=
  Obj [("id", Str userKey);
       ("email", Str email);
       ("firstName", Str firstName);
       ("lastName", Str lastName);
       ("passwordHash", Str password);
       ("createdAt", Str createdAt);
       ("updatedAt", Str updatedAt)].

(** Two stand-ins for the functions of the platform, to run the actions on
    examples: lower case on the letters A to Z, and an address test that
    asks for an at sign. *)
Definition lower_char (c : ascii) : ascii :=
  if within 65 90 (code c) then chr (code c + 32) else c.

Fixpoint lower_ascii (s : string) : string :=
  match s with
  | EmptyString => EmptyString
  | String c r => String (lower_char c) (lower_ascii r)
  end.

Fixpoint has_at (s : string) : bool :=
  match s with
  | EmptyString => false
  | String c r => (code c =? 64)%N || has_at r
  end.

End Spec.

(* ================================================================== *)
(** * More of the platform: splitting and suffixes of strings          *)
(* ================================================================== *)

Module JSString.
Import JS.

(** [s.split(sep)] for a separator of one character. *)
Fixpoint split (sep : ascii) (s : string) : Datatypes.list string :=
  match s with
  | EmptyString => [EmptyString]
  | String c r =>
      if Ascii.eqb c sep then EmptyString :: split sep r
      else
        match split sep r with
        | h :: t => String c h :: t
        | [] => [String c EmptyString]
        end
  end.

(** [s.endsWith(suffix)]. *)
Fixpoint endsWith (s suffix : string) : bool :=
  String.eqb s suffix
  || match s with
     | EmptyString => false
     | String _ r => endsWith r suffix
     end.

(** [x === true]. *)
Definition is_true (x : option any) : bool :=
  match x with
  | Some (Bool true) => true
  | _ => false
  end.

(** Every character is below U+0080. *)
Fixpoint is_ascii (s : string) : bool :=
  match s with
  | EmptyString => true
  | String c r => (code c <? 128)%N && is_ascii r
  end.

End JSString.

(* ================================================================== *)
(** * app/lib/auth/auth.server.ts                                      *)
(* ================================================================== *)

Module AuthServer.
Import JS JSString Process MockEnv Routes.

(** What the helpers and the loaders read of a request: the [userId] that
    the session of its cookie holds ([session.get('userId')]) and the
    [redirectTo] parameter of its URL. *)
Record Request := {
  session_userId : option any;
  query_redirectTo : option string
}.

(** The request that comes back with the cookie of a response. *)
Definition with_session_of (response : Response) (redirectTo : option string) : Request :=
  {| session_userId := match response with redirect _ userId => userId | json _ _ => None end;
     query_redirectTo := redirectTo |}.

Definition console_log (line : string) : Async unit := console_error line.

(** [kvStore.get(userId, { type: 'json' })]: a key that is not a string is the
    key of no entry. *)
Definition get_by_id (kvStore : MockKV.t) (userId : any) : Async any :=
  match userId with
  | Str key => MockKV.get kvStore key (Some (Obj [("type", Str "json")]))
  | _ => ret Null
  end.

Definition getUser (request : Request) (env : option Env) : Async any :=
  match session_userId request with
  | None => ret Null
  | Some userId =>
      if negb (truthy userId) then ret Null
      else
        try_catch
          (let kvStore := kvStore_of env in
           match env with
           | None => console_warn "boltKV is not available in the current environment, using mockKV instead"
           | Some _ => ret tt
           end ;;
           userData <- get_by_id kvStore userId ;;
           if negb (truthy userData) then ret Null else ret userData)
          (fun error => console_error ("Error fetching user: " +:+ error) ;; ret Null)
  end.

Section Domains.

(** [String.prototype.toLowerCase]. *)
Variable toLowerCase : string -> string.

Definition isEmailDomainAllowed (email : string) (allowedDomains : Datatypes.list string) : bool :=
  match nth_error (split "@" email) 1 with
  | None => false
  | Some part =>
      let domain := toLowerCase part in
      if negb (truthy_string domain) then false
      else
        existsb
          (fun allowedDomain =>
             String.eqb domain (toLowerCase allowedDomain)
             || endsWith domain ("." +:+ toLowerCase allowedDomain))
          allowedDomains
  end.

End Domains.

(** The test user of [addTestUser]. *)
Definition testUser : any :=
  Obj [("id", Str "test-user-123");
       ("email", Str "test@example.com");
       ("password", Str "password123");
       ("name", Str "Test User")].

Definition addTestUser (env : option Env) : Async unit :=
  let kvStore := kvStore_of env in
  match env with
  | None =>
      console_log "Adding test user to mockKV for development" ;;
      MockKV.put kvStore ("user:" +:+ "test@example.com") (MockKV.Text (JSON.stringify testUser)) ;;
      console_log "✅ Test user added: test@example.com / password123"
  | Some _ => ret tt
  end.

End AuthServer.

(* ================================================================== *)
(** * The loaders of the root and of the index, register and login routes *)
(* ================================================================== *)

Module Loaders.
Import JS JSString Process MockEnv Routes AuthServer.

(** What a loader answers: [json(body)] or [redirect(to)]. *)
Inductive Reply :=
| reply_json (body : any)
| reply_redirect (to : string).

(** The loader of app/routes/_index.tsx.  [None] of the inner block stands
    for falling out of the [try] without returning. *)
Definition index_loader (request : Request) (env : option Env) : Async Reply :=
  let kvStore := kvStore_of env in
  match env with
  | None => console_warn "boltKV is not available in the current environment, using mockKV instead"
  | Some _ => ret tt
  end ;;
  returned <-
    try_catch
      (authConfig <- MockKV.get kvStore "config" (Some (Obj [("type", Str "json")])) ;;
       let requireAuth := is_true (optional "requireAuth" (Some authConfig)) in
       if requireAuth then
         user <- getUser request env ;;
         if negb (truthy user) then ret (Some (reply_redirect "/login")) else ret None
       else ret None)
      (fun error =>
         console_error ("Error checking authentication requirements: " +:+ error) ;;
         ret None) ;;
  match returned with
  | Some reply => ret reply
  | None => ret (reply_json (Obj []))
  end.

(** The loader of app/root.tsx. *)
Definition root_loader (request : Request) (env : option Env) : Async Reply :=
  user <- getUser request env ;;
  ret (reply_json (Obj [("user", user); ("isAuthenticated", Bool (negb (negb (truthy user))))])).

(** The loader of app/routes/register.tsx. *)
Definition register_loader (request : Request) (env : option Env) : Async Reply :=
  user <- getUser request env ;;
  if truthy user then ret (reply_redirect "/")
  else
    let redirectTo := redirectTo_or_root (query_redirectTo request) in
    ret (reply_json (Obj [("redirectTo", Str redirectTo);
                          ("allowedDomains", Arr [Str "axiompursuits.com"])])).

(** The loader of app/routes/login.tsx. *)
Definition login_loader (request : Request) (env : option Env) : Async Reply :=
  user <- getUser request env ;;
  if truthy user then ret (reply_redirect "/")
  else
    let redirectTo := redirectTo_or_root (query_redirectTo request) in
    ret (reply_json (Obj [("redirectTo", Str redirectTo)])).

End Loaders.

(* ================================================================== *)
(** * app/lib/stores/user.ts                                           *)
(* ================================================================== *)

Module UserStore.
Import JS.

(** [interface UserState { user: User | null; isAuthenticated: boolean }] *)
Record UserState := { user : any; isAuthenticated : bool }.

Definition initialState : UserState := {| user := Null; isAuthenticated := false |}.

(** The calls on the store; the atom holds the state last set. *)
Definition setUser (u : any) (_ : UserState) : UserState :=
  {| user := u; isAuthenticated := negb (negb (truthy u)) |}.

Definition clearUser (_ : UserState) : UserState := initialState.

Inductive action :=
| SetUser (u : any)
| ClearUser.

Definition apply (s : UserState) (a : action) : UserState :=
  match a with
  | SetUser u => setUser u s
  | ClearUser => clearUser s
  end.

End UserStore.

(* ================================================================== *)
(** * More vocabulary for stating properties                           *)
(* ================================================================== *)

Module Terms.
Import JS Process.

(** Every key of the store as an entry of a listing. *)
Definition all_keys (w : World) : Datatypes.list MockKV.key_entry :=
  map (fun name => {| MockKV.name := name |}) (Map.keys (memoryStore w)).

(** The state after the warning that a handler writes when it has no
    environment. *)
Definition warned (env : option MockEnv.Env) (line : string) (w : World) : World :=
  match env with
  | None => {| memoryStore := memoryStore w; console := console w ++ [line] |}
  | Some _ => w
  end.

(** What a read in structured mode gives for a key. *)
Definition json_read (m : Map.t) (key : string) : any :=
  match Map.get m key with
  | None => Null
  | Some text =>
      if truthy_string text
      then match JSON.parse text with Some v => v | None => Null end
      else Str text
  end.

(** The record readable at a key: the value that the text stored there
    parses to when it is truthy, null in every other case. *)
Definition record_at (m : Map.t) (key : string) : any :=
  let v := json_read m key in if truthy v then v else Null.

(** The user that the session of a request stands for. *)
Definition resolved_user (request : AuthServer.Request) (m : Map.t) : any :=
  match AuthServer.session_userId request with
  | Some (Str key) => if truthy_string key then record_at m key else Null
  | _ => Null
  end.

(** The stored configuration asks for authentication. *)
Definition auth_required (m : Map.t) : bool :=
  JSString.is_true (prop (json_read m "config") "requireAuth").

(** Two more stand-ins, to run the actions on an address that is not ASCII:
    lower case on the letters A to Z and on the Kelvin sign (U+212A, the bytes
    E2 84 AA), which [toLowerCase] turns into the letter k; and an address
    test that asks for an at sign and for ASCII characters only. *)
Fixpoint lower_kelvin (s : string) : string :=
  match s with
  | EmptyString => EmptyString
  | String a r =>
      match r with
      | String b (String c r') =>
          if ((code a =? 226) && (code b =? 132) && (code c =? 170))%N
          then String "k" (lower_kelvin r')
          else String (Spec.lower_char a) (lower_kelvin r)
      | _ => String (Spec.lower_char a) (lower_kelvin r)
      end
  end.

Definition ascii_address (s : string) : bool :=
  Spec.has_at s && JSString.is_ascii s.

End Terms.

(* ================================================================== *)
(** * The routes of the configuration: its API and the admin page      *)
(* ================================================================== *)

Module ConfigRoutes.
Import JS JSString Process MockEnv Routes AuthServer.

(** What these routes answer: [json(body, { status })] (200 when no status
    is given) or [redirect(to)]. *)
Inductive Answer :=
| answer (body : any) (status : Z)
| answer_redirect (to : string).

(** [field === s] for a field of a form. *)
Definition same (field : option string) (s : string) : bool :=
  match field with
  | Some t => String.eqb t s
  | None => false
  end.

(** [s.includes(sub)] on strings. *)
Fixpoint includes (s sub : string) : bool :=
  String.prefix sub s
  || match s with
     | EmptyString => false
     | String _ r => includes r sub
     end.

Definition is_string (v : any) : bool :=
  match v with
  | Str _ => true
  | _ => false
  end.

(** [{ allowedDomains: [] }] *)
Definition emptyConfig : any := Obj [("allowedDomains", Arr [])].

(** [o.key = v] on an object. *)
Definition assign (o : any) (key : string) (v : any) : any :=
  match o with
  | Obj props => Obj (define props key v)
  | _ => o
  end.

(** [authConfigSchema.safeParse(data)]: [result.data] on success.  The
    object schema keeps the keys it declares and drops the others. *)
Definition authConfigSchema (data : any) : option any :=
  match data with
  | Obj props =>
      match lookup props "allowedDomains" with
      | Some (Arr items) =>
          if forallb is_string items && (1 <=? List.length items)%nat
          then Some (Obj [("allowedDomains", Arr items)])
          else None
      | _ => None
      end
  | _ => None
  end.

(** The loader of the configuration API. *)
Definition config_loader (request : Request) (env : option Env) : Async Answer :=
  user <- getUser request env ;;
  if negb (truthy user) then ret (answer (Obj [("error", Str "Unauthorized")]) 401)
  else
    try_catch
      (match env with
       | Some e =>
           config <- MockKV.get (boltKV e) "config" (Some (Obj [("type", Str "json")])) ;;
           ret (answer (Obj [("config", if truthy config then config else emptyConfig)]) 200)
       | None =>
           console_log "boltKV is not available in the current environment" ;;
           ret (answer (Obj [("config", emptyConfig)]) 200)
       end)
      (fun error =>
         console_error ("Error fetching auth config: " +:+ error) ;;
         ret (answer (Obj [("error", Str "Failed to fetch auth configuration")]) 500)).

(** [if (env && env.boltKV) { await env.boltKV.put('config', ...); return
    json(saved) } else { ... status 500 }], the end of every branch that
    writes. *)
Definition save (env : option Env) (config : any) (saved : any) : Async Answer :=
  match env with
  | Some e =>
      MockKV.put (boltKV e) "config" (MockKV.Text (JSON.stringify config)) ;;
      ret (answer saved 200)
  | None =>
      console_log "boltKV is not available in the current environment" ;;
      ret (answer (Obj [("error", Str "KV storage not available in this environment")]) 500)
  end.

(** The configuration that the admin route works on: the stored one when it
    is truthy, [{ allowedDomains: [] }] otherwise. *)
Definition read_config (env : option Env) : Async any :=
  try_catch
    (match env with
     | Some e =>
         config <- MockKV.get (boltKV e) "config" (Some (Obj [("type", Str "json")])) ;;
         ret (if truthy config then config else emptyConfig)
     | None =>
         console_log "boltKV is not available in the current environment" ;;
         ret emptyConfig
     end)
    (fun error => console_error ("Error fetching auth config: " +:+ error) ;; ret emptyConfig).

(** The loader of the admin route. *)
Definition admin_loader (request : Request) (env : option Env) : Async Answer :=
  user <- getUser request env ;;
  if negb (truthy user) then ret (answer_redirect "/login?redirectTo=/admin")
  else
    authConfig <- read_config env ;;
    ret (answer (Obj [("authConfig", authConfig); ("user", user)]) 200).

(** The fields that the admin action reads of its form. *)
Record AdminForm := {
  f_action : option string;
  f_domain : option string;
  f_requireAuth : option string
}.

(** [DomainSchema.safeParse(domain)]: the messages of its issues. *)
Definition DomainSchema (domain : option string) : Datatypes.list string :=
  z_min 3 "Domain must be at least 3 characters" domain.

(** [`${domain}`] *)
Definition shown (domain : option string) : string :=
  match domain with
  | Some d => d
  | None => "undefined"
  end.

Section Actions.

(** [request.json()] gives the parsed body; of the failure of the schema the
    model keeps that it is a function of the data
    ([result.error.flatten().fieldErrors]). *)
Variable fieldErrors_of : any -> any.

(** The action of the configuration API; [method] and [body] are those of
    the request. *)
Definition config_action (request : Request) (method body : string) (env : option Env)
    : Async Answer :=
  user <- getUser request env ;;
  if negb (truthy user) then ret (answer (Obj [("error", Str "Unauthorized")]) 401)
  else if negb (String.eqb method "POST") then
    ret (answer (Obj [("error", Str "Method not allowed")]) 405)
  else
    try_catch
      (match JSON.parse body with
       | None => throw "SyntaxError"
       | Some data =>
           match authConfigSchema data with
           | None => ret (answer (Obj [("errors", fieldErrors_of data)]) 400)
           | Some result_data =>
               save env result_data (Obj [("success", Bool true); ("config", result_data)])
           end
       end)
      (fun error =>
         console_error ("Error updating auth config: " +:+ error) ;;
         ret (answer (Obj [("error", Str "Failed to update auth configuration")]) 500)).

(** [String.prototype.toLowerCase] and [String.prototype.trim]. *)
Variable toLowerCase : string -> string.
Variable trim : string -> string.

(** [formData.get('domain')?.toString().toLowerCase().trim()] *)
Definition domain_of (formData : AdminForm) : option string :=
  option_map (fun d => trim (toLowerCase d)) (f_domain formData).

(** The action of the admin route.  The calls [includes], [push] and
    [filter] on what the configuration holds as [allowedDomains], and the
    assignment of [requireAuth], throw a TypeError where the value has no such
    method or is a primitive (module code is strict). *)
Definition admin_action (request : Request) (formData : AdminForm) (env : option Env)
    : Async Answer :=
  user <- getUser request env ;;
  if negb (truthy user) then ret (answer (Obj [("error", Str "Unauthorized")]) 401)
  else
    let action := f_action formData in
    authConfig <- read_config env ;;
    if same action "add_domain" then
      let domain := domain_of formData in
      match DomainSchema domain, domain with
      | [], Some domain =>
          match prop authConfig "allowedDomains" with
          | Some (Arr items) =>
              if existsb (fun d => equals (Some d) domain) items then
                ret (answer (Obj [("errors",
                                   Obj [("domain", Str "Domain already exists in whitelist")])]) 400)
              else
                save env (assign authConfig "allowedDomains" (Arr (items ++ [Str domain])))
                  (Obj [("success", Bool true);
                        ("message", Str ("Domain " +:+ domain +:+ " added to whitelist"))])
          | Some (Str s) =>
              if includes s domain then
                ret (answer (Obj [("errors",
                                   Obj [("domain", Str "Domain already exists in whitelist")])]) 400)
              else throw "TypeError"
          | _ => throw "TypeError"
          end
      | messages, _ =>
          ret (answer (Obj [("errors", Obj [("domain", Str (hd "Invalid domain" messages))])]) 400)
      end
    else if same action "remove_domain" then
      let domain := domain_of formData in
      match prop authConfig "allowedDomains" with
      | Some (Arr items) =>
          let kept :=
            filter (fun d => negb (match domain with
                                   | Some domain => equals (Some d) domain
                                   | None => false
                                   end)) items in
          save env (assign authConfig "allowedDomains" (Arr kept))
            (Obj [("success", Bool true);
                  ("message", Str ("Domain " +:+ shown domain +:+ " removed from whitelist"))])
      | _ => throw "TypeError"
      end
    else if same action "toggle_auth_requirement" then
      let requireAuth := same (f_requireAuth formData) "on" in
      let saved :=
        Obj [("success", Bool true);
             ("message", Str ("Authentication requirement "
                              +:+ (if requireAuth then "enabled" else "disabled")))] in
      match authConfig with
      | Obj props => save env (Obj (define props "requireAuth" (Bool requireAuth))) saved
      | Arr items => save env (Arr items) saved
      | _ => throw "TypeError"
      end
    else ret (answer (Obj [("error", Str "Invalid action")]) 400).

End Actions.

End ConfigRoutes.

(* ================================================================== *)
(** * app/lib/mocks/setupMockData.ts                                   *)
(* ================================================================== *)

Module MockData.
Import JS Process AuthServer.

(** The test user of [setupMockData]; [createdAt] is the reading of the
    clock. *)
Definition testUser (createdAt : string) : any :=
  Obj [("id", Str "test-user-123");
       ("email", Str "test@example.com");
       ("name", Str "Test User");
       ("roles", Arr [Str "user"]);
       ("createdAt", Str createdAt);
       ("password", Str "password123")].

Definition setupMockData (createdAt : string) : Async unit :=
  console_log "Setting up mock data for local development..." ;;
  MockKV.put MockKV.mockKV ("user:" +:+ "test@example.com")
    (MockKV.Text (JSON.stringify (testUser createdAt))) ;;
  MockKV.put MockKV.mockKV "allowedDomains"
    (MockKV.Text (JSON.stringify (Arr [Str "example.com"]))) ;;
  MockKV.put MockKV.mockKV "config"
    (MockKV.Text (JSON.stringify (Obj [("requireAuth", Bool false)]))) ;;
  console_log "✅ Mock data initialized successfully" ;;
  console_log "📝 Test user credentials: test@example.com / password123".

End MockData.

(* ================================================================== *)
(** * Vocabulary for the configuration                                 *)
(* ================================================================== *)

Module ConfigTerms.
Import JS Process ConfigRoutes.

(** A configuration of the type [AuthConfig]: the allowed domains and,
    optionally, the requirement. *)
Definition authConfig (allowedDomains : Datatypes.list string) (requireAuth : option bool) : any :=
  Obj (("allowedDomains", Arr (map Str allowedDomains))
       :: match requireAuth with
          | Some b => [("requireAuth", Bool b)]
          | None => []
          end).

(** The configuration in force: the one read from the store when it is
    truthy, the empty one otherwise. *)
Definition config_at (m : Map.t) : any :=
  let v := Terms.json_read m "config" in if truthy v then v else emptyConfig.

(** The values without numbers, buffers and streams, whose objects name no
    key twice. *)
Fixpoint distinct (keys : Datatypes.list string) : bool :=
  match keys with
  | [] => true
  | k :: ks => negb (existsb (String.eqb k) ks) && distinct ks
  end.

Fixpoint plain (v : any) : bool :=
  match v with
  | Null | Bool _ | Str _ => true
  | Arr items => forallb plain items
  | Obj props => distinct (map fst props) && forallb (fun kv => plain (snd kv)) props
  | Number _ | ArrayBuffer _ | Stream _ => false
  end.

(** A text whose first character starts a value: it is no white space and
    closes no array. *)
Definition opens_value (s : string) : Prop :=
  exists c r, s = String c r /\ JSON.is_ws c = false /\ (code c =? 93)%N = false.

(** A value whose text is read back before any rest, with fuel above the
    length of the text. *)
Definition read_back (v : any) : Prop :=
  forall (rest : string) (fuel : nat),
    String.length (JSON.stringify v) < fuel ->
    JSON.read_value fuel (JSON.stringify v +:+ rest) = Some (v, JSON.skip_ws rest).

End ConfigTerms.

(* ================================================================== *)
(** * Facts about the platform                                         *)
(* ================================================================== *)

Import JS Process Spec.

Lemma Map_get_set_same (m : Map.t) (key value : string) :
  Map.get (Map.set m key value) key = Some value.
Proof.
  induction m as [| [k v] m IH]; simpl.
  - now rewrite String.eqb_refl.
  - destruct (String.eqb k key) eqn:E; simpl; rewrite E; auto.
Qed.

Lemma Map_get_set_other (m : Map.t) (key value key' : string) :
  key' <> key -> Map.get (Map.set m key value) key' = Map.get m key'.
Proof.
  intros Hne. induction m as [| [k v] m IH]; simpl.
  - destruct (String.eqb key key') eqn:E; auto.
    apply String.eqb_eq in E. congruence.
  - destruct (String.eqb k key) eqn:E; simpl.
    + apply String.eqb_eq in E. subst k.
      destruct (String.eqb key key') eqn:E'; auto.
      apply String.eqb_eq in E'. congruence.
    + destruct (String.eqb k key'); auto.
Qed.

Lemma Map_get_delete_same (m : Map.t) (key : string) :
  Map.get (Map.delete m key) key = None.
Proof.
  induction m as [| [k v] m IH]; simpl; auto.
  destruct (String.eqb k key) eqn:E; simpl; auto.
  now rewrite E.
Qed.

Lemma Map_get_delete_other (m : Map.t) (key key' : string) :
  key' <> key -> Map.get (Map.delete m key) key' = Map.get m key'.
Proof.
  intros Hne. induction m as [| [k v] m IH]; simpl; auto.
  destruct (String.eqb k key) eqn:E; simpl.
  - apply String.eqb_eq in E. subst k.
    destruct (String.eqb key key') eqn:E'; auto.
    apply String.eqb_eq in E'. congruence.
  - destruct (String.eqb k key'); auto.
Qed.

Lemma Map_delete_absent (m : Map.t) (key : string) :
  Map.get m key = None -> Map.delete m key = m.
Proof.
  induction m as [| [k v] m IH]; simpl; auto.
  destruct (String.eqb k key) eqn:E; simpl; [discriminate |].
  intros H. now rewrite (IH H).
Qed.

Lemma Map_get_In (m : Map.t) (key : string) :
  In key (Map.keys m) <-> Map.get m key <> None.
Proof.
  induction m as [| [k v] m IH]; simpl.
  - tauto.
  - destruct (String.eqb k key) eqn:E.
    + apply String.eqb_eq in E. split; [discriminate | auto].
    + apply String.eqb_neq in E. rewrite <- IH. tauto.
Qed.

(** The operations of a Map keep its keys distinct. *)
Lemma Map_keys_set (m : Map.t) (key value k' : string) :
  In k' (Map.keys (Map.set m key value)) <-> k' = key \/ In k' (Map.keys m).
Proof.
  induction m as [| [k v] m IH]; simpl.
  - intuition.
  - destruct (String.eqb k key) eqn:E; simpl.
    + apply String.eqb_eq in E. subst. intuition.
    + rewrite IH. intuition.
Qed.

Lemma Map_set_wf (m : Map.t) (key value : string) :
  Map.wf m -> Map.wf (Map.set m key value).
Proof.
  unfold Map.wf. induction m as [| [k v] m IH]; simpl; intros H.
  - constructor; [intros [] | constructor].
  - inversion H as [| ? ? Hk Hm]; subst.
    destruct (String.eqb k key) eqn:E; simpl.
    + now constructor.
    + constructor; [| now apply IH].
      change (~ In k (Map.keys (Map.set m key value))).
      rewrite Map_keys_set. apply String.eqb_neq in E. intros [-> | Hin]; auto.
Qed.

Lemma Map_delete_wf (m : Map.t) (key : string) :
  Map.wf m -> Map.wf (Map.delete m key).
Proof.
  unfold Map.wf, Map.delete, Map.keys. induction m as [| [k v] m IH]; simpl; intros H; auto.
  inversion H as [| ? ? Hk Hm]; subst.
  destruct (String.eqb k key); simpl; auto.
  constructor; auto.
  intros Hin. apply Hk. apply in_map_iff in Hin as [[k' v'] [Heq Hin]].
  apply filter_In in Hin as [Hin _]. simpl in Heq. subst k'.
  apply in_map_iff. now exists (k, v').
Qed.

(* ================================================================== *)
(** * The emulator: reads after writes                                 *)
(* ================================================================== *)

(** A text is stored as it is, whatever instance and budget. *)
Lemma put_text_outcome (this : MockKV.t) (key text : string) (fuel : nat) (w : World) :
  MockKV.put this key (MockKV.Text text) fuel w
  = Fulfilled tt (with_store w (Map.set (memoryStore w) key text)).
Proof. reflexivity. Qed.

Lemma delete_outcome (this : MockKV.t) (key : string) (fuel : nat) (w : World) :
  MockKV.delete this key fuel w
  = Fulfilled tt (with_store w (Map.delete (memoryStore w) key)).
Proof. reflexivity. Qed.

(** A read without options of a key that holds [text]. *)
Lemma get_plain_present (this : MockKV.t) (key text : string) (fuel : nat) (w : World) :
  Map.get (memoryStore w) key = Some text ->
  MockKV.get this key None fuel w = Fulfilled (Str text) w.
Proof.
  intros H. unfold MockKV.get, bind, memoryStore_get. rewrite H. reflexivity.
Qed.

(** A read of a key that the store does not hold. *)
Lemma get_absent (this : MockKV.t) (key : string) (options : option any) (fuel : nat) (w : World) :
  Map.get (memoryStore w) key = None ->
  MockKV.get this key options fuel w = Fulfilled Null w.
Proof.
  intros H. unfold MockKV.get, bind, memoryStore_get. rewrite H. reflexivity.
Qed.

(** C1. For every key and text, put(k, v) followed by get(k) without options
    is fulfilled with the text v itself, whatever the store held before; the
    store then holds v at k and the console is untouched. *)
Theorem put_get_round_trip (this : MockKV.t) (k v : string) (fuel : nat) (w : World) :
  (MockKV.put this k (MockKV.Text v) ;; MockKV.get this k None) fuel w
  = Fulfilled (Str v) (with_store w (Map.set (memoryStore w) k v)).
Proof.
  unfold bind at 1. rewrite put_text_outcome.
  apply get_plain_present. simpl. apply Map_get_set_same.
Qed.

(** C6. For every key, delete(k) followed by get(k), with any options, is
    fulfilled with null, whether or not the key was present; a delete of an
    absent key is fulfilled and leaves the state as it was. *)
Theorem delete_then_get_absent (this : MockKV.t) (k : string) (options : option any)
    (fuel : nat) (w : World) :
  (MockKV.delete this k ;; MockKV.get this k options) fuel w
  = Fulfilled Null (with_store w (Map.delete (memoryStore w) k))
  /\ (Map.get (memoryStore w) k = None -> MockKV.delete this k fuel w = Fulfilled tt w).
Proof.
  split.
  - unfold bind at 1. rewrite delete_outcome.
    apply get_absent. simpl. apply Map_get_delete_same.
  - intros Habs. rewrite delete_outcome. unfold with_store.
    rewrite (Map_delete_absent _ _ Habs). now destruct w.
Qed.

(** C10. createMockEnv binds boltKV and AUTH_USERS to the one exported
    mockKV, and the methods of every instance work on the one memoryStore: a
    text put through any instance is read back through any other, so in
    particular through the two bindings in either direction. *)
Theorem bindings_share_the_store :
  let env := MockEnv.createMockEnv tt in
  MockEnv.boltKV env = MockKV.mockKV
  /\ MockEnv.AUTH_USERS env = MockKV.mockKV
  /\ (forall (a b : MockKV.t) (k v : string) (fuel : nat) (w : World),
        (MockKV.put a k (MockKV.Text v) ;; MockKV.get b k None) fuel w
        = Fulfilled (Str v) (with_store w (Map.set (memoryStore w) k v)))
  /\ (forall (k v : string) (fuel : nat) (w : World),
        (MockKV.put (MockEnv.boltKV env) k (MockKV.Text v) ;;
         MockKV.get (MockEnv.AUTH_USERS env) k None) fuel w
        = Fulfilled (Str v) (with_store w (Map.set (memoryStore w) k v))
        /\ (MockKV.put (MockEnv.AUTH_USERS env) k (MockKV.Text v) ;;
            MockKV.get (MockEnv.boltKV env) k None) fuel w
           = Fulfilled (Str v) (with_store w (Map.set (memoryStore w) k v))).
Proof.
  assert (shared : forall (a b : MockKV.t) (k v : string) (fuel : nat) (w : World),
             (MockKV.put a k (MockKV.Text v) ;; MockKV.get b k None) fuel w
             = Fulfilled (Str v) (with_store w (Map.set (memoryStore w) k v))).
  { intros a b k v fuel w. unfold bind at 1. rewrite put_text_outcome.
    apply get_plain_present. simpl. apply Map_get_set_same. }
  cbv zeta. repeat split; auto.
Qed.

(** A read is always fulfilled, never rejected and never pending, and it
    leaves the store as it is. *)
Lemma get_keeps_store (this : MockKV.t) (key : string) (options : option any)
    (fuel : nat) (w : World) :
  exists v w', MockKV.get this key options fuel w = Fulfilled v w'
               /\ memoryStore w' = memoryStore w.
Proof.
  unfold MockKV.get, MockKV.parse_or_null, bind, ret, console_error, memoryStore_get.
  destruct (Map.get (memoryStore w) key) as [value |]; [| eauto].
  repeat match goal with
         | |- context [if ?b then _ else _] => destruct b
         | |- context [match JSON.parse ?x with _ => _ end] => destruct (JSON.parse x)
         end; eauto.
Qed.

(** C5. For every key and options, getWithMetadata(k, o) is fulfilled with a
    record whose value is what get(k, o) is fulfilled with in the same state
    and whose metadata is null; both leave the same state behind. *)
Theorem getWithMetadata_agrees_with_get (this : MockKV.t) (k : string) (o : option any)
    (fuel : nat) (w : World) :
  exists (v : any) (w' : World),
    MockKV.get this k o fuel w = Fulfilled v w'
    /\ MockKV.getWithMetadata this k o fuel w
       = Fulfilled {| MockKV.value := v; MockKV.metadata := Null; MockKV.cacheStatus := Null |} w'.
Proof.
  destruct (get_keeps_store this k o fuel w) as (v & w' & Hget & _).
  exists v, w'. split; [exact Hget |].
  unfold MockKV.getWithMetadata, bind. rewrite Hget. reflexivity.
Qed.

(* ================================================================== *)
(** * The emulator: the shapes of a read                               *)
(* ================================================================== *)

Lemma equals_true (x : option any) (s : string) :
  equals x s = true -> x = Some (Str s).
Proof.
  destruct x as [[] |]; simpl; try discriminate.
  intros H. apply String.eqb_eq in H. now subst.
Qed.

Lemma truthy_string_true (s : string) : s <> EmptyString -> truthy_string s = true.
Proof. destruct s; simpl; congruence. Qed.

(** What a read of a present key does, branch by branch of the source. *)
Lemma get_present (this : MockKV.t) (key text : string) (options : option any)
    (fuel : nat) (w : World) :
  Map.get (memoryStore w) key = Some text ->
  MockKV.get this key options fuel w =
    if json_mode options && truthy_string text then MockKV.parse_or_null key text fuel w
    else if equals options "arrayBuffer" && truthy_string text then
      Fulfilled (ArrayBuffer (TextEncoder_encode text)) w
    else if equals options "stream" && truthy_string text then
      Fulfilled (Stream (single_chunk (TextEncoder_encode text))) w
    else Fulfilled (Str text) w.
Proof.
  intros H. unfold MockKV.get, bind, memoryStore_get, json_mode. rewrite H.
  destruct (equals (optional "type" options) "json"); simpl.
  - destruct (truthy_string text); simpl; [reflexivity |].
    rewrite !andb_false_r. reflexivity.
  - destruct (equals options "json" && truthy_string text); [reflexivity |].
    destruct (equals options "arrayBuffer" && truthy_string text); [reflexivity |].
    destruct (equals options "stream" && truthy_string text); reflexivity.
Qed.

Lemma parse_or_null_failure (key text : string) (fuel : nat) (w : World) :
  JSON.parse text = None ->
  MockKV.parse_or_null key text fuel w
  = Fulfilled Null (logged w ("Failed to parse JSON for key " +:+ key)).
Proof. intros H. unfold MockKV.parse_or_null. rewrite H. reflexivity. Qed.

Lemma parse_or_null_success (key text : string) (j : any) (fuel : nat) (w : World) :
  JSON.parse text = Some j ->
  MockKV.parse_or_null key text fuel w = Fulfilled j w.
Proof. intros H. unfold MockKV.parse_or_null. rewrite H. reflexivity. Qed.

(** The stream that a read returns delivers its one chunk and ends. *)
Lemma single_chunk_reads (chunk : Uint8Array) (fuel : nat) :
  2 <= fuel -> MockKV.read_until_done fuel (single_chunk chunk) 0 [] = Some [chunk].
Proof.
  intros H. destruct fuel as [| [| n]]; try lia. reflexivity.
Qed.

(** C2, as the specification states it, fails on the empty text: it is
    present, it is not valid JSON, and a read in structured mode returns the
    empty text itself, not null, and logs nothing. *)
Lemma empty_text_json_read_is_not_null :
  let w := {| memoryStore := [("k", "")]; console := [] |} in
  Map.get (memoryStore w) "k" = Some ""
  /\ JSON.parse "" = None
  /\ MockKV.get MockKV.mockKV "k" (Some (Str "json")) 1 w = Fulfilled (Str "") w
  /\ MockKV.get MockKV.mockKV "k" (Some (Obj [("type", Str "json")])) 1 w = Fulfilled (Str "") w
  /\ MockKV.get MockKV.mockKV "k" (Some (Str "json")) 1 w <> Fulfilled Null w.
Proof.
  cbv zeta. repeat split; try reflexivity. vm_compute. discriminate.
Qed.

(** C2, amended. For every key that holds a non-empty text that is not valid
    JSON, a read in structured mode (['json'] or [{ type: 'json' }]) is
    fulfilled with null and writes one line to the console; nothing is thrown,
    and null is also what a read of an absent key is fulfilled with. *)
Theorem malformed_json_read_is_null (this : MockKV.t) (k text : string) (options : option any)
    (fuel : nat) (w : World) :
  Map.get (memoryStore w) k = Some text ->
  text <> EmptyString ->
  JSON.parse text = None ->
  json_mode options = true ->
  MockKV.get this k options fuel w
  = Fulfilled Null (logged w ("Failed to parse JSON for key " +:+ k))
  /\ (forall w0 : World, Map.get (memoryStore w0) k = None ->
        MockKV.get this k options fuel w0 = Fulfilled Null w0).
Proof.
  intros Hget Hne Hbad Hmode. split.
  - rewrite (get_present _ _ _ _ _ _ Hget), Hmode, (truthy_string_true _ Hne). simpl.
    now apply parse_or_null_failure.
  - intros w0 Habs. now apply get_absent.
Qed.

Lemma malformed_json_read_is_null_witness :
  let w := {| memoryStore := [("x", "notjson")]; console := [] |} in
  MockKV.get MockKV.mockKV "x" (Some (Str "json")) 1 w
  = Fulfilled Null (logged w "Failed to parse JSON for key x")
  /\ (forall w0 : World, Map.get (memoryStore w0) "x" = None ->
        MockKV.get MockKV.mockKV "x" (Some (Str "json")) 1 w0 = Fulfilled Null w0).
Proof.
  cbv zeta.
  apply (malformed_json_read_is_null MockKV.mockKV "x" "notjson" (Some (Str "json")) 1
           {| memoryStore := [("x", "notjson")]; console := [] |}).
  - reflexivity.
  - discriminate.
  - vm_compute. reflexivity.
  - reflexivity.
Defined.

(** C3, as the specification states it, fails twice.  A present text that is
    not valid JSON, read in structured mode, gives null, which is none of the
    four shapes; and the empty text read in binary or streaming form comes
    back as text, not as a buffer or a stream. *)
Lemma read_outside_the_four_shapes :
  let w := {| memoryStore := [("x", "notjson"); ("e", "")]; console := [] |} in
  MockKV.get MockKV.mockKV "x" (Some (Str "json")) 1 w
  = Fulfilled Null (logged w "Failed to parse JSON for key x")
  /\ ~ one_of_four_shapes "notjson" Null
  /\ MockKV.get MockKV.mockKV "e" (Some (Str "arrayBuffer")) 1 w = Fulfilled (Str "") w
  /\ MockKV.get MockKV.mockKV "e" (Some (Str "stream")) 1 w = Fulfilled (Str "") w.
Proof.
  cbv zeta. split; [reflexivity |]. split; [| split; reflexivity].
  intros [H | [H | [H | H]]]; discriminate H.
Qed.

(** C3, amended. For every key that holds a text, a read is fulfilled, and
    with exactly one of these results: the empty text itself when the text is
    empty; otherwise the parsed value when structured decoding is asked for
    (['json'] or [{ type: 'json' }]) and the text is valid JSON, and null
    with a line on the console when it is not; a buffer of the encoded text
    for the string ['arrayBuffer']; a stream that delivers the encoded text
    as its one chunk for the string ['stream']; and the text itself for any
    other options, an unsupported mode included. *)
Theorem get_return_shapes (this : MockKV.t) (k text : string) (o : option any)
    (fuel : nat) (w : World) :
  Map.get (memoryStore w) k = Some text ->
  (text = EmptyString -> MockKV.get this k o fuel w = Fulfilled (Str text) w)
  /\ (text <> EmptyString -> json_mode o = true ->
        forall j, JSON.parse text = Some j -> MockKV.get this k o fuel w = Fulfilled j w)
  /\ (text <> EmptyString -> json_mode o = true -> JSON.parse text = None ->
        MockKV.get this k o fuel w
        = Fulfilled Null (logged w ("Failed to parse JSON for key " +:+ k)))
  /\ (text <> EmptyString -> o = Some (Str "arrayBuffer") ->
        MockKV.get this k o fuel w = Fulfilled (ArrayBuffer (TextEncoder_encode text)) w)
  /\ (text <> EmptyString -> o = Some (Str "stream") ->
        MockKV.get this k o fuel w
        = Fulfilled (Stream (single_chunk (TextEncoder_encode text))) w
        /\ MockKV.read_until_done 2 (single_chunk (TextEncoder_encode text)) 0 []
           = Some [TextEncoder_encode text])
  /\ (json_mode o = false -> o <> Some (Str "arrayBuffer") -> o <> Some (Str "stream") ->
        MockKV.get this k o fuel w = Fulfilled (Str text) w).
Proof.
  intros Hget. rewrite (get_present _ _ _ _ _ _ Hget).
  repeat match goal with |- _ /\ _ => split end.
  - intros ->. simpl. now rewrite !andb_false_r.
  - intros Hne Hmode j Hj. rewrite Hmode, (truthy_string_true _ Hne). simpl.
    now apply parse_or_null_success.
  - intros Hne Hmode Hbad. rewrite Hmode, (truthy_string_true _ Hne). simpl.
    now apply parse_or_null_failure.
  - intros Hne ->. now rewrite (truthy_string_true _ Hne).
  - intros Hne ->. rewrite (truthy_string_true _ Hne). split; [reflexivity |].
    now apply single_chunk_reads.
  - intros Hmode Hbuf Hstr. rewrite Hmode. simpl.
    destruct (equals o "arrayBuffer") eqn:E1; [apply equals_true in E1; contradiction |].
    destruct (equals o "stream") eqn:E2; [apply equals_true in E2; contradiction |].
    reflexivity.
Qed.

Lemma get_return_shapes_witness :
  let w := {| memoryStore := [("user:a@example.com", "{" +:+ dq +:+ "id" +:+ dq +:+ ":1}")];
              console := [] |} in
  MockKV.get MockKV.mockKV "user:a@example.com" (Some (Str "json")) 1 w
  = Fulfilled (Obj [("id", Number "1")]) w.
Proof.
  cbv zeta.
  refine (proj1 (proj2 (get_return_shapes MockKV.mockKV "user:a@example.com"
                          ("{" +:+ dq +:+ "id" +:+ dq +:+ ":1}") (Some (Str "json")) 1
                          {| memoryStore := [("user:a@example.com",
                                              "{" +:+ dq +:+ "id" +:+ dq +:+ ":1}")];
                             console := [] |} _)) _ _ (Obj [("id", Number "1")]) _).
  - reflexivity.
  - discriminate.
  - reflexivity.
  - vm_compute. reflexivity.
Defined.

(* ================================================================== *)
(** * The emulator: listing keys                                       *)
(* ================================================================== *)

(** The test that [list] applies to a key is the prefix test: an empty
    prefix, which the source skips as falsy, is a prefix of every key. *)
Lemma list_filter_is_prefix_test (p : option string) (key : string) :
  match p with
  | Some p => if truthy_string p then startsWith key p else true
  | None => true
  end = has_prefix p key.
Proof.
  destruct p as [[| c p] |]; try reflexivity.
  now destruct key.
Qed.

Lemma slice0_count {A} (a : Datatypes.list A) (n : nat) :
  MockKV.slice0 a (Z.of_nat n) = firstn n a.
Proof.
  unfold MockKV.slice0.
  destruct (Z.ltb_spec (Z.of_nat n) 0) as [Hneg | _]; [lia |].
  now rewrite Nat2Z.id.
Qed.

Lemma list_outcome (this : MockKV.t) (options : option MockKV.list_options)
    (fuel : nat) (w : World) :
  MockKV.list this options fuel w =
    Fulfilled
      {| MockKV.keys :=
           MockKV.slice0
             (map (fun name => {| MockKV.name := name |})
                (filter (has_prefix (MockKV.optional_prefix options)) (Map.keys (memoryStore w))))
             (match MockKV.optional_limit options with Some n => n | None => 1000%Z end);
         MockKV.list_complete := true;
         MockKV.list_cacheStatus := Null |} w.
Proof.
  unfold MockKV.list, bind, memoryStore_keys, ret.
  do 4 f_equal.
  apply filter_ext. intros key. apply list_filter_is_prefix_test.
Qed.

Lemma filter_no_prefix (l : Datatypes.list string) : filter (has_prefix None) l = l.
Proof. induction l; simpl; congruence. Qed.

Lemma filter_Permutation {A} (f : A -> bool) (l l' : Datatypes.list A) :
  Permutation l l' -> Permutation (filter f l) (filter f l').
Proof.
  induction 1 as [| x l l' _ IH | x y l | l l' l'' _ IH1 _ IH2]; simpl.
  - constructor.
  - destruct (f x); [now constructor | exact IH].
  - destruct (f x), (f y); try apply Permutation_refl. constructor.
  - now transitivity (filter f l').
Qed.

(** C4. For every state, prefix p (or none) and limit n, list answers with
    the keys of the store that start with p, each as a name-only record, in
    the order of the store and cut to the first n, or to the first 1000 when
    no limit is given, and marks the answer complete.  The keys before the
    cut are exactly the keys of the store that start with p; the cut changes
    nothing when they are at most n; and a store with the same entries in
    another order gives the same keys up to their order. *)
Theorem list_keys_by_prefix (this : MockKV.t) (p : option string) (n : nat)
    (fuel : nat) (w : World) :
  let matching := filter (has_prefix p) (Map.keys (memoryStore w)) in
  let entries := map (fun name => {| MockKV.name := name |}) matching in
  MockKV.list this (Some {| MockKV.prefix := p; MockKV.limit := Some (Z.of_nat n) |}) fuel w
  = Fulfilled {| MockKV.keys := firstn n entries;
                 MockKV.list_complete := true;
                 MockKV.list_cacheStatus := Null |} w
  /\ MockKV.list this (Some {| MockKV.prefix := p; MockKV.limit := None |}) fuel w
     = Fulfilled {| MockKV.keys := firstn 1000 entries;
                    MockKV.list_complete := true;
                    MockKV.list_cacheStatus := Null |} w
  /\ MockKV.list this None fuel w
     = Fulfilled {| MockKV.keys :=
                      firstn 1000 (map (fun name => {| MockKV.name := name |})
                                     (Map.keys (memoryStore w)));
                    MockKV.list_complete := true;
                    MockKV.list_cacheStatus := Null |} w
  /\ (forall key, In key matching
                  <-> In key (Map.keys (memoryStore w)) /\ has_prefix p key = true)
  /\ (List.length matching <= n -> firstn n entries = entries)
  /\ (forall w2 : World, Permutation (memoryStore w) (memoryStore w2) ->
        Permutation matching (filter (has_prefix p) (Map.keys (memoryStore w2)))).
Proof.
  cbv zeta. repeat match goal with |- _ /\ _ => split end.
  - rewrite list_outcome. simpl. now rewrite slice0_count.
  - rewrite list_outcome. simpl. now rewrite (slice0_count _ 1000).
  - rewrite list_outcome. simpl. rewrite (slice0_count _ 1000).
    now rewrite filter_no_prefix.
  - intros key. apply filter_In.
  - intros Hle. apply firstn_all2. now rewrite length_map.
  - intros w2 Hperm. apply filter_Permutation. unfold Map.keys. now apply Permutation_map.
Qed.

(** A negative limit is not a count: [slice] then counts from the end. *)
Example list_negative_limit :
  MockKV.list MockKV.mockKV (Some {| MockKV.prefix := None; MockKV.limit := Some (-1)%Z |}) 1
    {| memoryStore := [("a", "1"); ("b", "2")]; console := [] |}
  = Fulfilled {| MockKV.keys := [{| MockKV.name := "a" |}];
                 MockKV.list_complete := true;
                 MockKV.list_cacheStatus := Null |}
      {| memoryStore := [("a", "1"); ("b", "2")]; console := [] |}.
Proof. reflexivity. Qed.

Example list_user_prefix :
  MockKV.list MockKV.mockKV (Some {| MockKV.prefix := Some "user:"; MockKV.limit := None |}) 1
    {| memoryStore := [("config", "{}"); ("user:b", "2"); ("allowedDomains", "[]"); ("user:a", "1")];
       console := [] |}
  = Fulfilled {| MockKV.keys := [{| MockKV.name := "user:b" |}; {| MockKV.name := "user:a" |}];
                 MockKV.list_complete := true;
                 MockKV.list_cacheStatus := Null |}
      {| memoryStore := [("config", "{}"); ("user:b", "2"); ("allowedDomains", "[]"); ("user:a", "1")];
         console := [] |}.
Proof. reflexivity. Qed.

(* ================================================================== *)
(** * The emulator: writing texts, buffers and streams                 *)
(* ================================================================== *)

Lemma total_length_from (chunks : Datatypes.list Uint8Array) (acc : nat) :
  fold_left (fun a chunk => a + List.length chunk) chunks acc
  = acc + List.length (List.concat chunks).
Proof.
  revert acc. induction chunks as [| c cs IH]; intros acc; simpl.
  - lia.
  - rewrite IH, length_app. lia.
Qed.

Lemma total_length_concat (chunks : Datatypes.list Uint8Array) :
  MockKV.total_length chunks = List.length (List.concat chunks).
Proof. unfold MockKV.total_length. now rewrite total_length_from. Qed.

(** Copying the chunks at the running offset fills the array with their
    concatenation, and no copy is out of range. *)
Lemma copy_chunks_from (chunks : Datatypes.list Uint8Array) (done rest : Uint8Array) :
  List.length rest = List.length (List.concat chunks) ->
  MockKV.copy_chunks (done ++ rest) (List.length done) chunks
  = Some (done ++ List.concat chunks).
Proof.
  revert done rest. induction chunks as [| c cs IH]; intros done rest Hlen; simpl in *.
  - destruct rest; [reflexivity | discriminate].
  - rewrite length_app in Hlen. unfold Uint8Array_set.
    rewrite length_app.
    destruct (Nat.leb_spec (List.length done + List.length c)
                (List.length done + List.length rest)) as [_ | Hgt]; [| lia].
    rewrite firstn_app, firstn_all, Nat.sub_diag. simpl. rewrite app_nil_r.
    rewrite skipn_app, skipn_all2 by lia. simpl.
    replace (List.length done + List.length c - List.length done) with (List.length c) by lia.
    replace (done ++ c ++ skipn (List.length c) rest)
      with ((done ++ c) ++ skipn (List.length c) rest) by now rewrite app_assoc.
    replace (List.length done + List.length c) with (List.length (done ++ c))
      by now rewrite length_app.
    rewrite IH.
    + now rewrite <- app_assoc.
    + rewrite length_skipn. lia.
Qed.

Lemma copy_chunks_concat (chunks : Datatypes.list Uint8Array) :
  MockKV.copy_chunks (Uint8Array_new (MockKV.total_length chunks)) 0 chunks
  = Some (List.concat chunks).
Proof.
  apply (copy_chunks_from chunks [] (Uint8Array_new (MockKV.total_length chunks))).
  unfold Uint8Array_new. now rewrite repeat_length, total_length_concat.
Qed.

(** What a put does, for every kind of value. *)
Lemma put_outcome (this : MockKV.t) (key : string) (value : MockKV.put_value)
    (fuel : nat) (w : World) :
  MockKV.put this key value fuel w =
    match stored_text fuel value with
    | Some text => Fulfilled tt (with_store w (Map.set (memoryStore w) key text))
    | None =>
        match put_error fuel value with
        | Some error => Rejected error w
        | None => Pending
        end
    end.
Proof.
  destruct value as [s | rs | bytes | rs reads error]; try reflexivity.
  - unfold MockKV.put, bind, MockKV.drain, stored_text, put_error.
    destruct (MockKV.read_until_done fuel rs 0 []) as [chunks |]; [| reflexivity].
    now rewrite copy_chunks_concat.
  - unfold MockKV.put, bind, MockKV.drain_broken, stored_text, put_error.
    destruct (MockKV.read_until_error fuel rs reads 0 []) as [[chunks |] |];
      [| reflexivity | reflexivity].
    now rewrite copy_chunks_concat.
Qed.

(** The chunks delivered by the reads from [i] up to [n]. *)
Lemma first_chunks_step (rs : ReadableStream) (n : nat) (chunk : Uint8Array) :
  pull rs n = Some chunk -> first_chunks rs (S n) = first_chunks rs n ++ [chunk].
Proof.
  intros H. unfold first_chunks. rewrite seq_S, flat_map_app. simpl. now rewrite H.
Qed.

Lemma read_until_done_from (rs : ReadableStream) (n : nat) :
  ends_at rs n ->
  forall (gap i fuel : nat),
    i + gap = n -> gap < fuel ->
    MockKV.read_until_done fuel rs i (first_chunks rs i) = Some (first_chunks rs n).
Proof.
  intros [Hsome Hend]. induction gap as [| gap IH]; intros i fuel Hi Hfuel.
  - replace i with n by lia. destruct fuel as [| fuel]; [lia |]. simpl. now rewrite Hend.
  - destruct fuel as [| fuel]; [lia |]. simpl.
    destruct (pull rs i) as [chunk |] eqn:Hp.
    + rewrite <- (first_chunks_step rs i chunk Hp). apply IH; lia.
    + exfalso. apply (Hsome i); [lia | exact Hp].
Qed.

(** The loop ends as soon as the budget exceeds the number of chunks. *)
Lemma read_until_done_ends (rs : ReadableStream) (n fuel : nat) :
  ends_at rs n -> n < fuel ->
  MockKV.read_until_done fuel rs 0 [] = Some (first_chunks rs n).
Proof.
  intros Hends Hfuel. apply (read_until_done_from rs n Hends n 0 fuel); [reflexivity | exact Hfuel].
Qed.

(** A source that never ends keeps the loop going: the put stays pending
    whatever the budget. *)
Lemma read_until_done_never (rs : ReadableStream) :
  (forall i, pull rs i <> None) ->
  forall fuel i acc, MockKV.read_until_done fuel rs i acc = None.
Proof.
  intros Hnever. induction fuel as [| fuel IH]; intros i acc; simpl; [reflexivity |].
  destruct (pull rs i) eqn:Hp; [apply IH | now apply Hnever in Hp].
Qed.

(** C8. For every stream that signals its end at its n-th read, and not
    before, put(k, stream) is fulfilled as soon as the budget exceeds n reads,
    and the text stored at k is the decoding of the concatenation, in order,
    of the n chunks read; no copy into the buffer is out of range. *)
Theorem put_stream_drains_then_decodes (this : MockKV.t) (k : string) (rs : ReadableStream)
    (n fuel : nat) (w : World) :
  ends_at rs n ->
  n < fuel ->
  MockKV.put this k (MockKV.OfStream rs) fuel w
  = Fulfilled tt
      (with_store w
         (Map.set (memoryStore w) k (TextDecoder_decode (List.concat (first_chunks rs n))))).
Proof.
  intros Hends Hfuel. rewrite put_outcome. unfold stored_text.
  now rewrite (read_until_done_ends rs n fuel Hends Hfuel).
Qed.

Lemma put_stream_drains_then_decodes_witness :
  let rs := {| pull := fun i => if (i <? 3)%nat then Some [x41; x42] else None |} in
  let w := {| memoryStore := [("s", "old")]; console := [] |} in
  MockKV.put MockKV.mockKV "s" (MockKV.OfStream rs) 4 w
  = Fulfilled tt {| memoryStore := [("s", "ABABAB")]; console := [] |}.
Proof.
  cbv zeta.
  apply (put_stream_drains_then_decodes MockKV.mockKV "s"
           {| pull := fun i => if (i <? 3)%nat then Some [x41; x42] else None |} 3 4
           {| memoryStore := [("s", "old")]; console := [] |}).
  - split.
    + intros i Hi. simpl. destruct (Nat.ltb_spec i 3); [discriminate | lia].
    + reflexivity.
  - lia.
Defined.

Example put_never_ending_stream_pending (fuel : nat) (w : World) :
  MockKV.put MockKV.mockKV "s" (MockKV.OfStream {| pull := fun _ => Some [x41] |}) fuel w
  = Pending.
Proof.
  rewrite put_outcome. unfold stored_text.
  rewrite read_until_done_never; [reflexivity |]. intros i. discriminate.
Qed.

(* ================================================================== *)
(** * The emulator: what a call leaves untouched                       *)
(* ================================================================== *)

Lemma readable_after_one (fuel : nat) (c : call) (key : string) (before : option string) :
  readable_after fuel [c] key before =
    if writes key c
    then match c with Put _ value => stored_text fuel value | _ => None end
    else before.
Proof.
  unfold readable_after. simpl. destruct (writes key c); [| reflexivity].
  now destruct c.
Qed.

Lemma readable_after_cons (fuel : nat) (c : call) (cs : Datatypes.list call) (key : string)
    (before : option string) :
  readable_after fuel (c :: cs) key before
  = readable_after fuel cs key (readable_after fuel [c] key before).
Proof.
  unfold readable_after. simpl.
  destruct (last_write cs key) as [c' |]; reflexivity.
Qed.

Lemma last_write_writes (cs : Datatypes.list call) (key : string) (c : call) :
  last_write cs key = Some c -> writes key c = true.
Proof.
  induction cs as [| c0 cs IH]; simpl; [discriminate |].
  destruct (last_write cs key) as [c' |].
  - intros [= <-]. now apply IH.
  - destruct (writes key c0) eqn:E; [| discriminate]. now intros [= <-].
Qed.

(** One call: what is readable at each key afterwards. *)
Lemma perform_readable (this : MockKV.t) (c : call) (fuel : nat) (w w' : World) :
  perform this c fuel w = Fulfilled tt w' ->
  forall key, Map.get (memoryStore w') key
              = readable_after fuel [c] key (Map.get (memoryStore w) key).
Proof.
  intros Hrun key. rewrite readable_after_one.
  destruct c as [k value | k | k o | o | k o]; simpl in *.
  - rewrite put_outcome in Hrun.
    destruct (stored_text fuel value) as [text |];
      [| destruct (put_error fuel value); discriminate].
    injection Hrun as <-. simpl.
    destruct (String.eqb_spec k key) as [-> | Hne].
    + apply Map_get_set_same.
    + apply Map_get_set_other. congruence.
  - rewrite delete_outcome in Hrun. injection Hrun as <-. simpl.
    destruct (String.eqb_spec k key) as [-> | Hne].
    + apply Map_get_delete_same.
    + apply Map_get_delete_other. congruence.
  - unfold bind in Hrun.
    destruct (get_keeps_store this k o fuel w) as (v & w1 & Hget & Hsame).
    rewrite Hget in Hrun. injection Hrun as <-. now rewrite Hsame.
  - unfold bind in Hrun. rewrite list_outcome in Hrun. now injection Hrun as <-.
  - unfold MockKV.getWithMetadata, bind in Hrun.
    destruct (get_keeps_store this k o fuel w) as (v & w1 & Hget & Hsame).
    rewrite Hget in Hrun. injection Hrun as <-. now rewrite Hsame.
Qed.

(** A sequence of calls: what is readable at each key afterwards. *)
Lemma perform_all_readable (this : MockKV.t) (cs : Datatypes.list call) (fuel : nat) :
  forall (w w' : World),
    perform_all this cs fuel w = Fulfilled tt w' ->
    forall key, Map.get (memoryStore w') key
                = readable_after fuel cs key (Map.get (memoryStore w) key).
Proof.
  induction cs as [| c cs IH]; intros w w' Hrun key.
  - injection Hrun as <-. reflexivity.
  - simpl in Hrun. unfold bind in Hrun at 1.
    destruct (perform this c fuel w) as [[] w1 | e w1 |] eqn:Hc; try discriminate.
    rewrite readable_after_cons, (IH _ _ Hrun key).
    now rewrite (perform_readable this c fuel w w1 Hc key).
Qed.

(** C7. A put replaces the value at its key and leaves every other key as
    it was; a delete removes its key and leaves every other key as it was;
    hence after any sequence of calls the value readable at a key is the text
    of the last put to that key, nothing if a delete of the key came later,
    and what was there before if no call wrote the key.  From the empty store
    every readable value was stored by the last put to that very key. *)
Theorem writes_touch_only_their_key (this : MockKV.t) (k : string) (fuel : nat) (w : World) :
  (forall (value : MockKV.put_value) (text : string),
      stored_text fuel value = Some text ->
      exists w', MockKV.put this k value fuel w = Fulfilled tt w'
                 /\ Map.get (memoryStore w') k = Some text
                 /\ (forall k', k' <> k ->
                       Map.get (memoryStore w') k' = Map.get (memoryStore w) k'))
  /\ (exists w', MockKV.delete this k fuel w = Fulfilled tt w'
                 /\ Map.get (memoryStore w') k = None
                 /\ (forall k', k' <> k ->
                       Map.get (memoryStore w') k' = Map.get (memoryStore w) k'))
  /\ (forall (cs : Datatypes.list call) (w' : World),
        perform_all this cs fuel w = Fulfilled tt w' ->
        forall key, Map.get (memoryStore w') key
                    = readable_after fuel cs key (Map.get (memoryStore w) key))
  /\ (forall (cs : Datatypes.list call) (w' : World),
        memoryStore w = [] ->
        perform_all this cs fuel w = Fulfilled tt w' ->
        forall key text,
          Map.get (memoryStore w') key = Some text ->
          exists value, last_write cs key = Some (Put key value)
                        /\ stored_text fuel value = Some text).
Proof.
  repeat match goal with |- _ /\ _ => split end.
  - intros value text Htext. rewrite put_outcome, Htext.
    eexists. split; [reflexivity |]. simpl. split.
    + apply Map_get_set_same.
    + intros k' Hne. now apply Map_get_set_other.
  - rewrite delete_outcome. eexists. split; [reflexivity |]. simpl. split.
    + apply Map_get_delete_same.
    + intros k' Hne. now apply Map_get_delete_other.
  - intros cs w'. apply perform_all_readable.
  - intros cs w' Hempty Hrun key text Hread.
    rewrite (perform_all_readable this cs fuel w w' Hrun key) in Hread.
    unfold readable_after in Hread. rewrite Hempty in Hread.
    destruct (last_write cs key) as [c |] eqn:Hlast; [| discriminate].
    pose proof (last_write_writes cs key c Hlast) as Hw.
    destruct c as [k0 value | k0 | | |]; try discriminate.
    simpl in Hw. apply String.eqb_eq in Hw. subst k0.
    now exists value.
Qed.

Example overwrite_then_delete :
  perform_all MockKV.mockKV
    [Put "a" (MockKV.Text "1"); Put "b" (MockKV.Text "2"); Put "a" (MockKV.Text "3");
     Get "a" None; Delete "b"; List None] 1
    {| memoryStore := []; console := [] |}
  = Fulfilled tt {| memoryStore := [("a", "3")]; console := [] |}.
Proof. reflexivity. Qed.

(* ================================================================== *)
(** * JSON: what is written is read back                               *)
(* ================================================================== *)

Lemma append_assoc (a b c : string) : (a +:+ b) +:+ c = a +:+ b +:+ c.
Proof. induction a as [| x a IH]; simpl; congruence. Qed.

Lemma length_append (a b : string) :
  String.length (a +:+ b) = String.length a + String.length b.
Proof. induction a as [| x a IH]; simpl; congruence. Qed.

Lemma read_chars_escape_char (c : ascii) (rest : string) (n : nat) :
  JSON.read_chars (S n) (JSON.escape_char c +:+ rest)
  = match JSON.read_chars n rest with
    | Some (t, r) => Some (String c t, r)
    | None => None
    end.
Proof.
  destruct c as [[] [] [] [] [] [] [] []]; reflexivity.
Qed.

Lemma read_chars_quote_end (rest : string) (n : nat) :
  JSON.read_chars (S n) (dq +:+ rest) = Some (EmptyString, rest).
Proof. reflexivity. Qed.

Lemma read_chars_escape (s rest : string) :
  forall fuel, String.length s < fuel ->
  JSON.read_chars fuel (JSON.escape s +:+ dq +:+ rest) = Some (s, rest).
Proof.
  induction s as [| c s IH]; intros fuel Hfuel; (destruct fuel as [| n]; [simpl in Hfuel; lia |]).
  - apply read_chars_quote_end.
  - simpl JSON.escape. rewrite append_assoc, read_chars_escape_char.
    rewrite IH; [reflexivity | simpl in Hfuel; lia].
Qed.

Lemma escape_char_length (c : ascii) : 1 <= String.length (JSON.escape_char c).
Proof. destruct c as [[] [] [] [] [] [] [] []]; simpl; lia. Qed.

Lemma escape_length (s : string) : String.length s <= String.length (JSON.escape s).
Proof.
  induction s as [| c s IH]; simpl; [lia |].
  rewrite length_append. pose proof (escape_char_length c). lia.
Qed.

Lemma read_string_quote (s rest : string) :
  JSON.read_string (JSON.quote s +:+ rest) = Some (s, rest).
Proof.
  unfold JSON.quote. rewrite !append_assoc.
  change (dq +:+ JSON.escape s +:+ dq +:+ rest)
    with (String (chr 34) (JSON.escape s +:+ dq +:+ rest)).
  unfold JSON.read_string.
  change (code (chr 34) =? 34)%N with true. cbv iota.
  apply read_chars_escape.
  rewrite length_append. pose proof (escape_length s). simpl. lia.
Qed.

Lemma skip_ws_quote (s rest : string) :
  JSON.skip_ws (JSON.quote s +:+ rest) = JSON.quote s +:+ rest.
Proof. unfold JSON.quote. rewrite !append_assoc. reflexivity. Qed.

Lemma quote_head (s rest : string) :
  JSON.quote s +:+ rest = String (chr 34) (JSON.escape s +:+ dq +:+ rest).
Proof. unfold JSON.quote. rewrite !append_assoc. reflexivity. Qed.

Lemma read_value_at_quote (r : string) (n : nat) :
  JSON.read_value (S n) (String (chr 34) r)
  = match JSON.read_string (String (chr 34) r) with
    | Some (t, r1) => Some (Str t, JSON.skip_ws r1)
    | None => None
    end.
Proof. reflexivity. Qed.

(** A string value, followed by a comma or a closing brace. *)
Lemma read_value_quote (s rest : string) (n : nat) :
  JSON.read_value (S n) (JSON.quote s +:+ rest) = Some (Str s, JSON.skip_ws rest).
Proof.
  rewrite quote_head, read_value_at_quote.
  now rewrite <- quote_head, read_string_quote.
Qed.

Lemma read_members_step (n : nat) (s : string) :
  JSON.read_members (S n) s
  = match JSON.read_string (JSON.skip_ws s) with
    | Some (k, r0) =>
        match JSON.skip_ws r0 with
        | String c r1 =>
            if (code c =? 58)%N then
              match JSON.read_value n r1 with
              | Some (v, String c' r2) =>
                  if (code c' =? 44)%N then
                    match JSON.read_members n r2 with
                    | Some (ms, r3) => Some ((k, v) :: ms, r3)
                    | None => None
                    end
                  else if (code c' =? 125)%N then Some ([(k, v)], r2)
                  else None
              | _ => None
              end
            else None
        | EmptyString => None
        end
    | None => None
    end.
Proof. reflexivity. Qed.

(** One member with a string value, and what follows it. *)
Lemma read_member_text (k v rest : string) (n : nat) :
  JSON.read_members (S (S n)) (JSON.quote k +:+ ":" +:+ JSON.quote v +:+ rest)
  = match JSON.skip_ws rest with
    | String c' r2 =>
        if (code c' =? 44)%N then
          match JSON.read_members (S n) r2 with
          | Some (ms, r3) => Some ((k, Str v) :: ms, r3)
          | None => None
          end
        else if (code c' =? 125)%N then Some ([(k, Str v)], r2)
        else None
    | EmptyString => None
    end.
Proof.
  rewrite read_members_step, skip_ws_quote, read_string_quote.
  change (JSON.skip_ws (":" +:+ JSON.quote v +:+ rest))
    with (String ":" (JSON.quote v +:+ rest)).
  cbv beta iota. change (code ":" =? 58)%N with true. cbv beta iota.
  rewrite read_value_quote. reflexivity.
Qed.

Lemma join_cons (p q : string) (ps : Datatypes.list string) :
  JSON.join "," (p :: q :: ps) = p +:+ "," +:+ JSON.join "," (q :: ps).
Proof. reflexivity. Qed.

Lemma read_members_text (fields : Datatypes.list (string * string)) :
  fields <> [] ->
  forall (rest : string) (fuel : nat),
    List.length fields < fuel ->
    JSON.read_members fuel
      (JSON.join "," (map member (text_props fields)) +:+ "}" +:+ rest)
    = Some (text_props fields, rest).
Proof.
  induction fields as [| [k v] fields IH]; intros Hne rest fuel Hfuel; [congruence |].
  destruct fuel as [| [| n]]; simpl in Hfuel; try lia.
  destruct fields as [| f2 fields].
  - simpl JSON.join. unfold member at 1. simpl fst. simpl snd. simpl JSON.stringify.
    rewrite !append_assoc, read_member_text. reflexivity.
  - simpl text_props. simpl map. rewrite join_cons.
    unfold member at 1. simpl fst. simpl snd. simpl JSON.stringify.
    rewrite !append_assoc, read_member_text.
    match goal with
    | |- context [JSON.skip_ws ("," +:+ ?x)] =>
        change (JSON.skip_ws ("," +:+ x)) with (String "," x)
    end.
    cbv beta iota. change (code "," =? 44)%N with true. cbv beta iota.
    specialize (IH ltac:(discriminate) rest (S n)).
    simpl text_props in IH. simpl map in IH. rewrite IH; [reflexivity | simpl in *; lia].
Qed.

Lemma join_members_length (fields : Datatypes.list (string * string)) :
  List.length fields <= String.length (JSON.join "," (map member (text_props fields))).
Proof.
  induction fields as [| [k v] fields IH]; [simpl; lia |].
  assert (Hm : 1 <= String.length (member (k, Str v))).
  { unfold member. rewrite quote_head. simpl. lia. }
  destruct fields as [| f2 fields].
  - simpl JSON.join. simpl List.length. exact Hm.
  - simpl text_props in *. simpl map in *. rewrite join_cons, !length_append.
    simpl List.length in *. lia.
Qed.

Lemma read_value_object (r r' : string) (n : nat) :
  JSON.skip_ws r = String (chr 34) r' ->
  JSON.read_value (S n) (String "{" r)
  = match JSON.read_members n (String (chr 34) r') with
    | Some (ms, r1) =>
        Some (Obj (fold_left (fun o kv => define o (fst kv) (snd kv)) ms []), JSON.skip_ws r1)
    | None => None
    end.
Proof.
  intros Hws. simpl. rewrite Hws. reflexivity.
Qed.

Lemma members_head (fields : Datatypes.list (string * string)) (rest : string) :
  fields <> [] ->
  exists r, JSON.join "," (map member (text_props fields)) +:+ rest = String (chr 34) r.
Proof.
  destruct fields as [| [k v] [| f2 fields]]; [congruence | |]; intros _.
  - simpl JSON.join. unfold member. rewrite !append_assoc, quote_head. eauto.
  - simpl text_props. simpl map. rewrite join_cons.
    unfold member at 1. rewrite !append_assoc, quote_head. eauto.
Qed.

(** parse after stringify, on the objects whose values are strings. *)
Lemma parse_stringify_text_object (fields : Datatypes.list (string * string)) :
  fields <> [] ->
  JSON.parse (JSON.stringify (Obj (text_props fields)))
  = Some (Obj (fold_left (fun o kv => define o (fst kv) (snd kv)) (text_props fields) [])).
Proof.
  intros Hne.
  change (JSON.stringify (Obj (text_props fields)))
    with (String "{" (JSON.join "," (map member (text_props fields)) +:+ "}")).
  unfold JSON.parse.
  pose proof (join_members_length fields) as Hlen.
  destruct (members_head fields "}" Hne) as [r Hr].
  remember (JSON.join "," (map member (text_props fields))) as body eqn:Hbody.
  change (String.length (String "{" (body +:+ "}"))) with (S (String.length (body +:+ "}"))).
  replace (2 * S (String.length (body +:+ "}")) + 2)
    with (S (S (2 * String.length (body +:+ "}") + 2))) by lia.
  rewrite (read_value_object (body +:+ "}") r); [| now rewrite Hr].
  rewrite <- Hr.
  replace (body +:+ "}") with (body +:+ "}" +:+ EmptyString) at 2 by reflexivity.
  subst body. rewrite read_members_text; [reflexivity | exact Hne |].
  rewrite length_append. lia.
Qed.


(* ================================================================== *)
(** * The routes: registering, then logging in                         *)
(* ================================================================== *)

Import Routes.

Lemma user_record_text_props (userKey email firstName lastName password createdAt updatedAt : string) :
  user_record userKey email firstName lastName password createdAt updatedAt
  = Obj (text_props [("id", userKey); ("email", email); ("firstName", firstName);
                     ("lastName", lastName); ("passwordHash", password);
                     ("createdAt", createdAt); ("updatedAt", updatedAt)]).
Proof. reflexivity. Qed.

(** The stored record reads back as the object that was written: it has a
    [passwordHash] and no [password]. *)
Lemma parse_user_record (userKey email firstName lastName password createdAt updatedAt : string) :
  JSON.parse (JSON.stringify
                (user_record userKey email firstName lastName password createdAt updatedAt))
  = Some (user_record userKey email firstName lastName password createdAt updatedAt).
Proof.
  rewrite user_record_text_props, parse_stringify_text_object by discriminate.
  reflexivity.
Qed.

Lemma fieldErrors_nil (checked : Errors) :
  fieldErrors checked = [] -> Forall (fun e => snd e = []) checked.
Proof.
  unfold fieldErrors. induction checked as [| [f ms] checked IH]; simpl; [constructor |].
  destruct ms; [| discriminate]. intros H. constructor; auto.
Qed.

Section ActionFacts.
Variable isEmail : string -> bool.
Variable toLowerCase : string -> string.

(** What a registration that ends in a session has done. *)
Lemma register_success (formData : RegisterForm) (env : option MockEnv.Env)
    (createdAt updatedAt : string) (fuel : nat) (w w1 : World) (to : string) (uid : option any) :
  register_action isEmail toLowerCase formData env createdAt updatedAt fuel w
  = Fulfilled (redirect to uid) w1 ->
  exists email password firstName lastName,
    r_email formData = Some email
    /\ r_password formData = Some password
    /\ r_firstName formData = Some firstName
    /\ r_lastName formData = Some lastName
    /\ 6 <= JS.length password
    /\ uid = Some (Str ("user:" +:+ toLowerCase email))
    /\ memoryStore w1
       = Map.set (memoryStore w) ("user:" +:+ toLowerCase email)
           (JSON.stringify
              (user_record ("user:" +:+ toLowerCase email) (toLowerCase email)
                 firstName lastName password createdAt updatedAt)).
Proof.
  unfold register_action.
  destruct formData as [[email |] [password |] [firstName |] [lastName |] rto];
    cbn [r_email r_password r_firstName r_lastName r_redirectTo option_map];
    try (destruct (RegisterSchema _ _ _ _ _); unfold ret; discriminate).
  destruct (RegisterSchema isEmail (Some (toLowerCase email)) (Some password)
              (Some firstName) (Some lastName)) as [| e errors] eqn:Hschema;
    [| unfold ret; discriminate].
  apply fieldErrors_nil in Hschema.
  pose proof (Forall_inv (Forall_inv_tail Hschema)) as Hpw.
  cbn [snd] in Hpw. unfold z_min in Hpw.
  intros Hrun. exists email, password, firstName, lastName.
  repeat match goal with |- _ /\ _ => split; [reflexivity |] end.
  assert (Hlen : 6 <= JS.length password).
  { revert Hpw. destruct (Nat.leb_spec 6 (JS.length password)); [auto | discriminate]. }
  split; [exact Hlen |].
  unfold try_catch, bind in Hrun.
  destruct (get_keeps_store (kvStore_of env) ("user:" +:+ toLowerCase email) None fuel w)
    as (v & w0 & Hget & Hsame).
  rewrite Hget in Hrun.
  assert (Hw0 : w0 = w).
  { unfold MockKV.get, bind, memoryStore_get in Hget.
    destruct (Map.get (memoryStore w) ("user:" +:+ toLowerCase email));
      simpl in Hget; now injection Hget. }
  subst w0.
  destruct (truthy v); [discriminate |].
  rewrite put_text_outcome in Hrun. unfold createUserSession, ret in Hrun.
  injection Hrun as _ <- <-. split; reflexivity.
Qed.

Lemma login_accepts (email password : string) :
  LoginSchema isEmail (Some email) (Some password) = [] ->
  zfd_text (Some email) = Some email /\ zfd_text (Some password) = Some password.
Proof.
  intros H. apply fieldErrors_nil in H.
  pose proof (Forall_inv H) as He. pose proof (Forall_inv (Forall_inv_tail H)) as Hp.
  cbn [snd] in He, Hp.
  destruct email; [discriminate He |]. destruct password; [discriminate Hp |].
  split; reflexivity.
Qed.

(** The login of a user whose record holds [text] at its key. *)
Lemma login_reads_record (email password : string) (redirectTo : option string)
    (env : option MockEnv.Env) (fuel : nat) (w : World) (record : any) :
  LoginSchema isEmail (Some email) (Some password) = [] ->
  Map.get (memoryStore w) ("user:" +:+ toLowerCase email) = Some (JSON.stringify record) ->
  JSON.parse (JSON.stringify record) = Some record ->
  truthy_string (JSON.stringify record) = true ->
  truthy record = true ->
  prop record "password" = None ->
  exists w',
    login_action isEmail toLowerCase
      {| l_email := Some email; l_password := Some password; l_redirectTo := redirectTo |}
      env fuel w
    = Fulfilled (json [("password", ["Invalid password"])] 401) w'.
Proof.
  intros Hschema Hstored Hparse Htext Htruthy Hprop.
  destruct (login_accepts email password Hschema) as [He Hp].
  unfold login_action. cbn [l_email l_password l_redirectTo].
  rewrite Hschema, He, Hp.
  set (w0 := match env with
             | None => logged w "boltKV is not available in the current environment, using mockKV instead for login"
             | Some _ => w
             end).
  assert (Hstored0 : Map.get (memoryStore w0) ("user:" +:+ toLowerCase email)
                     = Some (JSON.stringify record)).
  { subst w0. now destruct env. }
  exists w0.
  unfold try_catch, bind at 1.
  assert (Hfirst : (match env with
                    | None => console_warn "boltKV is not available in the current environment, using mockKV instead for login"
                    | Some _ => ret tt
                    end) fuel w = Fulfilled tt w0).
  { subst w0. destruct env; [reflexivity |]. destruct w; reflexivity. }
  rewrite Hfirst. unfold bind.
  rewrite (get_present _ _ _ _ _ _ Hstored0).
  change (json_mode (Some (Obj [("type", Str "json")]))) with true.
  rewrite Htext. cbv beta iota. simpl andb. cbv iota.
  rewrite (parse_or_null_success _ _ _ _ _ Hparse).
  rewrite Htruthy, Hprop. reflexivity.
Qed.

(** C9. When the register action has created a user record and answered
    with the session of its key, a later login with the same e-mail address and
    password, in any state that still holds that record at the key, never
    answers with a session: the record read back has a passwordHash and no
    password, so the answer is the 401 error Invalid password whenever the
    login form passes its validation, and the 400 error of that validation
    otherwise. *)
Theorem registered_user_cannot_log_in (formData : RegisterForm) (env : option MockEnv.Env)
    (createdAt updatedAt : string) (fuel : nat) (w w1 : World) (to userKey : string) :
  register_action isEmail toLowerCase formData env createdAt updatedAt fuel w
  = Fulfilled (redirect to (Some (Str userKey))) w1 ->
  forall (env' : option MockEnv.Env) (redirectTo : option string) (fuel' : nat) (w2 : World),
    Map.get (memoryStore w2) userKey = Map.get (memoryStore w1) userKey ->
    exists errors status w3,
      login_action isEmail toLowerCase
        {| l_email := r_email formData; l_password := r_password formData;
           l_redirectTo := redirectTo |} env' fuel' w2
      = Fulfilled (json errors status) w3
      /\ (LoginSchema isEmail (r_email formData) (r_password formData) = [] ->
            errors = [("password", ["Invalid password"])] /\ status = 401%Z)
      /\ (LoginSchema isEmail (r_email formData) (r_password formData) <> [] ->
            errors = LoginSchema isEmail (r_email formData) (r_password formData)
            /\ status = 400%Z).
Proof.
  intros Hreg env' redirectTo fuel' w2 Hkept.
  destruct (register_success _ _ _ _ _ _ _ _ _ Hreg)
    as (email & password & firstName & lastName & He & Hp & _ & _ & _ & Huid & Hstore).
  injection Huid as Hkey. change (userKey = "user:" +:+ toLowerCase email) in Hkey.
  subst userKey. rewrite He, Hp.
  destruct (LoginSchema isEmail (Some email) (Some password)) as [| e errors] eqn:Hschema.
  - assert (Hstored : Map.get (memoryStore w2) ("user:" +:+ toLowerCase email)
                      = Some (JSON.stringify
                                (user_record ("user:" +:+ toLowerCase email) (toLowerCase email)
                                   firstName lastName password createdAt updatedAt))).
    { rewrite Hkept, Hstore. apply Map_get_set_same. }
    destruct (login_reads_record email password redirectTo env' fuel' w2 _ Hschema Hstored
                (parse_user_record _ _ _ _ _ _ _) eq_refl eq_refl eq_refl) as [w3 Hlogin].
    exists [("password", ["Invalid password"])], 401%Z, w3.
    split; [exact Hlogin |]. split; [auto | congruence].
  - exists (e :: errors), 400%Z, w2.
    split; [| split; [discriminate | auto]].
    unfold login_action. cbn [l_email l_password l_redirectTo]. rewrite Hschema.
    reflexivity.
Qed.
End ActionFacts.

Lemma registered_user_cannot_log_in_witness :
  let form := {| r_email := Some "Ada@Example.com"; r_password := Some "secret1";
                 r_firstName := Some "Ada"; r_lastName := Some "Lovelace";
                 r_redirectTo := None |} in
  let w := {| memoryStore := []; console := [] |} in
  let w1 := {| memoryStore :=
                 [("user:ada@example.com",
                   JSON.stringify
                     (user_record "user:ada@example.com" "ada@example.com" "Ada" "Lovelace"
                        "secret1" "2025-01-01T00:00:00.000Z" "2025-01-01T00:00:00.001Z"))];
               console := [] |} in
  register_action has_at lower_ascii form None
    "2025-01-01T00:00:00.000Z" "2025-01-01T00:00:00.001Z" 1 w
  = Fulfilled (redirect "/" (Some (Str "user:ada@example.com"))) w1
  /\ exists errors status w3,
       login_action has_at lower_ascii
         {| l_email := Some "Ada@Example.com"; l_password := Some "secret1";
            l_redirectTo := None |} None 1 w1
       = Fulfilled (json errors status) w3
       /\ (LoginSchema has_at (Some "Ada@Example.com") (Some "secret1") = [] ->
             errors = [("password", ["Invalid password"])] /\ status = 401%Z)
       /\ (LoginSchema has_at (Some "Ada@Example.com") (Some "secret1") <> [] ->
             errors = LoginSchema has_at (Some "Ada@Example.com") (Some "secret1")
             /\ status = 400%Z).
Proof.
  cbv zeta. split; [vm_compute; reflexivity |].
  refine (registered_user_cannot_log_in has_at lower_ascii
            {| r_email := Some "Ada@Example.com"; r_password := Some "secret1";
               r_firstName := Some "Ada"; r_lastName := Some "Lovelace";
               r_redirectTo := None |}
            None "2025-01-01T00:00:00.000Z" "2025-01-01T00:00:00.001Z" 1
            {| memoryStore := []; console := [] |} _ "/" "user:ada@example.com" _
            None None 1 _ _).
  - vm_compute. reflexivity.
  - reflexivity.
Defined.

(** C9, the case outside the statement as it was made: the register action
    validates the lower-cased address and the login action the address as it
    is typed.  An address written with the Kelvin sign lower-cases to an ASCII
    address, so the registration succeeds, and the login with the same address
    and password is answered by the validation error of the address (400),
    not by Invalid password. *)
Lemma registered_login_refused_by_validation :
  let w1 := {| memoryStore :=
                 [("user:k@example.com",
                   JSON.stringify
                     (user_record "user:k@example.com" "k@example.com" "Ada" "Lovelace"
                        "secret1" "2025-01-01T00:00:00.000Z" "2025-01-01T00:00:00.001Z"))];
               console := ["boltKV is not available in the current environment, using mockKV instead for login"] |} in
  register_action Terms.ascii_address Terms.lower_kelvin
    {| r_email := Some "K@example.com"; r_password := Some "secret1";
       r_firstName := Some "Ada"; r_lastName := Some "Lovelace"; r_redirectTo := None |}
    None "2025-01-01T00:00:00.000Z" "2025-01-01T00:00:00.001Z" 1
    {| memoryStore := []; console := [] |}
  = Fulfilled (redirect "/" (Some (Str "user:k@example.com")))
      {| memoryStore := memoryStore w1; console := [] |}
  /\ login_action Terms.ascii_address Terms.lower_kelvin
       {| l_email := Some "K@example.com"; l_password := Some "secret1";
          l_redirectTo := None |}
       None 1 {| memoryStore := memoryStore w1; console := [] |}
     = Fulfilled (json [("email", ["Invalid email address"])] 400)
         {| memoryStore := memoryStore w1; console := [] |}
  /\ login_action Terms.ascii_address Terms.lower_kelvin
       {| l_email := Some "k@example.com"; l_password := Some "secret1";
          l_redirectTo := None |}
       None 1 {| memoryStore := memoryStore w1; console := [] |}
     = Fulfilled (json [("password", ["Invalid password"])] 401) w1.
Proof. cbv zeta. repeat split; vm_compute; reflexivity. Qed.

Example registered_user_login_answer :
  login_action has_at lower_ascii
    {| l_email := Some "Ada@Example.com"; l_password := Some "secret1"; l_redirectTo := None |}
    (Some (MockEnv.createMockEnv tt)) 1
    {| memoryStore :=
         [("user:ada@example.com",
           JSON.stringify
             (user_record "user:ada@example.com" "ada@example.com" "Ada" "Lovelace"
                "secret1" "2025-01-01T00:00:00.000Z" "2025-01-01T00:00:00.001Z"))];
       console := [] |}
  = Fulfilled (json [("password", ["Invalid password"])] 401)
      {| memoryStore :=
           [("user:ada@example.com",
             JSON.stringify
               (user_record "user:ada@example.com" "ada@example.com" "Ada" "Lovelace"
                  "secret1" "2025-01-01T00:00:00.000Z" "2025-01-01T00:00:00.001Z"))];
         console := [] |}.
Proof. vm_compute. reflexivity. Qed.

(** A record that does carry a password, as setupMockData.ts stores it, lets
    its user in. *)
Example seeded_user_logs_in :
  login_action has_at lower_ascii
    {| l_email := Some "test@example.com"; l_password := Some "password123";
       l_redirectTo := None |}
    (Some (MockEnv.createMockEnv tt)) 1
    {| memoryStore :=
         [("user:test@example.com",
           JSON.stringify
             (Obj [("id", Str "test-user-123"); ("email", Str "test@example.com");
                   ("name", Str "Test User"); ("roles", Arr [Str "user"]);
                   ("createdAt", Str "2025-01-01T00:00:00.000Z");
                   ("password", Str "password123")]))];
       console := [] |}
  = Fulfilled (redirect "/" (Some (Str "test-user-123")))
      {| memoryStore :=
           [("user:test@example.com",
             JSON.stringify
               (Obj [("id", Str "test-user-123"); ("email", Str "test@example.com");
                     ("name", Str "Test User"); ("roles", Arr [Str "user"]);
                     ("createdAt", Str "2025-01-01T00:00:00.000Z");
                     ("password", Str "password123")]))];
         console := [] |}.
Proof. vm_compute. reflexivity. Qed.

(* ================================================================== *)
(** * The emulator: further properties                                 *)
(* ================================================================== *)

Import JSString Terms.

(** What a read may add to the console: at most one line. *)
Lemma get_effect (this : MockKV.t) (key : string) (options : option any)
    (fuel : nat) (w : World) :
  exists v w', MockKV.get this key options fuel w = Fulfilled v w'
               /\ memoryStore w' = memoryStore w
               /\ (w' = w \/ w' = logged w ("Failed to parse JSON for key " +:+ key)).
Proof.
  unfold MockKV.get, MockKV.parse_or_null, bind, ret, console_error, memoryStore_get.
  destruct (Map.get (memoryStore w) key) as [value |]; [| eauto 6].
  repeat match goal with
         | |- context [if ?b then _ else _] => destruct b
         | |- context [match JSON.parse ?x with _ => _ end] => destruct (JSON.parse x)
         end; eauto 6.
Qed.

(** X1. The reading calls never write: get and getWithMetadata are always
    fulfilled and leave the store as it is (get adds at most the one line of a
    failed parse to the console), and list changes nothing at all. *)
Theorem reads_leave_the_store (this : MockKV.t) (k : string) (o : option any)
    (lo : option MockKV.list_options) (fuel : nat) (w : World) :
  (exists v w', MockKV.get this k o fuel w = Fulfilled v w'
                /\ memoryStore w' = memoryStore w
                /\ (w' = w \/ w' = logged w ("Failed to parse JSON for key " +:+ k)))
  /\ (exists r w', MockKV.getWithMetadata this k o fuel w = Fulfilled r w'
                   /\ memoryStore w' = memoryStore w)
  /\ (exists r, MockKV.list this lo fuel w = Fulfilled r w).
Proof.
  split; [apply get_effect |]. split.
  - destruct (get_effect this k o fuel w) as (v & w' & Hget & Hsame & _).
    unfold MockKV.getWithMetadata, bind. rewrite Hget.
    eexists _, _. split; [reflexivity | exact Hsame].
  - rewrite list_outcome. eauto.
Qed.

(** X2. A put of a stream that never signals its end stays pending for
    every budget of reads: nothing is stored and nothing is thrown. *)
Theorem put_of_endless_stream_is_pending (this : MockKV.t) (k : string) (rs : ReadableStream)
    (fuel : nat) (w : World) :
  (forall i, pull rs i <> None) ->
  MockKV.put this k (MockKV.OfStream rs) fuel w = Pending.
Proof.
  intros Hnever. rewrite put_outcome. unfold stored_text.
  now rewrite (read_until_done_never rs Hnever).
Qed.

Lemma put_of_endless_stream_is_pending_witness :
  MockKV.put MockKV.mockKV "s" (MockKV.OfStream {| pull := fun i => Some [x41] |}) 1000
    {| memoryStore := [("s", "kept")]; console := [] |}
  = Pending.
Proof.
  apply (put_of_endless_stream_is_pending MockKV.mockKV "s" {| pull := fun i => Some [x41] |}).
  intros i. simpl. discriminate.
Defined.



Example put_of_a_locked_stream (w : World) :
  MockKV.put MockKV.mockKV "s" (MockKV.OfBroken (single_chunk [x41]) 0 "TypeError") 1 w
  = Rejected "TypeError" w.
Proof. reflexivity. Qed.

Example put_of_a_stream_in_error (w : World) :
  MockKV.put MockKV.mockKV "s"
    (MockKV.OfBroken {| pull := fun _ => Some [x41] |} 2 "boom") 3 w
  = Rejected "boom" w.
Proof. reflexivity. Qed.

Lemma Map_keys_set_order (m : Map.t) (key value : string) :
  Map.keys (Map.set m key value)
  = if existsb (String.eqb key) (Map.keys m) then Map.keys m else Map.keys m ++ [key].
Proof.
  induction m as [| [k v] m IH]; simpl; [reflexivity |].
  rewrite (String.eqb_sym key k).
  destruct (String.eqb k key) eqn:E; simpl; [reflexivity |].
  rewrite IH. now destruct (existsb (String.eqb key) (Map.keys m)).
Qed.

Lemma Map_keys_delete (m : Map.t) (key : string) :
  Map.keys (Map.delete m key) = filter (fun k => negb (String.eqb k key)) (Map.keys m).
Proof.
  unfold Map.delete, Map.keys. induction m as [| [k v] m IH]; simpl; [reflexivity |].
  destruct (String.eqb k key); simpl; congruence.
Qed.

(** X4. Listing after a write: overwriting a key that is present leaves the
    listing as it was, a new key is listed last, and a delete removes the key
    and keeps the order of the others. *)
Theorem listing_order_after_writes (this : MockKV.t) (k v : string) (fuel : nat) (w : World) :
  let listing (names : Datatypes.list string) :=
    {| MockKV.keys := firstn 1000 (map (fun name => {| MockKV.name := name |}) names);
       MockKV.list_complete := true;
       MockKV.list_cacheStatus := Null |} in
  (Map.get (memoryStore w) k <> None ->
   (MockKV.put this k (MockKV.Text v) ;; MockKV.list this None) fuel w
   = Fulfilled (listing (Map.keys (memoryStore w)))
       (with_store w (Map.set (memoryStore w) k v)))
  /\ (Map.get (memoryStore w) k = None ->
      (MockKV.put this k (MockKV.Text v) ;; MockKV.list this None) fuel w
      = Fulfilled (listing (Map.keys (memoryStore w) ++ [k]))
          (with_store w (Map.set (memoryStore w) k v)))
  /\ (MockKV.delete this k ;; MockKV.list this None) fuel w
     = Fulfilled (listing (filter (fun key => negb (String.eqb key k)) (Map.keys (memoryStore w))))
         (with_store w (Map.delete (memoryStore w) k)).
Proof.
  cbv zeta.
  assert (Hlist : forall w0, MockKV.list this None fuel w0
                  = Fulfilled {| MockKV.keys := firstn 1000 (all_keys w0);
                                 MockKV.list_complete := true;
                                 MockKV.list_cacheStatus := Null |} w0).
  { intros w0. rewrite list_outcome. simpl. rewrite (slice0_count _ 1000).
    now rewrite filter_no_prefix. }
  assert (Hmem : forall m, existsb (String.eqb k) (Map.keys m) = true <-> Map.get m k <> None).
  { intros m. rewrite <- Map_get_In, existsb_exists. split.
    - intros (x & Hin & Hx). apply String.eqb_eq in Hx. now subst.
    - intros Hin. exists k. split; [exact Hin | apply String.eqb_refl]. }
  repeat match goal with |- _ /\ _ => split end.
  - intros Hpresent. unfold bind at 1. rewrite put_text_outcome, Hlist.
    unfold all_keys. simpl memoryStore. rewrite Map_keys_set_order.
    apply Hmem in Hpresent. now rewrite Hpresent.
  - intros Habsent. unfold bind at 1. rewrite put_text_outcome, Hlist.
    unfold all_keys. simpl memoryStore. rewrite Map_keys_set_order.
    destruct (existsb (String.eqb k) (Map.keys (memoryStore w))) eqn:E; [| reflexivity].
    apply Hmem in E. contradiction.
  - unfold bind at 1. rewrite delete_outcome, Hlist.
    unfold all_keys. simpl memoryStore. now rewrite Map_keys_delete.
Qed.

(** Every call keeps the keys of the store distinct. *)
Lemma perform_keeps_wf (this : MockKV.t) (c : call) (fuel : nat) (w w' : World) :
  perform this c fuel w = Fulfilled tt w' -> Map.wf (memoryStore w) -> Map.wf (memoryStore w').
Proof.
  intros Hrun Hwf. destruct c as [k value | k | k o | o | k o]; simpl in Hrun.
  - rewrite put_outcome in Hrun.
    destruct (stored_text fuel value);
      [| destruct (put_error fuel value); discriminate].
    injection Hrun as <-. now apply Map_set_wf.
  - rewrite delete_outcome in Hrun. injection Hrun as <-. now apply Map_delete_wf.
  - unfold bind in Hrun.
    destruct (get_keeps_store this k o fuel w) as (v & w1 & Hget & Hsame).
    rewrite Hget in Hrun. injection Hrun as <-. now rewrite Hsame.
  - unfold bind in Hrun. rewrite list_outcome in Hrun. now injection Hrun as <-.
  - unfold MockKV.getWithMetadata, bind in Hrun.
    destruct (get_keeps_store this k o fuel w) as (v & w1 & Hget & Hsame).
    rewrite Hget in Hrun. injection Hrun as <-. now rewrite Hsame.
Qed.

Lemma perform_all_keeps_wf (this : MockKV.t) (cs : Datatypes.list call) (fuel : nat) :
  forall w w' : World,
    perform_all this cs fuel w = Fulfilled tt w' ->
    Map.wf (memoryStore w) -> Map.wf (memoryStore w').
Proof.
  induction cs as [| c cs IH]; intros w w' Hrun Hwf.
  - now injection Hrun as <-.
  - simpl in Hrun. unfold bind in Hrun at 1.
    destruct (perform this c fuel w) as [[] w1 | e w1 |] eqn:Hc; try discriminate.
    apply (IH w1 w' Hrun). exact (perform_keeps_wf this c fuel w w1 Hc Hwf).
Qed.

Lemma NoDup_firstn {A} (n : nat) (l : Datatypes.list A) : NoDup l -> NoDup (firstn n l).
Proof.
  revert n. induction l as [| x l IH]; intros [| n] H; simpl; try constructor.
  - inversion H as [| ? ? Hx Hl]; subst. intros Hin. apply Hx.
    revert Hin. clear. revert n. induction l as [| y l IHl]; intros [| n]; simpl; try tauto.
    intros [-> | Hin]; [now left | right; eauto].
  - inversion H; subst. now apply IH.
Qed.

Lemma In_firstn {A} (n : nat) (l : Datatypes.list A) (x : A) : In x (firstn n l) -> In x l.
Proof.
  revert n. induction l as [| y l IH]; intros [| n]; simpl; try tauto.
  intros [-> | Hin]; [now left | right; eauto].
Qed.

Lemma NoDup_entries (names : Datatypes.list string) :
  NoDup names -> NoDup (map (fun name => {| MockKV.name := name |}) names).
Proof.
  induction 1 as [| x l Hx _ IH]; simpl; constructor; [| exact IH].
  intros Hin. apply in_map_iff in Hin as (y & Hy & Hin). injection Hy as ->. contradiction.
Qed.

Lemma slice0_is_firstn {A} (a : Datatypes.list A) (e : Z) :
  exists n, MockKV.slice0 a e = firstn n a.
Proof. unfold MockKV.slice0. destruct (e <? 0)%Z; eauto. Qed.

(** X5. In every state reached from the empty store by calls of the
    emulator, a listing never names a key twice, and every key it names is in
    the store and starts with the prefix asked for. *)
Theorem listing_has_no_repeats (this : MockKV.t) (cs : Datatypes.list call)
    (fuel : nat) (lines : Datatypes.list string) (w' : World) :
  perform_all this cs fuel {| memoryStore := []; console := lines |} = Fulfilled tt w' ->
  forall (lo : option MockKV.list_options) (fuel' : nat),
  exists r, MockKV.list this lo fuel' w' = Fulfilled r w'
            /\ NoDup (MockKV.keys r)
            /\ (forall e, In e (MockKV.keys r) ->
                  Map.get (memoryStore w') (MockKV.name e) <> None
                  /\ has_prefix (MockKV.optional_prefix lo) (MockKV.name e) = true).
Proof.
  intros Hrun lo fuel'.
  assert (Hwf : Map.wf (memoryStore w')).
  { apply (perform_all_keeps_wf this cs fuel _ w' Hrun). constructor. }
  rewrite list_outcome. eexists. split; [reflexivity |]. simpl MockKV.keys.
  destruct (slice0_is_firstn
              (map (fun name => {| MockKV.name := name |})
                 (filter (has_prefix (MockKV.optional_prefix lo)) (Map.keys (memoryStore w'))))
              (match MockKV.optional_limit lo with Some n => n | None => 1000%Z end))
    as [n ->].
  split.
  - apply NoDup_firstn. apply NoDup_entries. now apply NoDup_filter.
  - intros e Hin. apply In_firstn in Hin. apply in_map_iff in Hin as (key & <- & Hin).
    apply filter_In in Hin as [Hin Hp]. simpl. split; [| exact Hp].
    now apply Map_get_In.
Qed.

Lemma listing_has_no_repeats_witness :
  exists r,
    MockKV.list MockKV.mockKV (Some {| MockKV.prefix := Some "user:"; MockKV.limit := Some 5%Z |}) 1
      {| memoryStore := [("user:a", "2"); ("user:b", "3")]; console := [] |}
    = Fulfilled r {| memoryStore := [("user:a", "2"); ("user:b", "3")]; console := [] |}
    /\ NoDup (MockKV.keys r)
    /\ (forall e, In e (MockKV.keys r) ->
          Map.get [("user:a", "2"); ("user:b", "3")] (MockKV.name e) <> None
          /\ has_prefix (Some "user:") (MockKV.name e) = true).
Proof.
  apply (listing_has_no_repeats MockKV.mockKV
           [Put "user:a" (MockKV.Text "1"); Put "config" (MockKV.Text "{}");
            Put "user:a" (MockKV.Text "2"); Delete "config"; Put "user:b" (MockKV.Text "3")]
           1 [] {| memoryStore := [("user:a", "2"); ("user:b", "3")]; console := [] |}
           eq_refl
           (Some {| MockKV.prefix := Some "user:"; MockKV.limit := Some 5%Z |}) 1).
Defined.

(** X6. The length of a listing: at most the limit when the limit is not
    negative; with a negative limit the last entries are dropped, as many as
    the limit says, so the listing is not empty when more keys match. *)
Theorem listing_length_bound (this : MockKV.t) (p : option string) (n : Z)
    (fuel : nat) (w : World) :
  let matching := filter (has_prefix p) (Map.keys (memoryStore w)) in
  exists r,
    MockKV.list this (Some {| MockKV.prefix := p; MockKV.limit := Some n |}) fuel w
    = Fulfilled r w
    /\ List.length (MockKV.keys r)
       = (if (n <? 0)%Z
          then Z.to_nat (Z.of_nat (List.length matching) + n)
          else Nat.min (Z.to_nat n) (List.length matching))
    /\ ((0 <= n)%Z -> Z.of_nat (List.length (MockKV.keys r)) <= n)%Z
    /\ ((n < 0)%Z ->
        MockKV.keys r
        = map (fun name => {| MockKV.name := name |})
            (firstn (List.length matching - Z.to_nat (- n)) matching)).
Proof.
  cbv zeta. rewrite list_outcome. eexists. split; [reflexivity |].
  simpl MockKV.keys. simpl MockKV.optional_prefix.
  set (matching := filter (has_prefix p) (Map.keys (memoryStore w))).
  unfold MockKV.slice0. rewrite length_map.
  destruct (Z.ltb_spec n 0) as [Hneg | Hpos].
  - rewrite length_firstn, length_map. repeat split; try lia.
    intros _. rewrite firstn_map. do 2 f_equal. lia.
  - rewrite length_firstn, length_map. repeat split; try lia.
Qed.


Lemma byte_code (c : ascii) : Byte.to_N (byte_of_ascii c) = code c.
Proof. destruct c as [[] [] [] [] [] [] [] []]; reflexivity. Qed.

Lemma decode_lead_ascii (b : byte) :
  (Byte.to_N b <? 128)%N = true -> decode_lead b = ([b], Boundary).
Proof.
  intros H. unfold decode_lead. apply N.ltb_lt in H.
  destruct (N.leb_spec (Byte.to_N b) 127); [reflexivity | lia].
Qed.

Lemma decode_from_ascii (s : string) :
  is_ascii s = true ->
  decode_from Boundary (list_byte_of_string s) = list_byte_of_string s.
Proof.
  induction s as [| c s IH]; simpl; [reflexivity |].
  intros H. apply andb_prop in H as [Hc Hs].
  change (list_byte_of_string (String c s)) with (byte_of_ascii c :: list_byte_of_string s).
  cbn [decode_from decode_step]. rewrite decode_lead_ascii by now rewrite byte_code.
  change (map byte_of_ascii (list_ascii_of_string s)) with (list_byte_of_string s).
  rewrite (IH Hs). reflexivity.
Qed.

Lemma strip_bom_ascii (s : string) :
  is_ascii s = true -> strip_bom (list_byte_of_string s) = list_byte_of_string s.
Proof.
  destruct s as [| c s]; [reflexivity |]. simpl. intros H. apply andb_prop in H as [Hc _].
  change (list_byte_of_string (String c s)) with (byte_of_ascii c :: list_byte_of_string s).
  rewrite <- byte_code in Hc.
  destruct (byte_of_ascii c); try reflexivity. discriminate Hc.
Qed.

(** Encoding and decoding an ASCII text gives it back. *)
Lemma decode_encode_ascii (s : string) :
  is_ascii s = true -> TextDecoder_decode (TextEncoder_encode s) = s.
Proof.
  intros H. unfold TextDecoder_decode, TextEncoder_encode.
  rewrite (strip_bom_ascii s H), (decode_from_ascii s H).
  apply string_of_list_byte_of_string.
Qed.

(** X7. A non-empty text of ASCII characters comes back unchanged when it is
    read in binary form, or as a stream, and the buffer or stream is put
    under another key. *)
Theorem ascii_text_survives_binary_copies (this : MockKV.t) (k k2 text : string)
    (fuel : nat) (w : World) :
  Map.get (memoryStore w) k = Some text ->
  text <> EmptyString ->
  is_ascii text = true ->
  2 <= fuel ->
  let w2 := with_store w (Map.set (memoryStore w) k2 text) in
  MockKV.get this k (Some (Str "arrayBuffer")) fuel w
  = Fulfilled (ArrayBuffer (TextEncoder_encode text)) w
  /\ (MockKV.put this k2 (MockKV.OfBuffer (TextEncoder_encode text)) ;; MockKV.get this k2 None)
       fuel w
     = Fulfilled (Str text) w2
  /\ MockKV.get this k (Some (Str "stream")) fuel w
     = Fulfilled (Stream (single_chunk (TextEncoder_encode text))) w
  /\ (MockKV.put this k2 (MockKV.OfStream (single_chunk (TextEncoder_encode text))) ;;
      MockKV.get this k2 None) fuel w
     = Fulfilled (Str text) w2.
Proof.
  intros Hget Hne Hascii Hfuel. cbv zeta.
  pose proof (truthy_string_true text Hne) as Ht.
  repeat match goal with |- _ /\ _ => split end.
  - rewrite (get_present _ _ _ _ _ _ Hget). simpl. now rewrite Ht.
  - unfold bind at 1. rewrite put_outcome. simpl stored_text.
    rewrite (decode_encode_ascii text Hascii).
    apply get_plain_present. simpl. apply Map_get_set_same.
  - rewrite (get_present _ _ _ _ _ _ Hget). simpl. now rewrite Ht.
  - unfold bind at 1. rewrite put_outcome. unfold stored_text.
    rewrite (single_chunk_reads _ fuel Hfuel). simpl List.concat. rewrite app_nil_r.
    rewrite (decode_encode_ascii text Hascii).
    apply get_plain_present. simpl. apply Map_get_set_same.
Qed.

Lemma ascii_text_survives_binary_copies_witness :
  let w := {| memoryStore := [("a", "hello")]; console := [] |} in
  let w2 := {| memoryStore := [("a", "hello"); ("b", "hello")]; console := [] |} in
  MockKV.get MockKV.mockKV "a" (Some (Str "arrayBuffer")) 2 w
  = Fulfilled (ArrayBuffer (TextEncoder_encode "hello")) w
  /\ (MockKV.put MockKV.mockKV "b" (MockKV.OfBuffer (TextEncoder_encode "hello")) ;;
      MockKV.get MockKV.mockKV "b" None) 2 w
     = Fulfilled (Str "hello") w2
  /\ MockKV.get MockKV.mockKV "a" (Some (Str "stream")) 2 w
     = Fulfilled (Stream (single_chunk (TextEncoder_encode "hello"))) w
  /\ (MockKV.put MockKV.mockKV "b" (MockKV.OfStream (single_chunk (TextEncoder_encode "hello"))) ;;
      MockKV.get MockKV.mockKV "b" None) 2 w
     = Fulfilled (Str "hello") w2.
Proof.
  cbv zeta.
  apply (ascii_text_survives_binary_copies MockKV.mockKV "a" "b" "hello" 2
           {| memoryStore := [("a", "hello")]; console := [] |}).
  - reflexivity.
  - discriminate.
  - reflexivity.
  - lia.
Defined.

(* ================================================================== *)
(** * Sessions, loaders and the two actions                            *)
(* ================================================================== *)

Import AuthServer Loaders.

(** A read in structured mode, as a function of the store. *)
Lemma get_json_read (this : MockKV.t) (key : string) (fuel : nat) (w : World) :
  exists w', MockKV.get this key (Some (Obj [("type", Str "json")])) fuel w
             = Fulfilled (json_read (memoryStore w) key) w'
             /\ memoryStore w' = memoryStore w.
Proof.
  unfold json_read.
  destruct (Map.get (memoryStore w) key) as [text |] eqn:Hget.
  - rewrite (get_present _ _ _ _ _ _ Hget).
    change (json_mode (Some (Obj [("type", Str "json")]))) with true. simpl andb.
    destruct (truthy_string text); simpl.
    + unfold MockKV.parse_or_null.
      destruct (JSON.parse text); [now exists w | eexists; split; reflexivity].
    + now exists w.
  - rewrite (get_absent _ _ _ _ _ Hget). now exists w.
Qed.

Lemma warn_outcome (env : option MockEnv.Env) (line : string) (fuel : nat) (w : World) :
  (match env with
   | None => console_warn line
   | Some _ => ret tt
   end) fuel w = Fulfilled tt (warned env line w).
Proof. destruct env; reflexivity. Qed.

Lemma warned_store (env : option MockEnv.Env) (line : string) (w : World) :
  memoryStore (warned env line w) = memoryStore w.
Proof. now destruct env. Qed.

(** getUser, as a function of the session and of the store. *)
Lemma getUser_outcome (request : Request) (env : option MockEnv.Env)
    (fuel : nat) (w : World) :
  exists w', getUser request env fuel w = Fulfilled (resolved_user request (memoryStore w)) w'
             /\ memoryStore w' = memoryStore w.
Proof.
  unfold getUser, resolved_user.
  destruct (session_userId request) as [userId |]; [| now exists w].
  destruct (truthy userId) eqn:Hid; cbn [negb].
  2: { exists w. split; [| reflexivity]. destruct userId; try reflexivity.
       simpl in Hid. now rewrite Hid. }
  unfold try_catch, bind. cbv zeta beta. rewrite warn_outcome.
  destruct userId as [| b | n | key | items | props | bytes | rs];
    try (eexists; split; [reflexivity | apply warned_store]).
  simpl in Hid. rewrite Hid. simpl get_by_id.
  destruct (get_json_read (kvStore_of env) key fuel
              (warned env "boltKV is not available in the current environment, using mockKV instead" w))
    as (w' & Hget & Hsame).
  rewrite Hget, warned_store. unfold record_at.
  exists w'. destruct (truthy (json_read (memoryStore w) key)); simpl;
    (split; [reflexivity | now rewrite Hsame, warned_store]).
Qed.

(** X8. getUser is always fulfilled and never writes the store: it returns
    the value parsed from the text stored under the session's userId when the
    id is a non-empty string and that value is truthy, and null in every other
    case (no session, an id that is no string, no entry, an empty or malformed
    text, a falsy value). *)
Theorem getUser_resolves_the_session (request : Request) (env : option MockEnv.Env)
    (fuel : nat) (w : World) :
  exists w', getUser request env fuel w = Fulfilled (resolved_user request (memoryStore w)) w'
             /\ memoryStore w' = memoryStore w.
Proof. apply getUser_outcome. Qed.

Lemma parse_nonempty (text : string) (v : any) :
  JSON.parse text = Some v -> truthy_string text = true.
Proof. destruct text; [discriminate | reflexivity]. Qed.

(** The record readable at a key that holds the text of a truthy value. *)
Lemma record_at_stored (m : Map.t) (key text : string) (v : any) :
  Map.get m key = Some text -> JSON.parse text = Some v -> truthy v = true ->
  record_at m key = v.
Proof.
  intros Hget Hparse Htruthy. unfold record_at, json_read.
  now rewrite Hget, (parse_nonempty _ _ Hparse), Hparse, Htruthy.
Qed.

Lemma record_at_absent (m : Map.t) (key : string) :
  Map.get m key = None -> record_at m key = Null.
Proof. intros H. unfold record_at, json_read. now rewrite H. Qed.

Lemma record_at_same (m m' : Map.t) (key : string) :
  Map.get m key = Map.get m' key -> record_at m key = record_at m' key.
Proof. intros H. unfold record_at, json_read. now rewrite H. Qed.

Section SessionFacts.
Variable isEmail : string -> bool.
Variable toLowerCase : string -> string.

(** The record that a successful registration leaves readable at its key. *)
Lemma registered_record (formData : RegisterForm) (env : option MockEnv.Env)
    (createdAt updatedAt : string) (fuel : nat) (w w1 : World) (to userKey : string) :
  register_action isEmail toLowerCase formData env createdAt updatedAt fuel w
  = Fulfilled (redirect to (Some (Str userKey))) w1 ->
  exists email password firstName lastName,
    r_email formData = Some email
    /\ r_password formData = Some password
    /\ r_firstName formData = Some firstName
    /\ r_lastName formData = Some lastName
    /\ userKey = "user:" +:+ toLowerCase email
    /\ record_at (memoryStore w1) userKey
       = user_record userKey (toLowerCase email) firstName lastName password
           createdAt updatedAt.
Proof.
  intros Hreg.
  destruct (register_success _ _ _ _ _ _ _ _ _ _ _ Hreg)
    as (email & password & firstName & lastName & He & Hp & Hf & Hl & _ & Huid & Hstore).
  injection Huid as Hkey. change (userKey = "user:" +:+ toLowerCase email) in Hkey.
  exists email, password, firstName, lastName.
  repeat match goal with |- _ /\ _ => split; [assumption |] end.
  subst userKey.
  apply (record_at_stored _ _ _ _ (eq_trans (f_equal (fun m => Map.get m _) Hstore)
                                     (Map_get_set_same _ _ _))
           (parse_user_record _ _ _ _ _ _ _) eq_refl).
Qed.

(** The session of a successful registration, in a later state. *)
Lemma registered_session (formData : RegisterForm) (env : option MockEnv.Env)
    (createdAt updatedAt : string) (fuel : nat) (w w1 : World) (to userKey : string) :
  register_action isEmail toLowerCase formData env createdAt updatedAt fuel w
  = Fulfilled (redirect to (Some (Str userKey))) w1 ->
  forall (env' : option MockEnv.Env) (q : option string) (fuel' : nat) (w2 : World),
    Map.get (memoryStore w2) userKey = Map.get (memoryStore w1) userKey ->
    let request := with_session_of (redirect to (Some (Str userKey))) q in
    exists email password firstName lastName w3 w4 w5,
      r_email formData = Some email
      /\ r_password formData = Some password
      /\ r_firstName formData = Some firstName
      /\ r_lastName formData = Some lastName
      /\ getUser request env' fuel' w2
         = Fulfilled (user_record userKey (toLowerCase email) firstName lastName password
                        createdAt updatedAt) w3
      /\ register_loader request env' fuel' w2 = Fulfilled (reply_redirect "/") w4
      /\ login_loader request env' fuel' w2 = Fulfilled (reply_redirect "/") w5.
Proof.
  intros Hreg env' q fuel' w2 Hkept. cbv zeta.
  destruct (registered_record _ _ _ _ _ _ _ _ _ Hreg)
    as (email & password & firstName & lastName & He & Hp & Hf & Hl & Hkey & Hrec).
  destruct (getUser_outcome
              (with_session_of (redirect to (Some (Str userKey))) q) env' fuel' w2)
    as (w3 & Huser & _).
  assert (Hres : resolved_user (with_session_of (redirect to (Some (Str userKey))) q)
                   (memoryStore w2)
                 = user_record userKey (toLowerCase email) firstName lastName password
                     createdAt updatedAt).
  { assert (Ht : truthy_string userKey = true) by (rewrite Hkey; reflexivity).
    unfold resolved_user. cbn [session_userId with_session_of]. rewrite Ht.
    now rewrite (record_at_same _ _ _ Hkept). }
  rewrite Hres in Huser.
  exists email, password, firstName, lastName, w3, w3, w3.
  repeat match goal with |- _ /\ _ => split; [assumption |] end.
  unfold register_loader, login_loader, bind. rewrite Huser. split; reflexivity.
Qed.

(** X9. The session that a successful registration creates resolves, in
    any state that still holds the record, to the record just stored; the
    loaders of the register and login pages then redirect to the root. *)
Theorem registration_logs_the_user_in (formData : RegisterForm) (env : option MockEnv.Env)
    (createdAt updatedAt : string) (fuel : nat) (w w1 : World) (to userKey : string) :
  register_action isEmail toLowerCase formData env createdAt updatedAt fuel w
  = Fulfilled (redirect to (Some (Str userKey))) w1 ->
  forall (env' : option MockEnv.Env) (q : option string) (fuel' : nat) (w2 : World),
    Map.get (memoryStore w2) userKey = Map.get (memoryStore w1) userKey ->
    let request := with_session_of (redirect to (Some (Str userKey))) q in
    exists email password firstName lastName w3 w4 w5,
      r_email formData = Some email
      /\ r_password formData = Some password
      /\ r_firstName formData = Some firstName
      /\ r_lastName formData = Some lastName
      /\ getUser request env' fuel' w2
         = Fulfilled (user_record userKey (toLowerCase email) firstName lastName password
                        createdAt updatedAt) w3
      /\ register_loader request env' fuel' w2 = Fulfilled (reply_redirect "/") w4
      /\ login_loader request env' fuel' w2 = Fulfilled (reply_redirect "/") w5.
Proof. apply registered_session. Qed.

(** X10. After a successful registration the root loader answers with the
    whole stored record as [user]: its passwordHash is the password as it was
    submitted. *)
Theorem root_loader_returns_the_password (formData : RegisterForm) (env : option MockEnv.Env)
    (createdAt updatedAt : string) (fuel : nat) (w w1 : World) (to userKey : string) :
  register_action isEmail toLowerCase formData env createdAt updatedAt fuel w
  = Fulfilled (redirect to (Some (Str userKey))) w1 ->
  forall (env' : option MockEnv.Env) (q : option string) (fuel' : nat) (w2 : World),
    Map.get (memoryStore w2) userKey = Map.get (memoryStore w1) userKey ->
    exists user password w3,
      root_loader (with_session_of (redirect to (Some (Str userKey))) q) env' fuel' w2
      = Fulfilled (reply_json (Obj [("user", user); ("isAuthenticated", Bool true)])) w3
      /\ r_password formData = Some password
      /\ prop user "passwordHash" = Some (Str password).
Proof.
  intros Hreg env' q fuel' w2 Hkept.
  destruct (registered_session _ _ _ _ _ _ _ _ _ Hreg env' q fuel' w2 Hkept)
    as (email & password & firstName & lastName & w3 & _ & _ & _ & Hp & _ & _ & Huser & _).
  exists (user_record userKey (toLowerCase email) firstName lastName password createdAt updatedAt),
    password, w3.
  split; [| split; [exact Hp | reflexivity]].
  unfold root_loader, bind. rewrite Huser. reflexivity.
Qed.


(** What a login answers for a form that passes its validation. *)
Lemma login_outcome (email password : string) (redirectTo : option string)
    (env : option MockEnv.Env) (fuel : nat) (w : World) :
  LoginSchema isEmail (Some email) (Some password) = [] ->
  exists w',
    login_action isEmail toLowerCase
      {| l_email := Some email; l_password := Some password; l_redirectTo := redirectTo |}
      env fuel w
    = Fulfilled
        (let record := record_at (memoryStore w) ("user:" +:+ toLowerCase email) in
         if negb (truthy record) then json [("email", ["User not found"])] 401
         else if equals (prop record "password") password
              then redirect (redirectTo_or_root redirectTo) (prop record "id")
              else json [("password", ["Invalid password"])] 401) w'
    /\ memoryStore w' = memoryStore w.
Proof.
  intros Hschema.
  destruct (login_accepts isEmail email password Hschema) as [He Hp].
  unfold login_action. cbn [l_email l_password l_redirectTo].
  rewrite Hschema, He, Hp.
  unfold try_catch, bind. cbv zeta beta. rewrite warn_outcome.
  destruct (get_json_read (kvStore_of env) ("user:" +:+ toLowerCase email) fuel
              (warned env "boltKV is not available in the current environment, using mockKV instead for login" w))
    as (w' & Hget & Hsame).
  rewrite Hget, warned_store. exists w'.
  split; [| now rewrite Hsame, warned_store].
  unfold record_at. cbv zeta.
  set (read := json_read (memoryStore w) ("user:" +:+ toLowerCase email)).
  destruct (truthy read) eqn:Ht; cbn [negb]; [| reflexivity].
  rewrite Ht. cbn [negb].
  destruct (equals (prop read "password") password); reflexivity.
Qed.

(** The login action is fulfilled and leaves the store as it is. *)
Lemma login_fulfilled (formData : LoginForm) (env : option MockEnv.Env)
    (fuel : nat) (w : World) :
  exists response w',
    login_action isEmail toLowerCase formData env fuel w = Fulfilled response w'
    /\ memoryStore w' = memoryStore w.
Proof.
  destruct formData as [email password rto].
  destruct (LoginSchema isEmail email password) as [| e errors] eqn:Hschema.
  - destruct email as [email |], password as [password |];
      try (apply fieldErrors_nil in Hschema;
           first [ now pose proof (Forall_inv Hschema) as H
                 | now pose proof (Forall_inv (Forall_inv_tail Hschema)) as H ]).
    destruct (login_outcome email password rto env fuel w Hschema) as (w' & Hrun & Hsame).
    eauto.
  - exists (json (e :: errors) 400), w. split; [| reflexivity].
    unfold login_action. cbn [l_email l_password l_redirectTo]. rewrite Hschema. reflexivity.
Qed.

(** X11. The login action never writes: whatever it answers, the store is
    as it was; and a form that fails its validation is answered with the
    errors of its fields (400), in the state it came in. *)
Theorem login_never_writes (formData : LoginForm) (env : option MockEnv.Env)
    (fuel : nat) (w : World) :
  (forall response w',
     login_action isEmail toLowerCase formData env fuel w = Fulfilled response w' ->
     memoryStore w' = memoryStore w)
  /\ (LoginSchema isEmail (l_email formData) (l_password formData) <> [] ->
      login_action isEmail toLowerCase formData env fuel w
      = Fulfilled (json (LoginSchema isEmail (l_email formData) (l_password formData)) 400) w).
Proof.
  split.
  - intros response w' Hrun.
    destruct (login_fulfilled formData env fuel w) as (r & w0 & Hlogin & Hsame).
    rewrite Hlogin in Hrun. now injection Hrun as _ <-.
  - intros Herrors. unfold login_action.
    destruct (LoginSchema isEmail (l_email formData) (l_password formData));
      [congruence | reflexivity].
Qed.

(** X12. For a form that passes its validation the login action answers by
    the record readable at the key of the lower-cased address: User not found
    (401) when there is none, the session of the record's id when its password
    field is the submitted password, and Invalid password (401) otherwise. *)
Theorem login_compares_the_stored_password (email password : string)
    (redirectTo : option string) (env : option MockEnv.Env) (fuel : nat) (w : World) :
  LoginSchema isEmail (Some email) (Some password) = [] ->
  let form := {| l_email := Some email; l_password := Some password;
                 l_redirectTo := redirectTo |} in
  let record := record_at (memoryStore w) ("user:" +:+ toLowerCase email) in
  exists w',
    memoryStore w' = memoryStore w
    /\ (record = Null ->
        login_action isEmail toLowerCase form env fuel w
        = Fulfilled (json [("email", ["User not found"])] 401) w')
    /\ (record <> Null -> prop record "password" = Some (Str password) ->
        login_action isEmail toLowerCase form env fuel w
        = Fulfilled (redirect (redirectTo_or_root redirectTo) (prop record "id")) w')
    /\ (record <> Null -> prop record "password" <> Some (Str password) ->
        login_action isEmail toLowerCase form env fuel w
        = Fulfilled (json [("password", ["Invalid password"])] 401) w').
Proof.
  intros Hschema. cbv zeta.
  destruct (login_outcome email password redirectTo env fuel w Hschema) as (w' & Hrun & Hsame).
  cbv zeta in Hrun. exists w'. split; [exact Hsame |]. rewrite Hrun. clear Hrun.
  set (record := record_at (memoryStore w) ("user:" +:+ toLowerCase email)).
  assert (Htruthy : record <> Null -> truthy record = true).
  { subst record. unfold record_at.
    destruct (truthy (json_read (memoryStore w) ("user:" +:+ toLowerCase email))) eqn:Ht;
      [auto | congruence]. }
  repeat match goal with |- _ /\ _ => split end.
  - intros ->. reflexivity.
  - intros Hne Hpw. rewrite (Htruthy Hne), Hpw. simpl. now rewrite String.eqb_refl.
  - intros Hne Hpw. rewrite (Htruthy Hne). simpl negb. cbv iota.
    destruct (equals (prop record "password") password) eqn:E; [| reflexivity].
    apply equals_true in E. contradiction.
Qed.

(** What the validation of the registration form lets through. *)
Lemma register_schema_fields (email password firstName lastName : option string) :
  RegisterSchema isEmail email password firstName lastName = [] ->
  exists e p f l, email = Some e /\ password = Some p /\ firstName = Some f /\ lastName = Some l.
Proof.
  intros H. apply fieldErrors_nil in H.
  pose proof (Forall_inv H) as H1.
  pose proof (Forall_inv (Forall_inv_tail H)) as H2.
  pose proof (Forall_inv (Forall_inv_tail (Forall_inv_tail H))) as H3.
  pose proof (Forall_inv (Forall_inv_tail (Forall_inv_tail (Forall_inv_tail H)))) as H4.
  cbn [snd] in *.
  destruct email, password, firstName, lastName; try discriminate. eauto 8.
Qed.

Lemma register_refuses_invalid (formData : RegisterForm) (env : option MockEnv.Env)
    (createdAt updatedAt : string) (fuel : nat) (w : World) :
  RegisterSchema isEmail (option_map toLowerCase (r_email formData)) (r_password formData)
    (r_firstName formData) (r_lastName formData) <> [] ->
  register_action isEmail toLowerCase formData env createdAt updatedAt fuel w
  = Fulfilled (json (RegisterSchema isEmail (option_map toLowerCase (r_email formData))
                       (r_password formData) (r_firstName formData) (r_lastName formData)) 400) w.
Proof.
  intros Hbad. unfold register_action.
  destruct (RegisterSchema isEmail (option_map toLowerCase (r_email formData))
              (r_password formData) (r_firstName formData) (r_lastName formData))
    as [| e errors]; [congruence |].
  reflexivity.
Qed.

(** What a registration does for a form that passes its validation. *)
Lemma register_outcome (email password firstName lastName : string) (rto : option string)
    (env : option MockEnv.Env) (createdAt updatedAt : string) (fuel : nat) (w : World) :
  RegisterSchema isEmail (Some (toLowerCase email)) (Some password) (Some firstName)
    (Some lastName) = [] ->
  let userKey := "user:" +:+ toLowerCase email in
  register_action isEmail toLowerCase
    {| r_email := Some email; r_password := Some password; r_firstName := Some firstName;
       r_lastName := Some lastName; r_redirectTo := rto |} env createdAt updatedAt fuel w
  = match Map.get (memoryStore w) userKey with
    | Some (String _ _) =>
        Fulfilled (json [("email", ["User with this email already exists"])] 400) w
    | _ =>
        Fulfilled (redirect (redirectTo_or_root rto) (Some (Str userKey)))
          (with_store w
             (Map.set (memoryStore w) userKey
                (JSON.stringify
                   (user_record userKey (toLowerCase email) firstName lastName password
                      createdAt updatedAt))))
    end.
Proof.
  intros Hschema. cbv zeta. unfold register_action.
  cbn [r_email r_password r_firstName r_lastName r_redirectTo option_map].
  rewrite Hschema. unfold try_catch, bind.
  destruct (Map.get (memoryStore w) ("user:" +:+ toLowerCase email)) as [text |] eqn:Hget.
  - rewrite (get_plain_present _ _ _ _ _ Hget).
    destruct text as [| c text]; reflexivity.
  - rewrite (get_absent _ _ _ _ _ Hget). reflexivity.
Qed.

(** X13. The register action never overwrites and never writes on refusal:
    a form that fails its validation gets the validation errors (400), and a
    valid form whose key already holds a non-empty text gets the error that
    the user exists (400); the state is unchanged in both cases. *)
Theorem register_never_overwrites (formData : RegisterForm) (env : option MockEnv.Env)
    (createdAt updatedAt : string) (fuel : nat) (w : World) :
  let errors := RegisterSchema isEmail (option_map toLowerCase (r_email formData))
                  (r_password formData) (r_firstName formData) (r_lastName formData) in
  (errors <> [] ->
   register_action isEmail toLowerCase formData env createdAt updatedAt fuel w
   = Fulfilled (json errors 400) w)
  /\ (forall email text,
        errors = [] ->
        r_email formData = Some email ->
        Map.get (memoryStore w) ("user:" +:+ toLowerCase email) = Some text ->
        text <> EmptyString ->
        register_action isEmail toLowerCase formData env createdAt updatedAt fuel w
        = Fulfilled (json [("email", ["User with this email already exists"])] 400) w).
Proof.
  cbv zeta. split.
  - intros Hbad. now apply register_refuses_invalid.
  - intros email text Hschema He Hget Hne.
    destruct (register_schema_fields _ _ _ _ Hschema) as (e' & p & f & l & H1 & H2 & H3 & H4).
    destruct formData as [fe fp ff fl rto].
    cbn [r_email r_password r_firstName r_lastName r_redirectTo] in *. subst fe fp ff fl.
    cbn [option_map] in H1. injection H1 as <-.
    pose proof (register_outcome email p f l rto env createdAt updatedAt fuel w Hschema) as Hrun.
    cbv zeta in Hrun. rewrite Hget in Hrun.
    destruct text; [congruence | exact Hrun].
Qed.

(** X14. A valid registration form whose key is free, or holds the empty
    text, creates the user: the action answers with the session of the key,
    the record becomes readable there and no other key changes. *)
Theorem register_creates_the_user (email password firstName lastName : string)
    (rto : option string) (env : option MockEnv.Env) (createdAt updatedAt : string)
    (fuel : nat) (w : World) :
  RegisterSchema isEmail (Some (toLowerCase email)) (Some password) (Some firstName)
    (Some lastName) = [] ->
  (Map.get (memoryStore w) ("user:" +:+ toLowerCase email) = None
   \/ Map.get (memoryStore w) ("user:" +:+ toLowerCase email) = Some EmptyString) ->
  let userKey := "user:" +:+ toLowerCase email in
  let record := user_record userKey (toLowerCase email) firstName lastName password
                  createdAt updatedAt in
  let w1 := with_store w (Map.set (memoryStore w) userKey (JSON.stringify record)) in
  register_action isEmail toLowerCase
    {| r_email := Some email; r_password := Some password; r_firstName := Some firstName;
       r_lastName := Some lastName; r_redirectTo := rto |} env createdAt updatedAt fuel w
  = Fulfilled (redirect (redirectTo_or_root rto) (Some (Str userKey))) w1
  /\ record_at (memoryStore w1) userKey = record
  /\ (forall key, key <> userKey ->
        Map.get (memoryStore w1) key = Map.get (memoryStore w) key).
Proof.
  intros Hschema Hfree. cbv zeta.
  pose proof (register_outcome email password firstName lastName rto env createdAt updatedAt
                fuel w Hschema) as Hrun.
  cbv zeta in Hrun. rewrite Hrun.
  repeat match goal with |- _ /\ _ => split end.
  - destruct Hfree as [-> | ->]; reflexivity.
  - apply (record_at_stored _ _ _ _ (Map_get_set_same _ _ _)
             (parse_user_record _ _ _ _ _ _ _) eq_refl).
  - intros key Hne. simpl. now apply Map_get_set_other.
Qed.


(** The test user of addTestUser, once stored, is readable at its key. *)
Lemma testUser_parses : JSON.parse (JSON.stringify testUser) = Some testUser.
Proof. vm_compute. reflexivity. Qed.

Lemma addTestUser_outcome (fuel : nat) (w : World) :
  exists w1,
    addTestUser None fuel w = Fulfilled tt w1
    /\ memoryStore w1
       = Map.set (memoryStore w) "user:test@example.com" (JSON.stringify testUser).
Proof. eexists. split; reflexivity. Qed.

(** X15. With an environment addTestUser does nothing; without one it stores
    the test user, who can then log in with the advertised credentials (given
    a validator that accepts the address and a lower-casing that leaves it
    as it is). *)
Theorem test_user_can_log_in (rto : option string) (env' : option MockEnv.Env)
    (fuel : nat) (w : World) :
  isEmail "test@example.com" = true ->
  toLowerCase "test@example.com" = "test@example.com" ->
  (forall env, addTestUser (Some env) fuel w = Fulfilled tt w)
  /\ exists w2,
       (addTestUser None ;;
        login_action isEmail toLowerCase
          {| l_email := Some "test@example.com"; l_password := Some "password123";
             l_redirectTo := rto |} env') fuel w
       = Fulfilled (redirect (redirectTo_or_root rto) (Some (Str "test-user-123"))) w2
       /\ memoryStore w2
          = Map.set (memoryStore w) "user:test@example.com" (JSON.stringify testUser).
Proof.
  intros Hmail Hlower. split; [reflexivity |].
  destruct (addTestUser_outcome fuel w) as (w1 & Hadd & Hstore).
  assert (Hschema : LoginSchema isEmail (Some "test@example.com") (Some "password123") = []).
  { unfold LoginSchema. cbn [zfd_text]. unfold z_email. rewrite Hmail. reflexivity. }
  destruct (login_outcome "test@example.com" "password123" rto env' fuel w1 Hschema)
    as (w2 & Hlogin & Hsame).
  cbv zeta in Hlogin. rewrite Hlower in Hlogin.
  change ("user:" +:+ "test@example.com") with "user:test@example.com" in Hlogin.
  rewrite (record_at_stored (memoryStore w1) "user:test@example.com" _ testUser
             (eq_trans (f_equal (fun m => Map.get m _) Hstore) (Map_get_set_same _ _ _))
             testUser_parses eq_refl) in Hlogin.
  exists w2. unfold bind at 1. rewrite Hadd, Hlogin. split; [reflexivity | now rewrite Hsame].
Qed.

(** X16. The session of that test user carries the id test-user-123, which
    is not the key of the record: unless the store has an entry under that id,
    getUser gives null, the login loader shows the form again and the root
    loader reports nobody authenticated. *)
Theorem test_user_session_resolves_to_nobody (rto q : option string)
    (env env' : option MockEnv.Env) (fuel : nat) (w w2 : World) :
  toLowerCase "test@example.com" = "test@example.com" ->
  Map.get (memoryStore w) "test-user-123" = None ->
  (addTestUser None ;;
   login_action isEmail toLowerCase
     {| l_email := Some "test@example.com"; l_password := Some "password123";
        l_redirectTo := rto |} env') fuel w
  = Fulfilled (redirect (redirectTo_or_root rto) (Some (Str "test-user-123"))) w2 ->
  let request := with_session_of
                   (redirect (redirectTo_or_root rto) (Some (Str "test-user-123"))) q in
  exists w3 w4 w5,
    getUser request env fuel w2 = Fulfilled Null w3
    /\ login_loader request env fuel w2
       = Fulfilled (reply_json (Obj [("redirectTo", Str (redirectTo_or_root q))])) w4
    /\ root_loader request env fuel w2
       = Fulfilled (reply_json (Obj [("user", Null); ("isAuthenticated", Bool false)])) w5.
Proof.
  intros Hlower Habsent Hrun. cbv zeta.
  destruct (addTestUser_outcome fuel w) as (w1 & Hadd & Hstore).
  unfold bind at 1 in Hrun. rewrite Hadd in Hrun.
  destruct (login_fulfilled
              {| l_email := Some "test@example.com"; l_password := Some "password123";
                 l_redirectTo := rto |} env' fuel w1) as (r & w2' & Hlogin & Hsame).
  rewrite Hlogin in Hrun. injection Hrun as _ <-.
  destruct (getUser_outcome
              (with_session_of (redirect (redirectTo_or_root rto) (Some (Str "test-user-123"))) q)
              env fuel w2') as (w3 & Huser & _).
  assert (Hres : resolved_user
                   (with_session_of
                      (redirect (redirectTo_or_root rto) (Some (Str "test-user-123"))) q)
                   (memoryStore w2') = Null).
  { unfold resolved_user. cbn [session_userId with_session_of truthy_string].
    apply record_at_absent. rewrite Hsame, Hstore.
    rewrite Map_get_set_other by discriminate. exact Habsent. }
  rewrite Hres in Huser. exists w3, w3, w3.
  unfold login_loader, root_loader, bind. rewrite Huser.
  repeat split; reflexivity.
Qed.

(** The index loader, as a function of the store and of the session. *)
Lemma index_loader_outcome (request : Request) (env : option MockEnv.Env)
    (fuel : nat) (w : World) :
  exists w',
    index_loader request env fuel w
    = Fulfilled
        (if auth_required (memoryStore w)
            && negb (truthy (resolved_user request (memoryStore w)))
         then reply_redirect "/login"
         else reply_json (Obj [])) w'
    /\ memoryStore w' = memoryStore w.
Proof.
  unfold index_loader, auth_required. cbv zeta.
  unfold bind at 1. rewrite warn_outcome.
  set (w0 := warned env "boltKV is not available in the current environment, using mockKV instead" w).
  assert (Hw0 : memoryStore w0 = memoryStore w) by apply warned_store.
  unfold bind at 1, try_catch, bind at 1.
  destruct (get_json_read (kvStore_of env) "config" fuel w0) as (w1 & Hget & Hsame1).
  rewrite Hget, Hw0.
  change (optional "requireAuth" (Some (json_read (memoryStore w) "config")))
    with (prop (json_read (memoryStore w) "config") "requireAuth").
  destruct (is_true (prop (json_read (memoryStore w) "config") "requireAuth")); cbn [andb].
  - unfold bind.
    destruct (getUser_outcome request env fuel w1) as (w2 & Huser & Hsame2).
    rewrite Huser, Hsame1, Hw0.
    exists w2. split; [| now rewrite Hsame2, Hsame1].
    now destruct (truthy (resolved_user request (memoryStore w))).
  - exists w1. split; [reflexivity | now rewrite Hsame1].
Qed.

(** X17. The index loader fails open: when there is no configuration, when
    its text is not valid JSON, or when its requireAuth is not the boolean
    true, every request gets the page, with or without a session. *)
Theorem index_loader_fails_open (request : Request) (env : option MockEnv.Env)
    (fuel : nat) (w : World) :
  exists w',
    memoryStore w' = memoryStore w
    /\ (Map.get (memoryStore w) "config" = None ->
        index_loader request env fuel w = Fulfilled (reply_json (Obj [])) w')
    /\ (forall text, Map.get (memoryStore w) "config" = Some text ->
        JSON.parse text = None ->
        index_loader request env fuel w = Fulfilled (reply_json (Obj [])) w')
    /\ (forall text config, Map.get (memoryStore w) "config" = Some text ->
        JSON.parse text = Some config ->
        prop config "requireAuth" <> Some (Bool true) ->
        index_loader request env fuel w = Fulfilled (reply_json (Obj [])) w').
Proof.
  destruct (index_loader_outcome request env fuel w) as (w' & Hrun & Hsame).
  exists w'. split; [exact Hsame |]. rewrite Hrun. unfold auth_required, json_read.
  repeat match goal with |- _ /\ _ => split end.
  - intros ->. reflexivity.
  - intros text -> Hbad. rewrite Hbad. now destruct (truthy_string text).
  - intros text config -> Hparse Hno.
    rewrite (parse_nonempty _ _ Hparse), Hparse.
    destruct (prop config "requireAuth") as [[| [|] | | | | | |] |]; try reflexivity.
    congruence.
Qed.

(** X18. When the stored configuration has requireAuth true, the index
    loader redirects to /login exactly the requests whose session resolves to
    no user. *)
Theorem index_loader_enforces_the_setting (request : Request) (env : option MockEnv.Env)
    (fuel : nat) (w : World) (text : string) (config : any) :
  Map.get (memoryStore w) "config" = Some text ->
  JSON.parse text = Some config ->
  prop config "requireAuth" = Some (Bool true) ->
  exists w',
    memoryStore w' = memoryStore w
    /\ (resolved_user request (memoryStore w) = Null ->
        index_loader request env fuel w = Fulfilled (reply_redirect "/login") w')
    /\ (resolved_user request (memoryStore w) <> Null ->
        index_loader request env fuel w = Fulfilled (reply_json (Obj [])) w').
Proof.
  intros Hget Hparse Hreq.
  destruct (index_loader_outcome request env fuel w) as (w' & Hrun & Hsame).
  exists w'. split; [exact Hsame |]. rewrite Hrun.
  assert (Hauth : auth_required (memoryStore w) = true).
  { unfold auth_required, json_read.
    now rewrite Hget, (parse_nonempty _ _ Hparse), Hparse, Hreq. }
  rewrite Hauth. split.
  - intros ->. reflexivity.
  - intros Hne.
    assert (Ht : truthy (resolved_user request (memoryStore w)) = true).
    { revert Hne. unfold resolved_user.
      destruct (session_userId request) as [[| | | key | | | |] |]; try congruence.
      destruct (truthy_string key); [| congruence].
      unfold record_at. destruct (truthy (json_read (memoryStore w) key)) eqn:E; congruence. }
    now rewrite Ht.
Qed.

End SessionFacts.

(* ================================================================== *)
(** * auth.server.ts: the domain whitelist                             *)
(* ================================================================== *)

Lemma eqb_at (c : ascii) : Ascii.eqb c "@" = (code c =? 64)%N.
Proof. destruct c as [[] [] [] [] [] [] [] []]; reflexivity. Qed.

Lemma split_without_at (s : string) :
  has_at s = false -> split "@" s = [s].
Proof.
  induction s as [| c s IH]; intros H; [reflexivity |].
  cbn [has_at] in H. apply orb_false_elim in H as [Hc Hs].
  cbn [split]. now rewrite eqb_at, Hc, (IH Hs).
Qed.

Lemma split_at_first (local rest : string) :
  has_at local = false ->
  split "@" (local +:+ "@" +:+ rest) = local :: split "@" rest.
Proof.
  induction local as [| c local IH]; intros H; [reflexivity |].
  cbn [has_at] in H. apply orb_false_elim in H as [Hc Hs].
  change (split "@" (String c (local +:+ "@" +:+ rest)) = String c local :: split "@" rest).
  cbn [split]. now rewrite eqb_at, Hc, (IH Hs).
Qed.

Lemma split_nonempty (s : string) : exists h t, split "@" s = h :: t.
Proof.
  induction s as [| c s (h & t & IH)]; simpl; [eauto |].
  destruct (Ascii.eqb c "@"); [eauto |]. rewrite IH. eauto.
Qed.

(** The part of an address that is tested: what stands between the first
    and the second at sign. *)
Lemma tested_part (local part : string) :
  has_at local = false -> has_at part = false ->
  forall rest,
    nth_error (split "@" (local +:+ "@" +:+ part)) 1 = Some part
    /\ nth_error (split "@" (local +:+ "@" +:+ part +:+ "@" +:+ rest)) 1 = Some part.
Proof.
  intros Hl Hp rest. rewrite !split_at_first by assumption.
  rewrite split_without_at by assumption. split; reflexivity.
Qed.

Lemma endsWith_spec (s suffix : string) :
  endsWith s suffix = true <-> exists before, s = before +:+ suffix.
Proof.
  induction s as [| c s IH]; cbn [endsWith].
  - rewrite orb_false_r. split.
    + intros H. apply String.eqb_eq in H. subst. now exists EmptyString.
    + intros [[| c b] H]; simpl in H; [subst; apply String.eqb_refl | discriminate].
  - rewrite orb_true_iff, IH. split.
    + intros [H | [b H]].
      * apply String.eqb_eq in H. subst. now exists EmptyString.
      * exists (String c b). simpl. now rewrite H.
    + intros [[| c' b] H]; simpl in H.
      * left. subst. apply String.eqb_refl.
      * right. injection H as _ H. now exists b.
Qed.

Section DomainFacts.
Variable toLowerCase : string -> string.

(** X19. isEmailDomainAllowed refuses every address when the list is empty,
    every address without an at sign, and every address whose domain part is
    empty once lower-cased. *)
Theorem address_without_domain_is_refused (email : string)
    (allowedDomains : Datatypes.list string) :
  isEmailDomainAllowed toLowerCase email [] = false
  /\ (has_at email = false -> isEmailDomainAllowed toLowerCase email allowedDomains = false)
  /\ (forall local part, has_at local = false -> has_at part = false ->
        toLowerCase part = EmptyString ->
        isEmailDomainAllowed toLowerCase (local +:+ "@" +:+ part) allowedDomains = false).
Proof.
  unfold isEmailDomainAllowed. repeat match goal with |- _ /\ _ => split end.
  - destruct (nth_error (split "@" email) 1) as [part |]; [| reflexivity].
    now destruct (truthy_string (toLowerCase part)).
  - intros H. now rewrite split_without_at.
  - intros local part Hl Hp Hlow.
    rewrite (proj1 (tested_part local part Hl Hp EmptyString)), Hlow. reflexivity.
Qed.

(** X20. isEmailDomainAllowed tests only what stands between the first and
    the second at sign: anything after a second at sign is ignored. *)
Theorem only_the_second_part_is_tested (local part rest : string)
    (allowedDomains : Datatypes.list string) :
  has_at local = false ->
  has_at part = false ->
  isEmailDomainAllowed toLowerCase (local +:+ "@" +:+ part +:+ "@" +:+ rest) allowedDomains
  = isEmailDomainAllowed toLowerCase (local +:+ "@" +:+ part) allowedDomains.
Proof.
  intros Hl Hp. unfold isEmailDomainAllowed.
  destruct (tested_part local part Hl Hp rest) as [H1 H2]. now rewrite H1, H2.
Qed.

(** X21. For an address with one at sign, isEmailDomainAllowed holds exactly
    when the domain, lower-cased, is not empty and is an allowed domain
    (lower-cased) or ends with a dot followed by one. *)
Theorem allowed_domains_and_their_subdomains (local part : string)
    (allowedDomains : Datatypes.list string) :
  has_at local = false ->
  has_at part = false ->
  isEmailDomainAllowed toLowerCase (local +:+ "@" +:+ part) allowedDomains = true
  <-> toLowerCase part <> EmptyString
      /\ exists allowed, In allowed allowedDomains
           /\ (toLowerCase part = toLowerCase allowed
               \/ exists sub, toLowerCase part = sub +:+ "." +:+ toLowerCase allowed).
Proof.
  intros Hl Hp. unfold isEmailDomainAllowed.
  rewrite (proj1 (tested_part local part Hl Hp EmptyString)).
  destruct (toLowerCase part) as [| c d] eqn:Hd; simpl negb; cbv iota.
  - split; [discriminate | intros [H _]; congruence].
  - rewrite existsb_exists. split.
    + intros (allowed & Hin & H). split; [discriminate |]. exists allowed. split; [exact Hin |].
      apply orb_true_iff in H as [H | H].
      * left. now apply String.eqb_eq in H.
      * right. now apply endsWith_spec in H.
    + intros (_ & allowed & Hin & H). exists allowed. split; [exact Hin |].
      apply orb_true_iff. destruct H as [H | H].
      * left. now apply String.eqb_eq.
      * right. now apply endsWith_spec.
Qed.

End DomainFacts.

(* ================================================================== *)
(** * stores/user.ts                                                   *)
(* ================================================================== *)

(** X22. After any sequence of setUser and clearUser calls the store's
    isAuthenticated flag is the truthiness of its user, so it is false when
    the user is null; clearUser always restores the initial state. *)
Theorem userStore_flag_follows_user (actions : Datatypes.list UserStore.action) :
  let s := fold_left UserStore.apply actions UserStore.initialState in
  UserStore.isAuthenticated s = truthy (UserStore.user s)
  /\ (UserStore.user s = Null -> UserStore.isAuthenticated s = false)
  /\ fold_left UserStore.apply (actions ++ [UserStore.ClearUser]) UserStore.initialState
     = UserStore.initialState.
Proof.
  cbv zeta.
  assert (H : forall s0, UserStore.isAuthenticated s0 = truthy (UserStore.user s0) ->
                         UserStore.isAuthenticated (fold_left UserStore.apply actions s0)
                         = truthy (UserStore.user (fold_left UserStore.apply actions s0))).
  { induction actions as [| a actions IH]; intros s0 Hs0; [exact Hs0 |].
    simpl. apply IH. destruct a; simpl; [apply negb_involutive | reflexivity]. }
  specialize (H UserStore.initialState eq_refl).
  repeat match goal with |- _ /\ _ => split end.
  - exact H.
  - intros Hnull. now rewrite H, Hnull.
  - now rewrite fold_left_app.
Qed.

(* ================================================================== *)
(** * The properties of the routes, run on examples                    *)
(* ================================================================== *)

Lemma registration_logs_the_user_in_witness :
  exists w4,
    register_loader
      {| session_userId := Some (Str "user:ada@example.com"); query_redirectTo := None |}
      None 1
      {| memoryStore :=
           [("user:ada@example.com",
             JSON.stringify
               (user_record "user:ada@example.com" "ada@example.com" "Ada" "Lovelace"
                  "secret1" "2025-01-01T00:00:00.000Z" "2025-01-01T00:00:00.001Z"))];
         console := [] |}
    = Fulfilled (reply_redirect "/") w4.
Proof.
  destruct (registration_logs_the_user_in has_at lower_ascii
              {| r_email := Some "Ada@Example.com"; r_password := Some "secret1";
                 r_firstName := Some "Ada"; r_lastName := Some "Lovelace";
                 r_redirectTo := None |}
              None "2025-01-01T00:00:00.000Z" "2025-01-01T00:00:00.001Z" 1
              {| memoryStore := []; console := [] |}
              {| memoryStore :=
                   [("user:ada@example.com",
                     JSON.stringify
                       (user_record "user:ada@example.com" "ada@example.com" "Ada" "Lovelace"
                          "secret1" "2025-01-01T00:00:00.000Z" "2025-01-01T00:00:00.001Z"))];
                 console := [] |}
              "/" "user:ada@example.com" eq_refl None None 1 _ eq_refl)
    as (_ & _ & _ & _ & _ & w4 & _ & _ & _ & _ & _ & _ & Hloader & _).
  exists w4. exact Hloader.
Defined.

Lemma root_loader_returns_the_password_witness :
  exists user w3,
    root_loader
      {| session_userId := Some (Str "user:ada@example.com"); query_redirectTo := None |}
      None 1
      {| memoryStore :=
           [("user:ada@example.com",
             JSON.stringify
               (user_record "user:ada@example.com" "ada@example.com" "Ada" "Lovelace"
                  "secret1" "2025-01-01T00:00:00.000Z" "2025-01-01T00:00:00.001Z"))];
         console := [] |}
    = Fulfilled (reply_json (Obj [("user", user); ("isAuthenticated", Bool true)])) w3
    /\ prop user "passwordHash" = Some (Str "secret1").
Proof.
  destruct (root_loader_returns_the_password has_at lower_ascii
              {| r_email := Some "Ada@Example.com"; r_password := Some "secret1";
                 r_firstName := Some "Ada"; r_lastName := Some "Lovelace";
                 r_redirectTo := None |}
              None "2025-01-01T00:00:00.000Z" "2025-01-01T00:00:00.001Z" 1
              {| memoryStore := []; console := [] |}
              {| memoryStore :=
                   [("user:ada@example.com",
                     JSON.stringify
                       (user_record "user:ada@example.com" "ada@example.com" "Ada" "Lovelace"
                          "secret1" "2025-01-01T00:00:00.000Z" "2025-01-01T00:00:00.001Z"))];
                 console := [] |}
              "/" "user:ada@example.com" eq_refl None None 1 _ eq_refl)
    as (user & password & w3 & Hroot & Hp & Hhash).
  exists user, w3. split; [exact Hroot |].
  injection Hp as <-. exact Hhash.
Defined.

Lemma login_compares_the_stored_password_witness :
  exists w',
    login_action has_at lower_ascii
      {| l_email := Some "Test@Example.com"; l_password := Some "password123";
         l_redirectTo := Some "/admin" |} None 1
      {| memoryStore := [("user:test@example.com", JSON.stringify testUser)]; console := [] |}
    = Fulfilled (redirect "/admin" (Some (Str "test-user-123"))) w'.
Proof.
  destruct (login_compares_the_stored_password has_at lower_ascii
              "Test@Example.com" "password123" (Some "/admin") None 1
              {| memoryStore := [("user:test@example.com", JSON.stringify testUser)];
                 console := [] |} eq_refl)
    as (w' & _ & _ & Hok & _).
  exists w'. apply Hok; [discriminate | reflexivity].
Defined.

Lemma register_creates_the_user_witness :
  register_action has_at lower_ascii
    {| r_email := Some "Ada@Example.com"; r_password := Some "secret1";
       r_firstName := Some "Ada"; r_lastName := Some "Lovelace"; r_redirectTo := None |}
    None "2025-01-01T00:00:00.000Z" "2025-01-01T00:00:00.001Z" 1
    {| memoryStore := [("user:ada@example.com", EmptyString)]; console := [] |}
  = Fulfilled (redirect "/" (Some (Str "user:ada@example.com")))
      {| memoryStore :=
           [("user:ada@example.com",
             JSON.stringify
               (user_record "user:ada@example.com" "ada@example.com" "Ada" "Lovelace"
                  "secret1" "2025-01-01T00:00:00.000Z" "2025-01-01T00:00:00.001Z"))];
         console := [] |}.
Proof.
  exact (proj1 (register_creates_the_user has_at lower_ascii
                  "Ada@Example.com" "secret1" "Ada" "Lovelace" None None
                  "2025-01-01T00:00:00.000Z" "2025-01-01T00:00:00.001Z" 1
                  {| memoryStore := [("user:ada@example.com", EmptyString)]; console := [] |}
                  eq_refl (or_intror eq_refl))).
Defined.

Lemma test_user_can_log_in_witness :
  exists w2,
    (addTestUser None ;;
     login_action has_at lower_ascii
       {| l_email := Some "test@example.com"; l_password := Some "password123";
          l_redirectTo := None |} None) 1 {| memoryStore := []; console := [] |}
    = Fulfilled (redirect "/" (Some (Str "test-user-123"))) w2.
Proof.
  destruct (test_user_can_log_in has_at lower_ascii None None 1
              {| memoryStore := []; console := [] |} eq_refl eq_refl)
    as (_ & w2 & Hrun & _).
  exists w2. exact Hrun.
Defined.

Lemma test_user_session_resolves_to_nobody_witness :
  exists w3,
    getUser {| session_userId := Some (Str "test-user-123"); query_redirectTo := None |}
      None 1
      {| memoryStore := [("user:test@example.com", JSON.stringify testUser)];
         console :=
           ["Adding test user to mockKV for development";
            "✅ Test user added: test@example.com / password123";
            "boltKV is not available in the current environment, using mockKV instead for login"] |}
    = Fulfilled Null w3.
Proof.
  destruct (test_user_session_resolves_to_nobody has_at lower_ascii None None None None 1
              {| memoryStore := []; console := [] |}
              {| memoryStore := [("user:test@example.com", JSON.stringify testUser)];
                 console :=
                   ["Adding test user to mockKV for development";
                    "✅ Test user added: test@example.com / password123";
                    "boltKV is not available in the current environment, using mockKV instead for login"] |}
              eq_refl eq_refl eq_refl)
    as (w3 & _ & _ & Huser & _).
  exists w3. exact Huser.
Defined.

Lemma index_loader_enforces_the_setting_witness :
  exists w',
    index_loader {| session_userId := None; query_redirectTo := None |} None 1
      {| memoryStore := [("config", "{" +:+ dq +:+ "requireAuth" +:+ dq +:+ ":true}")];
         console := [] |}
    = Fulfilled (reply_redirect "/login") w'.
Proof.
  destruct (index_loader_enforces_the_setting
              {| session_userId := None; query_redirectTo := None |} None 1
              {| memoryStore := [("config", "{" +:+ dq +:+ "requireAuth" +:+ dq +:+ ":true}")];
                 console := [] |}
              ("{" +:+ dq +:+ "requireAuth" +:+ dq +:+ ":true}")
              (Obj [("requireAuth", Bool true)]) eq_refl eq_refl eq_refl)
    as (w' & _ & Hredirect & _).
  exists w'. apply Hredirect. reflexivity.
Defined.

Lemma only_the_second_part_is_tested_witness :
  isEmailDomainAllowed lower_ascii "eve@Example.com@evil.org" ["example.com"]
  = isEmailDomainAllowed lower_ascii "eve@Example.com" ["example.com"].
Proof.
  exact (only_the_second_part_is_tested lower_ascii "eve" "Example.com" "evil.org"
           ["example.com"] eq_refl eq_refl).
Defined.

Lemma allowed_domains_and_their_subdomains_witness :
  isEmailDomainAllowed lower_ascii "ada@Mail.Example.com" ["bolt.diy"; "example.com"] = true.
Proof.
  apply (proj2 (allowed_domains_and_their_subdomains lower_ascii "ada" "Mail.Example.com"
                  ["bolt.diy"; "example.com"] eq_refl eq_refl)).
  split; [discriminate |].
  exists "example.com". split; [right; left; reflexivity |].
  right. exists "mail". reflexivity.
Defined.

Example sibling_domain_is_refused :
  isEmailDomainAllowed lower_ascii "eve@evilexample.com" ["example.com"] = false.
Proof. reflexivity. Qed.

(* ================================================================== *)
(** * JSON: every plain value is read back                             *)
(* ================================================================== *)

Import ConfigRoutes ConfigTerms.

Lemma any_induction (P : any -> Prop) :
  P Null -> (forall b, P (Bool b)) -> (forall l, P (Number l)) -> (forall s, P (Str s)) ->
  (forall items, Forall P items -> P (Arr items)) ->
  (forall props, Forall (fun kv => P (snd kv)) props -> P (Obj props)) ->
  (forall bytes, P (ArrayBuffer bytes)) -> (forall rs, P (Stream rs)) ->
  forall v, P v.
Proof.
  intros HNull HBool HNumber HStr HArr HObj HBuffer HStream.
  fix IH 1.
  intros [| b | l | s | items | props | bytes | rs];
    [exact HNull | apply HBool | apply HNumber | apply HStr | | | apply HBuffer | apply HStream].
  - apply HArr. induction items as [| x xs IHxs]; constructor; [apply IH | exact IHxs].
  - apply HObj. induction props as [| [k x] ps IHps]; constructor; [apply IH | exact IHps].
Qed.

Lemma stringify_opens (v : any) (rest : string) :
  plain v = true -> opens_value (JSON.stringify v +:+ rest).
Proof.
  destruct v as [| [] | l | s | items | props | bytes | rs]; try discriminate; intros _;
    (do 2 eexists; split; [reflexivity | split; reflexivity]).
Qed.

Lemma stringify_length (v : any) : plain v = true -> 1 <= String.length (JSON.stringify v).
Proof.
  destruct v as [| [] | l | s | items | props | bytes | rs]; try discriminate; intros _;
    simpl; lia.
Qed.

Lemma read_elements_step (n : nat) (s : string) :
  JSON.read_elements (S n) s
  = match JSON.read_value n s with
    | Some (v, String c r) =>
        if (code c =? 44)%N then
          match JSON.read_elements n r with
          | Some (vs, r') => Some (v :: vs, r')
          | None => None
          end
        else if (code c =? 93)%N then Some ([v], r)
        else None
    | _ => None
    end.
Proof. reflexivity. Qed.

Lemma read_value_array (r r' : string) (c' : ascii) (n : nat) :
  JSON.skip_ws r = String c' r' ->
  (code c' =? 93)%N = false ->
  JSON.read_value (S n) (String "[" r)
  = match JSON.read_elements n (String c' r') with
    | Some (vs, r1) => Some (Arr vs, JSON.skip_ws r1)
    | None => None
    end.
Proof.
  intros Hws Hc. simpl. rewrite Hws, Hc. reflexivity.
Qed.

Lemma skip_ws_opens (s : string) : opens_value s -> JSON.skip_ws s = s.
Proof.
  intros (c & r & -> & Hws & _). simpl. now rewrite Hws.
Qed.

Lemma read_elements_stringify (items : Datatypes.list any) :
  items <> [] ->
  Forall (fun v => plain v = true /\ read_back v) items ->
  forall (rest : string) (fuel : nat),
    String.length (JSON.join "," (map JSON.stringify items)) + 1 < fuel ->
    JSON.read_elements fuel (JSON.join "," (map JSON.stringify items) +:+ "]" +:+ rest)
    = Some (items, rest).
Proof.
  induction items as [| x items IH]; intros Hne Hall rest fuel Hfuel; [congruence |].
  destruct (Forall_inv Hall) as [Hplain Hback].
  pose proof (Forall_inv_tail Hall) as Hall'.
  pose proof (stringify_length x Hplain) as Hlen.
  destruct fuel as [| n]; [lia |].
  rewrite read_elements_step.
  destruct items as [| y items].
  - simpl JSON.join in *. rewrite Hback by lia.
    change (JSON.skip_ws ("]" +:+ rest)) with (String "]" rest). reflexivity.
  - simpl map in *. rewrite join_cons in *. rewrite !length_append in Hfuel.
    rewrite !append_assoc. rewrite Hback by lia.
    match goal with
    | |- context [JSON.skip_ws ("," +:+ ?x)] =>
        change (JSON.skip_ws ("," +:+ x)) with (String "," x)
    end.
    cbv beta iota. change (code "," =? 44)%N with true. cbv beta iota.
    rewrite (IH ltac:(discriminate) Hall' rest n); [reflexivity |].
    change (String.length ",") with 1 in Hfuel. lia.
Qed.

Lemma read_members_stringify (props : Datatypes.list (string * any)) :
  props <> [] ->
  Forall (fun kv => plain (snd kv) = true /\ read_back (snd kv)) props ->
  forall (rest : string) (fuel : nat),
    String.length (JSON.join "," (map member props)) + 1 < fuel ->
    JSON.read_members fuel (JSON.join "," (map member props) +:+ "}" +:+ rest)
    = Some (props, rest).
Proof.
  induction props as [| [k x] props IH]; intros Hne Hall rest fuel Hfuel; [congruence |].
  destruct (Forall_inv Hall) as [Hplain Hback]. cbn [snd] in Hplain, Hback.
  pose proof (Forall_inv_tail Hall) as Hall'.
  destruct fuel as [| n]; [lia |].
  rewrite read_members_step.
  assert (Hmember : forall more,
             member (k, x) +:+ more
             = JSON.quote k +:+ ":" +:+ JSON.stringify x +:+ more).
  { intros more. unfold member. cbn [fst snd]. now rewrite !append_assoc. }
  assert (Hmlen : String.length (JSON.stringify x) + 3 <= String.length (member (k, x))).
  { unfold member. cbn [fst snd]. rewrite length_append.
    assert (Hq : JSON.quote k = String (chr 34) (JSON.escape k +:+ dq)) by reflexivity.
    rewrite Hq. simpl String.length. rewrite length_append. simpl. lia. }
  destruct props as [| q props].
  - simpl JSON.join in *. rewrite Hmember, skip_ws_quote, read_string_quote.
    change (JSON.skip_ws (":" +:+ JSON.stringify x +:+ "}" +:+ rest))
      with (String ":" (JSON.stringify x +:+ "}" +:+ rest)).
    cbv beta iota. change (code ":" =? 58)%N with true. cbv beta iota.
    rewrite Hback by lia.
    change (JSON.skip_ws ("}" +:+ rest)) with (String "}" rest). reflexivity.
  - simpl map in *. rewrite join_cons in *. rewrite !length_append in Hfuel.
    rewrite !append_assoc. rewrite Hmember, skip_ws_quote, read_string_quote.
    match goal with
    | |- context [JSON.skip_ws (":" +:+ ?y)] =>
        change (JSON.skip_ws (":" +:+ y)) with (String ":" y)
    end.
    cbv beta iota. change (code ":" =? 58)%N with true. cbv beta iota.
    rewrite Hback by lia.
    match goal with
    | |- context [JSON.skip_ws ("," +:+ ?y)] =>
        change (JSON.skip_ws ("," +:+ y)) with (String "," y)
    end.
    cbv beta iota. change (code "," =? 44)%N with true. cbv beta iota.
    rewrite (IH ltac:(discriminate) Hall' rest n); [reflexivity |].
    change (String.length ",") with 1 in Hfuel. lia.
Qed.

Lemma distinct_head (k : string) (keys : Datatypes.list string) (k' : string) :
  negb (existsb (String.eqb k) keys) = true -> In k' keys -> String.eqb k k' = false.
Proof.
  intros Hnot Hin. apply negb_true_iff in Hnot.
  destruct (String.eqb k k') eqn:E; [| reflexivity].
  rewrite <- Hnot. symmetry. apply existsb_exists. now exists k'.
Qed.

Lemma define_fresh (acc : Datatypes.list (string * any)) (k : string) (v : any)
    (more : Datatypes.list (string * any)) :
  distinct (map fst (acc ++ (k, v) :: more)) = true ->
  define acc k v = acc ++ [(k, v)].
Proof.
  induction acc as [| [k0 x0] acc IH]; intros Hd; [reflexivity |].
  simpl in Hd. apply andb_true_iff in Hd. destruct Hd as [Hhead Htail].
  simpl. rewrite (distinct_head k0 _ k Hhead).
  - now rewrite IH.
  - rewrite map_app. apply in_or_app. right. now left.
Qed.

Lemma fold_define (props acc : Datatypes.list (string * any)) :
  distinct (map fst (acc ++ props)) = true ->
  fold_left (fun o kv => define o (fst kv) (snd kv)) props acc = acc ++ props.
Proof.
  revert acc. induction props as [| [k v] props IH]; intros acc Hd.
  - now rewrite app_nil_r.
  - simpl. rewrite (define_fresh acc k v props Hd).
    rewrite IH; rewrite <- app_assoc; [reflexivity | exact Hd].
Qed.

Lemma plain_read_back (v : any) : plain v = true -> read_back v.
Proof.
  induction v as [| b | l | s | items IH | props IH | bytes | rs] using any_induction;
    intros Hplain; try discriminate; intros rest fuel Hfuel;
    (destruct fuel as [| n]; [lia |]).
  - reflexivity.
  - destruct b; reflexivity.
  - apply read_value_quote.
  - destruct items as [| x items]; [reflexivity |].
    assert (Hall : Forall (fun v => plain v = true /\ read_back v) (x :: items)).
    { change (forallb plain (x :: items) = true) in Hplain.
      rewrite forallb_forall in Hplain. rewrite Forall_forall in *.
      intros y Hy. split; [now apply Hplain | apply IH; [exact Hy | now apply Hplain]]. }
    change (JSON.stringify (Arr (x :: items)))
      with (String "[" (JSON.join "," (map JSON.stringify (x :: items)) +:+ "]")) in *.
    set (body := JSON.join "," (map JSON.stringify (x :: items))) in *.
    assert (Hbody : String.length body + 1 < n).
    { change (String.length (String "[" (body +:+ "]")))
        with (S (String.length (body +:+ "]"))) in Hfuel.
      rewrite length_append in Hfuel. change (String.length "]") with 1 in Hfuel. lia. }
    assert (Hopens : opens_value (body +:+ "]" +:+ rest)).
    { subst body. destruct items as [| y items].
      - simpl. apply stringify_opens. apply (Forall_inv Hall).
      - simpl map. rewrite join_cons, !append_assoc. apply stringify_opens.
        apply (Forall_inv Hall). }
    destruct Hopens as (c & r & Hr & Hws & Hclose).
    change (String "[" (body +:+ "]") +:+ rest) with (String "[" ((body +:+ "]") +:+ rest)).
    rewrite append_assoc.
    rewrite (read_value_array (body +:+ "]" +:+ rest) r c n);
      [| rewrite Hr; simpl; now rewrite Hws | exact Hclose].
    rewrite <- Hr. subst body.
    rewrite read_elements_stringify; [reflexivity | discriminate | exact Hall | exact Hbody].
  - destruct props as [| [k x] props]; [reflexivity |].
    change (distinct (map fst ((k, x) :: props))
            && forallb (fun kv => plain (snd kv)) ((k, x) :: props) = true) in Hplain.
    apply andb_true_iff in Hplain. destruct Hplain as [Hkeys Hvalues].
    assert (Hall : Forall (fun kv => plain (snd kv) = true /\ read_back (snd kv))
                     ((k, x) :: props)).
    { rewrite forallb_forall in Hvalues. rewrite Forall_forall in *.
      intros y Hy. split; [now apply Hvalues | apply IH; [exact Hy | now apply Hvalues]]. }
    change (JSON.stringify (Obj ((k, x) :: props)))
      with (String "{" (JSON.join "," (map member ((k, x) :: props)) +:+ "}")) in *.
    set (body := JSON.join "," (map member ((k, x) :: props))) in *.
    assert (Hbody : String.length body + 1 < n).
    { change (String.length (String "{" (body +:+ "}")))
        with (S (String.length (body +:+ "}"))) in Hfuel.
      rewrite length_append in Hfuel. change (String.length "}") with 1 in Hfuel. lia. }
    assert (Hhead : exists r, body +:+ "}" +:+ rest = String (chr 34) r).
    { subst body. destruct props as [| q props].
      - simpl JSON.join. unfold member. rewrite !append_assoc, quote_head. eauto.
      - simpl map. rewrite join_cons. unfold member at 1.
        rewrite !append_assoc, quote_head. eauto. }
    destruct Hhead as [r Hr].
    change (String "{" (body +:+ "}") +:+ rest) with (String "{" ((body +:+ "}") +:+ rest)).
    rewrite append_assoc.
    rewrite (read_value_object (body +:+ "}" +:+ rest) r); [| now rewrite Hr].
    rewrite <- Hr. subst body.
    rewrite read_members_stringify; [| discriminate | exact Hall | exact Hbody].
    rewrite fold_define; [reflexivity | exact Hkeys].
Qed.

(** parse after stringify is the identity on the plain values. *)
Lemma parse_stringify_plain (v : any) :
  plain v = true -> JSON.parse (JSON.stringify v) = Some v.
Proof.
  intros Hplain. unfold JSON.parse.
  assert (Hnil : JSON.stringify v = JSON.stringify v +:+ EmptyString).
  { generalize (JSON.stringify v). intros s. induction s; simpl; congruence. }
  rewrite Hnil at 2.
  rewrite (plain_read_back v Hplain); [reflexivity | lia].
Qed.

(* ================================================================== *)
(** * The configuration: who may change it, and what is saved          *)
(* ================================================================== *)

Lemma bind_fulfilled {A B : Type} (m : Async A) (k : A -> Async B) (fuel : nat)
    (w w' : World) (a : A) :
  m fuel w = Fulfilled a w' -> (x <- m ;; k x) fuel w = k a fuel w'.
Proof. intros H. unfold bind. now rewrite H. Qed.

(** A session resolves to a truthy record or to null. *)
Lemma resolved_user_truthy (request : Request) (m : Map.t) :
  truthy (resolved_user request m) = negb (match resolved_user request m with
                                           | Null => true
                                           | _ => false
                                           end).
Proof.
  unfold resolved_user.
  destruct (session_userId request) as [[| | | key | | | |] |]; try reflexivity.
  destruct (truthy_string key); [| reflexivity].
  unfold record_at. destruct (truthy (json_read m key)) eqn:Ht; [| reflexivity].
  rewrite Ht. now destruct (json_read m key).
Qed.

Lemma resolved_user_null (request : Request) (m : Map.t) :
  resolved_user request m = Null -> truthy (resolved_user request m) = false.
Proof. intros H. now rewrite H. Qed.

Lemma resolved_user_some (request : Request) (m : Map.t) :
  resolved_user request m <> Null -> truthy (resolved_user request m) = true.
Proof.
  intros H. rewrite resolved_user_truthy.
  now destruct (resolved_user request m).
Qed.

(** The configuration that the admin route reads. *)
Lemma read_config_outcome (env : option MockEnv.Env) (fuel : nat) (w : World) :
  exists w',
    read_config env fuel w
    = Fulfilled (match env with
                 | Some _ => config_at (memoryStore w)
                 | None => emptyConfig
                 end) w'
    /\ memoryStore w' = memoryStore w.
Proof.
  unfold read_config, try_catch. destruct env as [e |].
  - destruct (get_json_read (MockEnv.boltKV e) "config" fuel w) as (w' & Hget & Hsame).
    rewrite (bind_fulfilled _ _ _ _ _ _ Hget). now exists w'.
  - eexists. split; reflexivity.
Qed.

Lemma save_outcome (env : option MockEnv.Env) (config saved : any) (fuel : nat) (w : World) :
  save env config saved fuel w
  = match env with
    | Some _ =>
        Fulfilled (answer saved 200)
          (with_store w (Map.set (memoryStore w) "config" (JSON.stringify config)))
    | None =>
        Fulfilled (answer (Obj [("error", Str "KV storage not available in this environment")]) 500)
          (logged w "boltKV is not available in the current environment")
    end.
Proof. destruct env; reflexivity. Qed.

Lemma plain_authConfig (ds : Datatypes.list string) (r : option bool) :
  plain (authConfig ds r) = true.
Proof.
  assert (H : forallb plain (map Str ds) = true) by (induction ds; simpl; auto).
  unfold authConfig. destruct r; simpl; rewrite H; reflexivity.
Qed.

(** What is read after a plain, truthy value was saved. *)
Lemma json_read_saved (m : Map.t) (key : string) (v : any) :
  plain v = true ->
  json_read (Map.set m key (JSON.stringify v)) key = v.
Proof.
  intros Hplain. unfold json_read.
  rewrite Map_get_set_same.
  pose proof (parse_stringify_plain v Hplain) as Hparse.
  now rewrite (parse_nonempty _ _ Hparse), Hparse.
Qed.

Lemma config_at_saved (m : Map.t) (v : any) :
  plain v = true -> truthy v = true ->
  config_at (Map.set m "config" (JSON.stringify v)) = v.
Proof.
  intros Hplain Htruthy. unfold config_at. cbv zeta.
  now rewrite (json_read_saved m "config" v Hplain), Htruthy.
Qed.

Lemma auth_required_config (m : Map.t) :
  truthy (json_read m "config") = true ->
  auth_required m = is_true (prop (config_at m) "requireAuth").
Proof. intros H. unfold auth_required, config_at. cbv zeta. now rewrite H. Qed.

Section ConfigFacts.
Variable fieldErrors_of : any -> any.
Variable toLowerCase : string -> string.
Variable trim : string -> string.

(** X23. A request whose session resolves to no user changes nothing and
    learns nothing: the admin page redirects it to the login page, and the
    admin action and both handlers of the configuration API answer
    Unauthorized (401); the store is as it was. *)
Theorem requests_without_a_user_change_nothing (request : Request) (formData : AdminForm)
    (method body : string) (env : option MockEnv.Env) (fuel : nat) (w : World) :
  resolved_user request (memoryStore w) = Null ->
  let unauthorized := answer (Obj [("error", Str "Unauthorized")]) 401 in
  exists w',
    memoryStore w' = memoryStore w
    /\ admin_loader request env fuel w
       = Fulfilled (answer_redirect "/login?redirectTo=/admin") w'
    /\ admin_action toLowerCase trim request formData env fuel w = Fulfilled unauthorized w'
    /\ config_loader request env fuel w = Fulfilled unauthorized w'
    /\ config_action fieldErrors_of request method body env fuel w = Fulfilled unauthorized w'.
Proof.
  intros Hnull. cbv zeta.
  destruct (getUser_outcome request env fuel w) as (w' & Huser & Hsame).
  rewrite Hnull in Huser. exists w'.
  unfold admin_loader, admin_action, config_loader, config_action.
  rewrite !(bind_fulfilled _ _ _ _ _ _ Huser).
  repeat match goal with |- _ /\ _ => split end; first [exact Hsame | reflexivity].
Qed.

(** What the admin action does once the user and the configuration are
    read. *)
Lemma admin_action_steps (request : Request) (formData : AdminForm)
    (env : option MockEnv.Env) (fuel : nat) (w : World) :
  resolved_user request (memoryStore w) <> Null ->
  exists w1 w2,
    memoryStore w2 = memoryStore w
    /\ getUser request env fuel w = Fulfilled (resolved_user request (memoryStore w)) w1
    /\ read_config env fuel w1
       = Fulfilled (match env with
                    | Some _ => config_at (memoryStore w)
                    | None => emptyConfig
                    end) w2.
Proof.
  intros Huser.
  destruct (getUser_outcome request env fuel w) as (w1 & Hget & Hsame1).
  destruct (read_config_outcome env fuel w1) as (w2 & Hread & Hsame2).
  exists w1, w2. rewrite Hsame1 in Hread.
  split; [congruence | split; assumption].
Qed.

(** X24. Without a binding of the store in the environment nothing is
    saved: the admin action and the action of the configuration API are
    fulfilled with a status other than 200 and leave the store as it is, and
    both loaders show an empty list of domains to a user whose session
    resolves through the emulator, whatever the store holds. *)
Theorem without_a_binding_nothing_is_saved (request : Request) (formData : AdminForm)
    (method body : string) (fuel : nat) (w : World) :
  (exists reply status w',
     admin_action toLowerCase trim request formData None fuel w
     = Fulfilled (answer reply status) w'
     /\ memoryStore w' = memoryStore w /\ status <> 200%Z)
  /\ (exists reply status w',
        config_action fieldErrors_of request method body None fuel w
        = Fulfilled (answer reply status) w'
        /\ memoryStore w' = memoryStore w /\ status <> 200%Z)
  /\ (resolved_user request (memoryStore w) <> Null ->
      exists w' w'',
        admin_loader request None fuel w
        = Fulfilled (answer (Obj [("authConfig", emptyConfig);
                                  ("user", resolved_user request (memoryStore w))]) 200) w'
        /\ config_loader request None fuel w
           = Fulfilled (answer (Obj [("config", emptyConfig)]) 200) w'').
Proof.
  destruct (getUser_outcome request None fuel w) as (w1 & Huser & Hsame1).
  destruct (read_config_outcome None fuel w1) as (w2 & Hread & Hsame2).
  assert (Hsame : memoryStore w2 = memoryStore w) by congruence.
  repeat match goal with |- _ /\ _ => split end.
  - unfold admin_action. rewrite (bind_fulfilled _ _ _ _ _ _ Huser).
    destruct (truthy (resolved_user request (memoryStore w))); cbn [negb];
      [| do 3 eexists; split; [reflexivity | split; [exact Hsame1 | discriminate]]].
    cbv zeta. rewrite (bind_fulfilled _ _ _ _ _ _ Hread).
    destruct (same (f_action formData) "add_domain");
      [destruct (DomainSchema (domain_of toLowerCase trim formData)) as [| message messages];
       [destruct (domain_of toLowerCase trim formData) as [domain |] |] |
       destruct (same (f_action formData) "remove_domain");
       [| destruct (same (f_action formData) "toggle_auth_requirement")]];
      (do 3 eexists; split; [reflexivity | split; [exact Hsame | discriminate]]).
  - unfold config_action. rewrite (bind_fulfilled _ _ _ _ _ _ Huser).
    destruct (truthy (resolved_user request (memoryStore w))); cbn [negb];
      [| do 3 eexists; split; [reflexivity | split; [exact Hsame1 | discriminate]]].
    destruct (String.eqb method "POST"); cbn [negb];
      [| do 3 eexists; split; [reflexivity | split; [exact Hsame1 | discriminate]]].
    unfold try_catch.
    destruct (JSON.parse body) as [data |];
      [destruct (authConfigSchema data) as [config |] |];
      (do 3 eexists; split; [reflexivity | split; [exact Hsame1 | discriminate]]).
  - intros Hresolved. apply resolved_user_some in Hresolved.
    unfold admin_loader, config_loader.
    rewrite !(bind_fulfilled _ _ _ _ _ _ Huser), Hresolved. cbn [negb].
    rewrite (bind_fulfilled _ _ _ _ _ _ Hread).
    do 2 eexists. split; reflexivity.
Qed.

Lemma existsb_domains (ds : Datatypes.list string) (domain : string) :
  existsb (fun d => equals (Some d) domain) (map Str ds) = true <-> In domain ds.
Proof.
  rewrite existsb_exists. split.
  - intros (x & Hin & Heq). apply in_map_iff in Hin. destruct Hin as (d & <- & Hin).
    simpl in Heq. apply String.eqb_eq in Heq. now subst.
  - intros Hin. exists (Str domain). split; [now apply in_map | apply String.eqb_refl].
Qed.

Lemma assign_allowedDomains (ds ds' : Datatypes.list string) (r : option bool) :
  assign (authConfig ds r) "allowedDomains" (Arr (map Str ds')) = authConfig ds' r.
Proof. reflexivity. Qed.

Lemma filter_domains (ds : Datatypes.list string) (domain : string) :
  filter (fun d => negb (equals (Some d) domain)) (map Str ds)
  = map Str (filter (fun d => negb (String.eqb d domain)) ds).
Proof.
  induction ds as [| d ds IH]; [reflexivity |].
  cbn [map filter]. change (equals (Some (Str d)) domain) with (String.eqb d domain).
  destruct (String.eqb d domain); cbn [negb map]; now rewrite IH.
Qed.

Lemma filter_all {A : Type} (l : Datatypes.list A) : filter (fun _ => negb false) l = l.
Proof.
  induction l as [| x l IH]; [reflexivity |].
  change (x :: filter (fun _ => negb false) l = x :: l). now rewrite IH.
Qed.

Lemma filter_absent (ds : Datatypes.list string) (domain : string) :
  ~ In domain ds -> filter (fun d => negb (String.eqb d domain)) ds = ds.
Proof.
  induction ds as [| d ds IH]; intros Habsent; [reflexivity |].
  simpl. destruct (String.eqb_spec d domain) as [-> | Hne].
  - exfalso. apply Habsent. now left.
  - simpl. f_equal. apply IH. intros Hin. apply Habsent. now right.
Qed.

(** The state after the configuration was saved. *)
Lemma saved_state (w2 : World) (m : Map.t) (config : any) :
  memoryStore w2 = m ->
  plain config = true -> truthy config = true ->
  let w' := with_store w2 (Map.set (memoryStore w2) "config" (JSON.stringify config)) in
  memoryStore w' = Map.set m "config" (JSON.stringify config)
  /\ config_at (memoryStore w') = config.
Proof.
  intros <- Hplain Htruthy. cbv zeta. split; [reflexivity |].
  now apply config_at_saved.
Qed.

(** X25. Adding a domain, for a user whose session resolves and a stored
    configuration of the type AuthConfig (or none): the domain is lower-cased
    and trimmed; one shorter than three characters and one that is in the list
    are refused (400) and nothing is written; any other is appended to the
    list, the requirement is kept, and the saved configuration reads back. *)
Theorem add_domain_appends (request : Request) (d : string) (ra : option string)
    (e : MockEnv.Env) (ds : Datatypes.list string) (r : option bool) (fuel : nat) (w : World) :
  resolved_user request (memoryStore w) <> Null ->
  config_at (memoryStore w) = authConfig ds r ->
  let domain := trim (toLowerCase d) in
  let form := {| f_action := Some "add_domain"; f_domain := Some d; f_requireAuth := ra |} in
  let refused message := answer (Obj [("errors", Obj [("domain", Str message)])]) 400 in
  exists w',
    ((JS.length domain < 3)%nat ->
     admin_action toLowerCase trim request form (Some e) fuel w
     = Fulfilled (refused "Domain must be at least 3 characters") w'
     /\ memoryStore w' = memoryStore w)
    /\ ((3 <= JS.length domain)%nat -> In domain ds ->
        admin_action toLowerCase trim request form (Some e) fuel w
        = Fulfilled (refused "Domain already exists in whitelist") w'
        /\ memoryStore w' = memoryStore w)
    /\ ((3 <= JS.length domain)%nat -> ~ In domain ds ->
        exists w'',
          admin_action toLowerCase trim request form (Some e) fuel w
          = Fulfilled (answer (Obj [("success", Bool true);
                                    ("message",
                                     Str ("Domain " +:+ domain +:+ " added to whitelist"))]) 200)
              w''
          /\ memoryStore w''
             = Map.set (memoryStore w) "config" (JSON.stringify (authConfig (ds ++ [domain]) r))
          /\ config_at (memoryStore w'') = authConfig (ds ++ [domain]) r).
Proof.
  intros Huser Hconfig. cbv zeta.
  destruct (admin_action_steps request
              {| f_action := Some "add_domain"; f_domain := Some d; f_requireAuth := ra |}
              (Some e) fuel w Huser) as (w1 & w2 & Hsame & Hget & Hread).
  rewrite Hconfig in Hread.
  assert (Hrun : admin_action toLowerCase trim request
                   {| f_action := Some "add_domain"; f_domain := Some d; f_requireAuth := ra |}
                   (Some e) fuel w
                 = (if (3 <=? JS.length (trim (toLowerCase d)))%nat
                    then
                      if existsb (fun x => equals (Some x) (trim (toLowerCase d))) (map Str ds)
                      then ret (answer (Obj [("errors",
                                              Obj [("domain",
                                                    Str "Domain already exists in whitelist")])])
                                  400)
                      else save (Some e)
                             (authConfig (ds ++ [trim (toLowerCase d)]) r)
                             (Obj [("success", Bool true);
                                   ("message",
                                    Str ("Domain " +:+ trim (toLowerCase d)
                                         +:+ " added to whitelist"))])
                    else ret (answer (Obj [("errors",
                                            Obj [("domain",
                                                  Str "Domain must be at least 3 characters")])])
                                400)) fuel w2).
  { unfold admin_action. rewrite (bind_fulfilled _ _ _ _ _ _ Hget).
    rewrite (resolved_user_some _ _ Huser). cbn [negb]. cbv zeta.
    rewrite (bind_fulfilled _ _ _ _ _ _ Hread).
    cbn [f_action same]. change ("add_domain" =? "add_domain")%string with true. cbv iota.
    unfold domain_of, DomainSchema, z_min. cbn [f_domain option_map].
    destruct (3 <=? JS.length (trim (toLowerCase d)))%nat; [| reflexivity].
    change (prop (authConfig ds r) "allowedDomains") with (Some (Arr (map Str ds))).
    cbv iota beta.
    destruct (existsb (fun x => equals (Some x) (trim (toLowerCase d))) (map Str ds));
      [reflexivity |].
    rewrite <- (assign_allowedDomains ds (ds ++ [trim (toLowerCase d)]) r).
    now rewrite map_app. }
  exists w2. repeat match goal with |- _ /\ _ => split end.
  - intros Hshort. rewrite Hrun.
    destruct (Nat.leb_spec 3 (JS.length (trim (toLowerCase d)))); [lia |].
    split; [reflexivity | exact Hsame].
  - intros Hlong Hin. rewrite Hrun.
    destruct (Nat.leb_spec 3 (JS.length (trim (toLowerCase d)))); [| lia].
    rewrite (proj2 (existsb_domains ds _) Hin).
    split; [reflexivity | exact Hsame].
  - intros Hlong Hnew. rewrite Hrun.
    destruct (Nat.leb_spec 3 (JS.length (trim (toLowerCase d)))); [| lia].
    destruct (existsb (fun x => equals (Some x) (trim (toLowerCase d))) (map Str ds)) eqn:Hin;
      [apply existsb_domains in Hin; contradiction |].
    rewrite save_outcome. eexists. split; [reflexivity |].
    apply saved_state; [exact Hsame | apply plain_authConfig | reflexivity].
Qed.

(** X26. Removing a domain always succeeds for such a user and
    configuration: every occurrence of the lower-cased and trimmed domain
    leaves the list, the others keep their order, the requirement is kept;
    a domain that is not in the list, or a form without the field, saves the
    list as it was. *)
Theorem remove_domain_filters (request : Request) (field ra : option string)
    (e : MockEnv.Env) (ds : Datatypes.list string) (r : option bool) (fuel : nat) (w : World) :
  resolved_user request (memoryStore w) <> Null ->
  config_at (memoryStore w) = authConfig ds r ->
  let domain := option_map (fun d => trim (toLowerCase d)) field in
  let form := {| f_action := Some "remove_domain"; f_domain := field; f_requireAuth := ra |} in
  let kept := match domain with
              | Some domain => filter (fun d => negb (String.eqb d domain)) ds
              | None => ds
              end in
  exists w',
    admin_action toLowerCase trim request form (Some e) fuel w
    = Fulfilled (answer (Obj [("success", Bool true);
                              ("message",
                               Str ("Domain " +:+ shown domain +:+ " removed from whitelist"))])
                   200) w'
    /\ memoryStore w' = Map.set (memoryStore w) "config" (JSON.stringify (authConfig kept r))
    /\ config_at (memoryStore w') = authConfig kept r
    /\ (forall d, In d kept <-> In d ds /\ domain <> Some d)
    /\ ((forall d, domain = Some d -> ~ In d ds) -> kept = ds).
Proof.
  intros Huser Hconfig. cbv zeta.
  destruct (admin_action_steps request
              {| f_action := Some "remove_domain"; f_domain := field; f_requireAuth := ra |}
              (Some e) fuel w Huser) as (w1 & w2 & Hsame & Hget & Hread).
  rewrite Hconfig in Hread.
  set (domain := option_map (fun d => trim (toLowerCase d)) field).
  set (kept := match domain with
               | Some domain => filter (fun d => negb (String.eqb d domain)) ds
               | None => ds
               end).
  assert (Hrun : admin_action toLowerCase trim request
                   {| f_action := Some "remove_domain"; f_domain := field; f_requireAuth := ra |}
                   (Some e) fuel w
                 = save (Some e) (authConfig kept r)
                     (Obj [("success", Bool true);
                           ("message",
                            Str ("Domain " +:+ shown domain +:+ " removed from whitelist"))])
                     fuel w2).
  { unfold admin_action. rewrite (bind_fulfilled _ _ _ _ _ _ Hget).
    rewrite (resolved_user_some _ _ Huser). cbn [negb]. cbv zeta.
    rewrite (bind_fulfilled _ _ _ _ _ _ Hread).
    cbn [f_action same]. change ("remove_domain" =? "add_domain")%string with false.
    change ("remove_domain" =? "remove_domain")%string with true. cbv iota.
    unfold domain_of. cbn [f_domain]. fold domain.
    change (prop (authConfig ds r) "allowedDomains") with (Some (Arr (map Str ds))).
    cbv iota beta.
    rewrite <- (assign_allowedDomains ds kept r).
    subst kept. destruct domain as [domain' |].
    - now rewrite filter_domains.
    - now rewrite filter_all. }
  rewrite Hrun, save_outcome. eexists. split; [reflexivity |].
  destruct (saved_state w2 (memoryStore w) (authConfig kept r) Hsame
              (plain_authConfig kept r) eq_refl) as [Hstore Hread'].
  repeat match goal with |- _ /\ _ => split end; [exact Hstore | exact Hread' | |].
  - intros d. subst kept. destruct domain as [domain' |].
    + rewrite filter_In, negb_true_iff, String.eqb_neq. split.
      * intros [Hin Hne]. split; [exact Hin | congruence].
      * intros [Hin Hne]. split; [exact Hin | congruence].
    + split; [intros Hin; split; [exact Hin | discriminate] | now intros [Hin _]].
  - intros Habsent. subst kept. destruct domain as [domain' |]; [| reflexivity].
    apply filter_absent, Habsent. reflexivity.
Qed.


(** What the index loader answers to a request without a user. *)
Lemma index_loader_for_nobody (visitor : Request) (env : option MockEnv.Env)
    (fuel : nat) (w : World) :
  resolved_user visitor (memoryStore w) = Null ->
  exists w',
    index_loader visitor env fuel w
    = Fulfilled (if auth_required (memoryStore w)
                 then reply_redirect "/login"
                 else reply_json (Obj [])) w'.
Proof.
  intros Hnobody.
  destruct (index_loader_outcome visitor env fuel w) as (w' & Hrun & _).
  rewrite Hnobody in Hrun. cbn [truthy negb] in Hrun. rewrite andb_true_r in Hrun.
  now exists w'.
Qed.

Lemma auth_required_saved (m : Map.t) (ds : Datatypes.list string) (r : option bool) :
  auth_required (Map.set m "config" (JSON.stringify (authConfig ds r)))
  = match r with
    | Some b => b
    | None => false
    end.
Proof.
  unfold auth_required. rewrite (json_read_saved m "config" _ (plain_authConfig ds r)).
  destruct r as [[|] |]; reflexivity.
Qed.

(** X27. Switching the requirement, for a user whose session resolves and a
    stored configuration of the type AuthConfig (or none): the requirement
    becomes true exactly when the field of the form is the text on, the list
    of domains is kept, and from then on the index page sends a request
    without a user to the login page exactly when the requirement is true. *)
Theorem toggle_sets_the_requirement (request : Request) (field ra : option string)
    (e : MockEnv.Env) (ds : Datatypes.list string) (r : option bool) (fuel : nat) (w : World) :
  resolved_user request (memoryStore w) <> Null ->
  config_at (memoryStore w) = authConfig ds r ->
  let on := same ra "on" in
  let form := {| f_action := Some "toggle_auth_requirement"; f_domain := field;
                 f_requireAuth := ra |} in
  exists w',
    admin_action toLowerCase trim request form (Some e) fuel w
    = Fulfilled (answer (Obj [("success", Bool true);
                              ("message",
                               Str ("Authentication requirement "
                                    +:+ (if on then "enabled" else "disabled")))]) 200) w'
    /\ memoryStore w'
       = Map.set (memoryStore w) "config" (JSON.stringify (authConfig ds (Some on)))
    /\ config_at (memoryStore w') = authConfig ds (Some on)
    /\ (forall (visitor : Request) (env' : option MockEnv.Env) (fuel' : nat),
          resolved_user visitor (memoryStore w') = Null ->
          exists w'',
            index_loader visitor env' fuel' w'
            = Fulfilled (if on then reply_redirect "/login" else reply_json (Obj [])) w'').
Proof.
  intros Huser Hconfig. cbv zeta.
  destruct (admin_action_steps request
              {| f_action := Some "toggle_auth_requirement"; f_domain := field;
                 f_requireAuth := ra |}
              (Some e) fuel w Huser) as (w1 & w2 & Hsame & Hget & Hread).
  rewrite Hconfig in Hread.
  assert (Hrun : admin_action toLowerCase trim request
                   {| f_action := Some "toggle_auth_requirement"; f_domain := field;
                      f_requireAuth := ra |}
                   (Some e) fuel w
                 = save (Some e) (authConfig ds (Some (same ra "on")))
                     (Obj [("success", Bool true);
                           ("message",
                            Str ("Authentication requirement "
                                 +:+ (if same ra "on" then "enabled" else "disabled")))])
                     fuel w2).
  { unfold admin_action. rewrite (bind_fulfilled _ _ _ _ _ _ Hget).
    rewrite (resolved_user_some _ _ Huser). cbn [negb]. cbv zeta.
    rewrite (bind_fulfilled _ _ _ _ _ _ Hread).
    cbn [f_action f_requireAuth same].
    change ("toggle_auth_requirement" =? "add_domain")%string with false.
    change ("toggle_auth_requirement" =? "remove_domain")%string with false.
    change ("toggle_auth_requirement" =? "toggle_auth_requirement")%string with true.
    cbv iota. destruct r; reflexivity. }
  rewrite Hrun, save_outcome. eexists. split; [reflexivity |].
  destruct (saved_state w2 (memoryStore w) (authConfig ds (Some (same ra "on"))) Hsame
              (plain_authConfig _ _) eq_refl) as [Hstore Hread'].
  repeat match goal with |- _ /\ _ => split end; [exact Hstore | exact Hread' |].
  intros visitor env' fuel' Hnobody.
  destruct (index_loader_for_nobody visitor env' fuel' _ Hnobody) as (w'' & Hindex).
  rewrite Hstore, auth_required_saved in Hindex. now exists w''.
Qed.

Lemma strings_of (items : Datatypes.list any) :
  forallb is_string items = true -> exists ds, items = map Str ds.
Proof.
  induction items as [| x items IH]; intros Hall; [now exists [] |].
  simpl in Hall. apply andb_true_iff in Hall. destruct Hall as [Hx Hall].
  destruct (IH Hall) as [ds ->]. destruct x; try discriminate.
  now exists (s :: ds).
Qed.

Lemma forallb_strings (ds : Datatypes.list string) : forallb is_string (map Str ds) = true.
Proof. induction ds as [| d ds IH]; [reflexivity | exact IH]. Qed.

(** What the schema of the configuration API lets through. *)
Lemma authConfigSchema_some (data config : any) :
  authConfigSchema data = Some config <->
  exists ds, ds <> [] /\ prop data "allowedDomains" = Some (Arr (map Str ds))
             /\ config = authConfig ds None.
Proof.
  unfold authConfigSchema. split.
  - destruct data as [| | | | | props | |]; try discriminate.
    cbn [prop]. destruct (lookup props "allowedDomains") as [[| | | | items | | |] |];
      try discriminate.
    destruct (forallb is_string items) eqn:Hall; [| discriminate].
    destruct (strings_of _ Hall) as [ds ->].
    destruct ds as [| d ds]; [discriminate |].
    cbn [andb map List.length Nat.leb]. intros H. injection H as <-.
    exists (d :: ds). split; [discriminate | split; reflexivity].
  - intros (ds & Hne & Hprop & ->).
    destruct data as [| | | | | props | |]; try discriminate.
    cbn [prop] in Hprop. rewrite Hprop.
    rewrite forallb_strings. destruct ds; [congruence | reflexivity].
Qed.

(** X28. The action of the configuration API is always fulfilled, and it
    writes in one case only: a POST of a user whose session resolves, with a
    body that is JSON for an object whose allowedDomains is a non-empty array
    of strings; in every other case the store is as it was.  It then saves
    that list alone and answers with it: whatever the stored configuration
    required before, no requirement is left, and the index page is open to
    every request. *)
Theorem config_update_drops_the_requirement (request : Request) (method body : string)
    (e : MockEnv.Env) (fuel : nat) (w : World) :
  exists reply w',
    config_action fieldErrors_of request method body (Some e) fuel w = Fulfilled reply w'
    /\ (memoryStore w' = memoryStore w
        \/ exists data ds,
             method = "POST"
             /\ resolved_user request (memoryStore w) <> Null
             /\ JSON.parse body = Some data
             /\ prop data "allowedDomains" = Some (Arr (map Str ds))
             /\ ds <> []
             /\ reply = answer (Obj [("success", Bool true);
                                     ("config", authConfig ds None)]) 200
             /\ memoryStore w'
                = Map.set (memoryStore w) "config" (JSON.stringify (authConfig ds None)))
    /\ (forall data ds,
          resolved_user request (memoryStore w) <> Null ->
          method = "POST" ->
          JSON.parse body = Some data ->
          prop data "allowedDomains" = Some (Arr (map Str ds)) ->
          ds <> [] ->
          reply = answer (Obj [("success", Bool true); ("config", authConfig ds None)]) 200
          /\ memoryStore w'
             = Map.set (memoryStore w) "config" (JSON.stringify (authConfig ds None))
          /\ config_at (memoryStore w') = authConfig ds None
          /\ (forall (visitor : Request) (env' : option MockEnv.Env) (fuel' : nat),
                exists w'',
                  index_loader visitor env' fuel' w' = Fulfilled (reply_json (Obj [])) w'')).
Proof.
  destruct (getUser_outcome request (Some e) fuel w) as (w1 & Huser & Hsame).
  unfold config_action. rewrite (bind_fulfilled _ _ _ _ _ _ Huser).
  destruct (truthy (resolved_user request (memoryStore w))) eqn:Htruthy; cbn [negb].
  2: { do 2 eexists. split; [reflexivity |]. split; [left; exact Hsame |].
       intros data ds Hresolved. apply resolved_user_some in Hresolved. congruence. }
  destruct (String.eqb_spec method "POST") as [-> | Hmethod]; cbn [negb].
  2: { do 2 eexists. split; [reflexivity |]. split; [left; exact Hsame |].
       intros data ds _ Hpost. congruence. }
  unfold try_catch.
  destruct (JSON.parse body) as [data |] eqn:Hparse.
  2: { do 2 eexists. split; [reflexivity |]. split; [left; exact Hsame |].
       intros data ds _ _ Hdata. discriminate. }
  destruct (authConfigSchema data) as [config |] eqn:Hschema.
  2: { do 2 eexists. split; [reflexivity |]. split; [left; exact Hsame |].
       intros data' ds _ _ Hdata Hprop Hne. injection Hdata as <-.
       assert (Hsome : authConfigSchema data = Some (authConfig ds None))
         by (apply authConfigSchema_some; exists ds; auto).
       congruence. }
  apply authConfigSchema_some in Hschema. destruct Hschema as (ds & Hne & Hprop & ->).
  rewrite save_outcome.
  set (w' := with_store w1 (Map.set (memoryStore w1) "config"
                              (JSON.stringify (authConfig ds None)))).
  destruct (saved_state w1 (memoryStore w) (authConfig ds None) Hsame
              (plain_authConfig _ _) eq_refl) as [Hstore Hread']. fold w' in Hstore, Hread'.
  exists (answer (Obj [("success", Bool true); ("config", authConfig ds None)]) 200), w'.
  split; [reflexivity |]. split.
  - right. exists data, ds.
    repeat match goal with |- _ /\ _ => split end;
      [reflexivity | | reflexivity | exact Hprop | exact Hne | reflexivity | exact Hstore].
    intros Hnull. rewrite Hnull in Htruthy. discriminate.
  - intros data' ds' _ _ Hdata Hprop' Hne'. injection Hdata as <-.
    assert (Hds : ds' = ds).
    { rewrite Hprop in Hprop'. injection Hprop' as Hmap. symmetry.
      clear - Hmap. revert ds' Hmap.
      induction ds as [| d ds IH]; intros [| d' ds'] Hmap; try discriminate;
        [reflexivity | injection Hmap as -> Hmap; f_equal; now apply IH]. }
    subst ds'.
    repeat match goal with |- _ /\ _ => split end; [reflexivity | exact Hstore | exact Hread' |].
    intros visitor env' fuel'.
    destruct (index_loader_outcome visitor env' fuel' w') as (w'' & Hindex & _).
    rewrite Hstore, auth_required_saved in Hindex. now exists w''.
Qed.

(** X29. When the configuration in force is a value without allowedDomains
    (an object that holds only requireAuth, say), the admin action cannot add
    or remove a domain: for a user whose session resolves it throws a
    TypeError and writes nothing, while the loader of the page hands that
    configuration to the page as it is. *)
Theorem domains_need_a_list (request : Request) (formData : AdminForm) (e : MockEnv.Env)
    (fuel : nat) (w : World) :
  resolved_user request (memoryStore w) <> Null ->
  prop (config_at (memoryStore w)) "allowedDomains" = None ->
  exists w' w'',
    memoryStore w' = memoryStore w
    /\ (f_action formData = Some "add_domain" ->
        DomainSchema (domain_of toLowerCase trim formData) = [] ->
        admin_action toLowerCase trim request formData (Some e) fuel w
        = Rejected "TypeError" w')
    /\ (f_action formData = Some "remove_domain" ->
        admin_action toLowerCase trim request formData (Some e) fuel w
        = Rejected "TypeError" w')
    /\ admin_loader request (Some e) fuel w
       = Fulfilled (answer (Obj [("authConfig", config_at (memoryStore w));
                                 ("user", resolved_user request (memoryStore w))]) 200) w''.
Proof.
  intros Huser Hnone.
  destruct (admin_action_steps request formData (Some e) fuel w Huser)
    as (w1 & w2 & Hsame & Hget & Hread).
  exists w2, w2. repeat match goal with |- _ /\ _ => split end.
  - exact Hsame.
  - intros Haction Hschema.
    unfold admin_action. rewrite (bind_fulfilled _ _ _ _ _ _ Hget).
    rewrite (resolved_user_some _ _ Huser). cbn [negb]. cbv zeta.
    rewrite (bind_fulfilled _ _ _ _ _ _ Hread).
    rewrite Haction. cbn [same]. change ("add_domain" =? "add_domain")%string with true.
    cbv iota. rewrite Hschema.
    destruct (domain_of toLowerCase trim formData) as [domain |] eqn:Hdomain;
      [| discriminate Hschema].
    now rewrite Hnone.
  - intros Haction.
    unfold admin_action. rewrite (bind_fulfilled _ _ _ _ _ _ Hget).
    rewrite (resolved_user_some _ _ Huser). cbn [negb]. cbv zeta.
    rewrite (bind_fulfilled _ _ _ _ _ _ Hread).
    rewrite Haction. cbn [same]. change ("remove_domain" =? "add_domain")%string with false.
    change ("remove_domain" =? "remove_domain")%string with true.
    cbv iota. now rewrite Hnone.
  - unfold admin_loader. rewrite (bind_fulfilled _ _ _ _ _ _ Hget).
    rewrite (resolved_user_some _ _ Huser). cbn [negb].
    now rewrite (bind_fulfilled _ _ _ _ _ _ Hread).
Qed.

End ConfigFacts.

(* ================================================================== *)
(** * The mock data                                                    *)
(* ================================================================== *)

Lemma setupMockData_outcome (createdAt : string) (fuel : nat) (w : World) :
  exists w1,
    MockData.setupMockData createdAt fuel w = Fulfilled tt w1
    /\ memoryStore w1
       = Map.set
           (Map.set
              (Map.set (memoryStore w) "user:test@example.com"
                 (JSON.stringify (MockData.testUser createdAt)))
              "allowedDomains" (JSON.stringify (Arr [Str "example.com"])))
           "config" (JSON.stringify (Obj [("requireAuth", Bool false)])).
Proof. eexists. split; reflexivity. Qed.

(** X30. setupMockData is fulfilled from every state and writes three keys
    and no other: the test user, the list of domains and the configuration
    read back, through the emulator, as the values that were written.  The
    user can log in with the advertised credentials (given a validator that
    accepts the address and a lower-casing that leaves it as it is); the
    configuration asks for no authentication, so the index page is open to
    every request, and it holds no list of domains. *)
Theorem mock_data_reads_back (createdAt : string) (fuel : nat) (w : World) :
  exists w1,
    MockData.setupMockData createdAt fuel w = Fulfilled tt w1
    /\ json_read (memoryStore w1) "user:test@example.com" = MockData.testUser createdAt
    /\ json_read (memoryStore w1) "allowedDomains" = Arr [Str "example.com"]
    /\ config_at (memoryStore w1) = Obj [("requireAuth", Bool false)]
    /\ prop (config_at (memoryStore w1)) "allowedDomains" = None
    /\ (forall key, key <> "user:test@example.com" -> key <> "allowedDomains" ->
          key <> "config" -> Map.get (memoryStore w1) key = Map.get (memoryStore w) key)
    /\ (forall (isEmail : string -> bool) (toLowerCase : string -> string)
               (rto : option string) (env : option MockEnv.Env) (fuel' : nat),
          isEmail "test@example.com" = true ->
          toLowerCase "test@example.com" = "test@example.com" ->
          exists w2,
            login_action isEmail toLowerCase
              {| l_email := Some "test@example.com"; l_password := Some "password123";
                 l_redirectTo := rto |} env fuel' w1
            = Fulfilled (redirect (redirectTo_or_root rto) (Some (Str "test-user-123"))) w2)
    /\ (forall (visitor : Request) (env : option MockEnv.Env) (fuel' : nat),
          exists w2, index_loader visitor env fuel' w1 = Fulfilled (reply_json (Obj [])) w2).
Proof.
  destruct (setupMockData_outcome createdAt fuel w) as (w1 & Hrun & Hstore).
  exists w1. split; [exact Hrun |].
  assert (Huser : json_read (memoryStore w1) "user:test@example.com"
                  = MockData.testUser createdAt).
  { unfold json_read at 1. rewrite Hstore.
    rewrite !Map_get_set_other by discriminate.
    pose proof (json_read_saved (memoryStore w) "user:test@example.com"
                  (MockData.testUser createdAt) eq_refl) as H.
    unfold json_read in H. exact H. }
  assert (Hdomains : json_read (memoryStore w1) "allowedDomains" = Arr [Str "example.com"]).
  { unfold json_read at 1. rewrite Hstore.
    rewrite Map_get_set_other by discriminate.
    pose proof (json_read_saved
                  (Map.set (memoryStore w) "user:test@example.com"
                     (JSON.stringify (MockData.testUser createdAt)))
                  "allowedDomains" (Arr [Str "example.com"]) eq_refl) as H.
    unfold json_read in H. exact H. }
  assert (Hconfig : json_read (memoryStore w1) "config" = Obj [("requireAuth", Bool false)]).
  { rewrite Hstore. now apply json_read_saved. }
  repeat match goal with |- _ /\ _ => split end.
  - exact Huser.
  - exact Hdomains.
  - unfold config_at. cbv zeta. now rewrite Hconfig.
  - unfold config_at. cbv zeta. now rewrite Hconfig.
  - intros key H1 H2 H3. rewrite Hstore.
    now rewrite !Map_get_set_other by congruence.
  - intros isEmail toLowerCase rto env fuel' Hmail Hlower.
    assert (Hschema : LoginSchema isEmail (Some "test@example.com") (Some "password123") = []).
    { unfold LoginSchema. cbn [zfd_text]. unfold z_email. rewrite Hmail. reflexivity. }
    destruct (login_outcome isEmail toLowerCase "test@example.com" "password123" rto env fuel'
                w1 Hschema) as (w2 & Hlogin & _).
    cbv zeta in Hlogin. rewrite Hlower in Hlogin.
    change ("user:" +:+ "test@example.com") with "user:test@example.com" in Hlogin.
    unfold record_at in Hlogin. cbv zeta in Hlogin. rewrite Huser in Hlogin.
    now exists w2.
  - intros visitor env fuel'.
    destruct (index_loader_outcome visitor env fuel' w1) as (w2 & Hindex & _).
    unfold auth_required in Hindex. rewrite Hconfig in Hindex. now exists w2.
Qed.

(* ================================================================== *)
(** * The properties of the configuration, run on examples             *)
(* ================================================================== *)

Lemma requests_without_a_user_change_nothing_witness :
  exists w',
    admin_action lower_ascii (fun s => s)
      {| session_userId := Some (Str "test-user-123"); query_redirectTo := None |}
      {| f_action := Some "toggle_auth_requirement"; f_domain := None;
         f_requireAuth := None |}
      (Some (MockEnv.createMockEnv tt)) 1
      {| memoryStore := [("user:test@example.com", JSON.stringify testUser)]; console := [] |}
    = Fulfilled (answer (Obj [("error", Str "Unauthorized")]) 401) w'.
Proof.
  destruct (requests_without_a_user_change_nothing (fun _ => Obj []) lower_ascii (fun s => s)
              {| session_userId := Some (Str "test-user-123"); query_redirectTo := None |}
              {| f_action := Some "toggle_auth_requirement"; f_domain := None;
                 f_requireAuth := None |}
              "POST" "{}" (Some (MockEnv.createMockEnv tt)) 1
              {| memoryStore := [("user:test@example.com", JSON.stringify testUser)];
                 console := [] |}
              eq_refl) as (w' & _ & _ & Haction & _).
  exists w'. exact Haction.
Defined.

Lemma add_domain_appends_witness :
  exists w'',
    admin_action lower_ascii (fun s => s)
      {| session_userId := Some (Str "user:ada@example.com"); query_redirectTo := None |}
      {| f_action := Some "add_domain"; f_domain := Some "Example.COM"; f_requireAuth := None |}
      (Some (MockEnv.createMockEnv tt)) 1
      {| memoryStore :=
           [("user:ada@example.com", JSON.stringify (Obj [("id", Str "user:ada@example.com")]))];
         console := [] |}
    = Fulfilled (answer (Obj [("success", Bool true);
                              ("message", Str "Domain example.com added to whitelist")]) 200) w''
    /\ config_at (memoryStore w'') = authConfig ["example.com"] None.
Proof.
  destruct (add_domain_appends lower_ascii (fun s => s)
              {| session_userId := Some (Str "user:ada@example.com"); query_redirectTo := None |}
              "Example.COM" None (MockEnv.createMockEnv tt) [] None 1
              {| memoryStore :=
                   [("user:ada@example.com",
                     JSON.stringify (Obj [("id", Str "user:ada@example.com")]))];
                 console := [] |}
              ltac:(vm_compute; discriminate) eq_refl) as (w' & _ & _ & Hnew).
  destruct (Hnew ltac:(vm_compute; lia) ltac:(simpl; tauto)) as (w'' & Hrun & _ & Hread).
  exists w''. split; [exact Hrun | exact Hread].
Defined.

Lemma remove_domain_filters_witness :
  exists w',
    admin_action lower_ascii (fun s => s)
      {| session_userId := Some (Str "user:ada@example.com"); query_redirectTo := None |}
      {| f_action := Some "remove_domain"; f_domain := Some "Example.com";
         f_requireAuth := None |}
      (Some (MockEnv.createMockEnv tt)) 1
      {| memoryStore :=
           [("user:ada@example.com", JSON.stringify (Obj [("id", Str "user:ada@example.com")]));
            ("config",
             JSON.stringify (authConfig ["bolt.diy"; "example.com"; "example.org"] (Some true)))];
         console := [] |}
    = Fulfilled (answer (Obj [("success", Bool true);
                              ("message", Str "Domain example.com removed from whitelist")]) 200)
        w'
    /\ config_at (memoryStore w') = authConfig ["bolt.diy"; "example.org"] (Some true).
Proof.
  destruct (remove_domain_filters lower_ascii (fun s => s)
              {| session_userId := Some (Str "user:ada@example.com"); query_redirectTo := None |}
              (Some "Example.com") None (MockEnv.createMockEnv tt)
              ["bolt.diy"; "example.com"; "example.org"] (Some true) 1
              {| memoryStore :=
                   [("user:ada@example.com",
                     JSON.stringify (Obj [("id", Str "user:ada@example.com")]));
                    ("config",
                     JSON.stringify
                       (authConfig ["bolt.diy"; "example.com"; "example.org"] (Some true)))];
                 console := [] |}
              ltac:(vm_compute; discriminate) ltac:(vm_compute; reflexivity))
    as (w' & Hrun & _ & Hread & _).
  exists w'. split; [exact Hrun | exact Hread].
Defined.

Lemma toggle_sets_the_requirement_witness :
  exists w' w'',
    admin_action lower_ascii (fun s => s)
      {| session_userId := Some (Str "user:ada@example.com"); query_redirectTo := None |}
      {| f_action := Some "toggle_auth_requirement"; f_domain := None;
         f_requireAuth := Some "on" |}
      (Some (MockEnv.createMockEnv tt)) 1
      {| memoryStore :=
           [("user:ada@example.com", JSON.stringify (Obj [("id", Str "user:ada@example.com")]))];
         console := [] |}
    = Fulfilled (answer (Obj [("success", Bool true);
                              ("message", Str "Authentication requirement enabled")]) 200) w'
    /\ index_loader {| session_userId := None; query_redirectTo := None |} None 1 w'
       = Fulfilled (reply_redirect "/login") w''.
Proof.
  destruct (toggle_sets_the_requirement lower_ascii (fun s => s)
              {| session_userId := Some (Str "user:ada@example.com"); query_redirectTo := None |}
              None (Some "on") (MockEnv.createMockEnv tt) [] None 1
              {| memoryStore :=
                   [("user:ada@example.com",
                     JSON.stringify (Obj [("id", Str "user:ada@example.com")]))];
                 console := [] |}
              ltac:(vm_compute; discriminate) eq_refl) as (w' & Hrun & _ & _ & Hindex).
  destruct (Hindex {| session_userId := None; query_redirectTo := None |} None 1 eq_refl)
    as (w'' & Hredirect).
  exists w', w''. split; [exact Hrun | exact Hredirect].
Defined.

Lemma domains_need_a_list_witness :
  exists w1 w',
    MockData.setupMockData "2025-01-01T00:00:00.000Z" 1
      {| memoryStore := [("test-user-123", JSON.stringify testUser)]; console := [] |}
    = Fulfilled tt w1
    /\ admin_action lower_ascii (fun s => s)
         {| session_userId := Some (Str "test-user-123"); query_redirectTo := None |}
         {| f_action := Some "add_domain"; f_domain := Some "example.org";
            f_requireAuth := None |}
         (Some (MockEnv.createMockEnv tt)) 1 w1
       = Rejected "TypeError" w'.
Proof.
  destruct (setupMockData_outcome "2025-01-01T00:00:00.000Z" 1
              {| memoryStore := [("test-user-123", JSON.stringify testUser)]; console := [] |})
    as (w1 & Hsetup & Hstore).
  destruct (domains_need_a_list lower_ascii (fun s => s)
              {| session_userId := Some (Str "test-user-123"); query_redirectTo := None |}
              {| f_action := Some "add_domain"; f_domain := Some "example.org";
                 f_requireAuth := None |}
              (MockEnv.createMockEnv tt) 1 w1
              ltac:(rewrite Hstore; vm_compute; discriminate)
              ltac:(rewrite Hstore; vm_compute; reflexivity))
    as (w' & _ & _ & Hadd & _).
  exists w1, w'. split; [exact Hsetup | exact (Hadd eq_refl eq_refl)].
Defined.

Example config_update_opens_the_index :
  exists w' w'',
    config_action (fun _ => Obj [])
      {| session_userId := Some (Str "user:ada@example.com"); query_redirectTo := None |}
      "POST"
      (JSON.stringify (Obj [("allowedDomains", Arr [Str "example.com"]);
                            ("requireAuth", Bool true)]))
      (Some (MockEnv.createMockEnv tt)) 1
      {| memoryStore :=
           [("user:ada@example.com", JSON.stringify (Obj [("id", Str "user:ada@example.com")]));
            ("config", JSON.stringify (authConfig ["bolt.diy"] (Some true)))];
         console := [] |}
    = Fulfilled (answer (Obj [("success", Bool true);
                              ("config", authConfig ["example.com"] None)]) 200) w'
    /\ index_loader {| session_userId := None; query_redirectTo := None |} None 1 w'
       = Fulfilled (reply_json (Obj [])) w''.
Proof. do 2 eexists. split; vm_compute; reflexivity. Qed.
